(** * FlowMetrics semantic graph: builder, persistence and query layer

    A shallow embedding of
      - [graphs/graph_builder_clean.py]  (class [FlowMetricsGraphBuilder]),
      - [graphs/simple_graph_client.py]  (class [SimpleGraphClient], SQLite),
      - [graphs/neo4j_client.py]         (class [Neo4jGraphClient]),
    and the properties of the edge classifier, of the persistence step and
    of the two query back ends.

    Conventions.
      - A Python [float] is an exact rational ([Q]); equality of numbers is
        [Qeq] ([==]).  The decimal literals of the source (1.3, 0.5, ...)
        are the corresponding fractions.
      - A Python [str] is a [string]; [str.lower] and the case folding of
        the data bases act on the ASCII letters.
      - A [dict] is an association list in insertion order.
      - What the source obtains from a library is a [Variable] of the
        section that uses it, or an argument: the sentence encoder,
        scikit-learn's cosine similarity, [uuid.uuid4], the builtin
        [round], the iteration order of a [set], the wall clock, the leaf
        encoders of [json] and SQLite's reading of a numeric text.
      - The [id] of a stored node is a [string] in the graph data base and
        an [option string] in the SQLite table, whose key column also
        holds NULL. *)

From Stdlib Require Import List String Ascii Bool Arith ZArith QArith Qminmax Lia.
From Stdlib Require Import Sorting.Sorted Permutation DecimalString.
Import ListNotations.

Set Warnings "-register-all".

Local Open Scope string_scope.
Local Open Scope list_scope.
Local Open Scope Q_scope.

(** ** Numbers *)

(** [a < b] on floats, as a test. *)
Definition Qltb (a b : Q) : bool := negb (Qle_bool b a).

(** [a >= b] on floats, as a test. *)
Definition Qgeb (a b : Q) : bool := Qle_bool b a.

(** Python's [min(a, b)]: the first argument unless the second is smaller. *)
Definition py_min (a b : Q) : Q := if Qltb b a then b else a.

(** [len(l)] as a float operand. *)
Definition Q_of_nat (n : nat) : Q := inject_Z (Z.of_nat n).

(** ** Strings *)

Definition ascii_lower (c : ascii) : ascii :=
  let n := nat_of_ascii c in
  if (65 <=? n)%nat && (n <=? 90)%nat then ascii_of_nat (n + 32) else c.

(** [s.lower()] *)
Fixpoint lower (s : string) : string :=
  match s with
  | EmptyString => EmptyString
  | String c s' => String (ascii_lower c) (lower s')
  end.

(** [q in s] for two strings. *)
Fixpoint is_substring (q s : string) : bool :=
  String.prefix q s ||
  match s with
  | EmptyString => false
  | String _ s' => is_substring q s'
  end.

(** [x in l] for a list of strings. *)
Definition mem_str (x : string) (l : list string) : bool :=
  existsb (String.eqb x) l.

(** [' '.join(l)] and friends. *)
Fixpoint join (sep : string) (l : list string) : string :=
  match l with
  | [] => ""
  | [x] => x
  | x :: rest => (x ++ sep ++ join sep rest)%string
  end.

(** ** JSON values ([Any], and the documents written by [json.dump]) *)

Inductive json : Type :=
| JNull
| JBool (b : bool)
| JInt (z : Z)
| JFloat (q : Q)
| JStr (s : string)
| JArr (l : list json)
| JObj (l : list (string * json)).

(** ** Data model ([GraphNode], [GraphEdge]) *)

Record GraphNode : Type := mkGraphNode {
  n_id : string;
  n_type : string;
  n_content : string;
  n_value : json;
  n_timestamp : string;
  n_confidence : Q;
  n_source : string;
  n_tags : list string;
  n_audience_relevance : list (string * Q);
  n_embedding : list Q;
  n_metadata : list (string * json)
}.

Record GraphEdge : Type := mkGraphEdge {
  e_source_id : string;
  e_target_id : string;
  e_relationship_type : string;
  e_weight : Q;
  e_confidence : Q;
  e_semantic_similarity : Q;
  e_metadata : list (string * json)
}.

(** A data point as the extractor hands it to [create_graph_nodes]. *)
Record DataPoint : Type := mkDataPoint {
  p_type : string;
  p_content : string;
  p_value : json;
  p_timestamp : string;
  p_confidence : Q;
  p_source : string;
  p_tags : list string;
  p_metadata : list (string * json)
}.

(** ** Dictionaries in insertion order *)

Section Dict.
Context {V : Type}.

(** [d.get(k)] *)
Fixpoint dict_get (k : string) (d : list (string * V)) : option V :=
  match d with
  | [] => None
  | (k', v) :: rest => if String.eqb k k' then Some v else dict_get k rest
  end.

(** [d[k] = v]: an existing key keeps its place, a new one goes last. *)
Fixpoint dict_set (k : string) (v : V) (d : list (string * V)) : list (string * V) :=
  match d with
  | [] => [(k, v)]
  | (k', v') :: rest =>
      if String.eqb k k' then (k, v) :: rest else (k', v') :: dict_set k v rest
  end.

(** [d.values()] *)
Definition dict_values (d : list (string * V)) : list V := map snd d.

Definition dict_keys (d : list (string * V)) : list string := map fst d.
End Dict.

(** [d[k] = d.get(k, 0) + 1] *)
Definition dict_incr (k : string) (d : list (string * nat)) : list (string * nat) :=
  dict_set k (match dict_get k d with Some c => c | None => 0 end + 1)%nat d.

(** The members of [set(l)], each once (their iteration order is the
    interpreter's). *)
Definition set_of (l : list string) : list string := nodup string_dec l.

(** [set(l1) & set(l2)] *)
Definition set_inter (l1 l2 : list string) : list string :=
  set_of (filter (fun t => mem_str t l2) l1).

(** ** The graph builder *)

Record Audience : Type := mkAudience {
  a_keywords : list string;
  a_interests : list string
}.

(** [self.audiences] *)
Definition audiences : list (string * Audience) :=
  [ ("investors",
     mkAudience ["revenue"; "growth"; "arr"; "mrr"; "churn"; "funding"; "runway"]
                ["financial_metrics"; "growth_trajectory"; "market_position"]);
    ("customers",
     mkAudience ["feature"; "update"; "integration"; "dashboard"; "support"]
                ["product_updates"; "feature_releases"; "user_experience"]);
    ("internal_team",
     mkAudience ["performance"; "velocity"; "sprint"; "kpi"; "productivity"]
                ["team_performance"; "operational_metrics"; "strategic_initiatives"]);
    ("developer_community",
     mkAudience ["api"; "integration"; "documentation"; "technical"]
                ["technical_updates"; "integration_capabilities"]) ].

(** The builder's state: [self.nodes] (a dict keyed by node id) and
    [self.edges].  The networkx graph [self.nx_graph] mirrors the two for
    the edge-list file and is left out. *)
Record Builder : Type := mkBuilder {
  nodes : list (string * GraphNode);
  edges : list GraphEdge
}.

(** [FlowMetricsGraphBuilder()] *)
Definition new_builder : Builder := mkBuilder [] [].

(** [_analyze_relationship(node1, node2, similarity)]: the relationship
    type, the final weight and the confidence. *)
Definition _analyze_relationship (node1 node2 : GraphNode) (similarity : Q)
  : string * Q * Q :=
  let shared_tags := set_inter (n_tags node1) (n_tags node2) in
  let tag_overlap :=
    Q_of_nat (List.length shared_tags) /
    Q_of_nat (Nat.max (Nat.max (List.length (n_tags node1)) (List.length (n_tags node2))) 1) in
  let relationship_type := "relevance" in
  let base_weight := similarity in
  let confidence := 7 # 10 in
  let '(relationship_type, base_weight, confidence) :=
    if (String.eqb (n_type node1) "insight" && String.eqb (n_type node2) "metric")
       || (String.eqb (n_type node2) "insight" && String.eqb (n_type node1) "metric")
    then
      if existsb (fun tag => mem_str tag shared_tags)
                 ["growth"; "improvement"; "performance"]
      then ("causality", py_min (base_weight * (13 # 10)) 1, 8 # 10)
      else (relationship_type, base_weight, confidence)
    else (relationship_type, base_weight, confidence) in
  let '(relationship_type, base_weight, confidence) :=
    if (String.eqb (n_type node1) "event" && mem_str (n_type node2) ["metric"; "insight"])
       || (String.eqb (n_type node2) "event" && mem_str (n_type node1) ["metric"; "insight"])
    then ("influence", py_min (base_weight * (12 # 10)) 1, 75 # 100)
    else (relationship_type, base_weight, confidence) in
  let final_weight := py_min (base_weight * (1 + tag_overlap * (5 # 10))) 1 in
  (relationship_type, final_weight, confidence).

Section GraphBuilder.

(** [sklearn.metrics.pairwise.cosine_similarity] on two vectors. *)
Variable cosine_similarity : list Q -> list Q -> Q.
(** [self.sentence_model.encode], one content string at a time. *)
Variable encode : string -> list Q.
(** The identifier that the [i]-th call of [uuid.uuid4] returns. *)
Variable uuid4 : nat -> string.
(** The builtin [round(x, 3)]. *)
Variable round3 : Q -> Q.
(** [list(s)] for a set [s] of strings, given its members. *)
Variable set_order : list string -> list string.

(** [calculate_audience_relevance(content, tags)] *)
Definition calculate_audience_relevance (content : string) (tags : list string)
  : list (string * Q) :=
  let text_for_analysis := (content ++ " " ++ join " " tags)%string in
  let content_lower := lower text_for_analysis in
  map (fun '(audience, profile) =>
         let keyword_matches :=
           List.length (filter (fun keyword => is_substring keyword content_lower)
                          (a_keywords profile)) in
         let keyword_score :=
           py_min (Q_of_nat keyword_matches / Q_of_nat (List.length (a_keywords profile))) 1 in
         let tag_relevance :=
           fold_left (fun acc tag =>
                        if existsb (fun interest => is_substring interest tag)
                                   (a_interests profile)
                        then acc + (2 # 10) else acc)
                     tags 0 in
         let score := keyword_score * (7 # 10) + py_min tag_relevance 1 * (3 # 10) in
         (audience, round3 score))
      audiences.

(** The loop of [create_graph_nodes], from index [i] on. *)
Fixpoint create_nodes_from (i : nat) (data_points : list DataPoint)
         (d : list (string * GraphNode)) : list (string * GraphNode) :=
  match data_points with
  | [] => d
  | point :: rest =>
      let node_id := uuid4 i in
      let node :=
        mkGraphNode node_id (p_type point) (p_content point) (p_value point)
                    (p_timestamp point) (p_confidence point) (p_source point)
                    (p_tags point)
                    (calculate_audience_relevance (p_content point) (p_tags point))
                    (encode (p_content point))
                    (p_metadata point) in
      create_nodes_from (S i) rest (dict_set node_id node d)
  end.

(** [create_graph_nodes(data_points)] *)
Definition create_graph_nodes (data_points : list DataPoint) (b : Builder) : Builder :=
  mkBuilder (create_nodes_from 0 data_points (nodes b)) (edges b).

(** [calculate_semantic_similarity(embedding1, embedding2)] *)
Definition calculate_semantic_similarity (embedding1 embedding2 : list Q) : Q :=
  cosine_similarity embedding1 embedding2.

(** The body of the inner loop of [create_semantic_edges] once the
    similarity of the pair is known: the edge it appends, if any. *)
Definition edge_for_similarity (similarity_threshold : Q)
           (node1 node2 : GraphNode) (similarity : Q) : option GraphEdge :=
  let '(relationship_type, weight, confidence) :=
    _analyze_relationship node1 node2 similarity in
  if Qltb similarity_threshold similarity && Qltb 0 weight then
    Some (mkGraphEdge (n_id node1) (n_id node2) relationship_type weight
                      confidence similarity
                      [ ("similarity_score", JFloat similarity);
                        ("source_types", JStr (n_type node1 ++ "-" ++ n_type node2)%string);
                        ("shared_tags",
                         JArr (map JStr (set_order
                                           (set_inter (n_tags node1) (n_tags node2))))) ])
  else None.

(** The body of the inner loop of [create_semantic_edges]. *)
Definition edge_for_pair (similarity_threshold : Q) (node1 node2 : GraphNode)
  : option GraphEdge :=
  edge_for_similarity similarity_threshold node1 node2
    (calculate_semantic_similarity (n_embedding node1) (n_embedding node2)).

(** The inner loop: [node1] against the nodes after it. *)
Fixpoint edges_from (similarity_threshold : Q) (node1 : GraphNode)
         (later : list GraphNode) : list GraphEdge :=
  match later with
  | [] => []
  | node2 :: rest =>
      match edge_for_pair similarity_threshold node1 node2 with
      | Some edge => edge :: edges_from similarity_threshold node1 rest
      | None => edges_from similarity_threshold node1 rest
      end
  end.

(** The outer loop: the edges appended to [self.edges], in order. *)
Fixpoint semantic_edges (similarity_threshold : Q) (node_list : list GraphNode)
  : list GraphEdge :=
  match node_list with
  | [] => []
  | node1 :: rest =>
      edges_from similarity_threshold node1 rest
      ++ semantic_edges similarity_threshold rest
  end.

(** [create_semantic_edges(similarity_threshold)] *)
Definition create_semantic_edges (similarity_threshold : Q) (b : Builder) : Builder :=
  let node_list := dict_values (nodes b) in
  mkBuilder (nodes b) (edges b ++ semantic_edges similarity_threshold node_list).

(** A graph build, as [generate_graph.main] runs it on a new builder. *)
Definition build_graph (similarity_threshold : Q) (data_points : list DataPoint)
  : Builder :=
  create_semantic_edges similarity_threshold
    (create_graph_nodes data_points new_builder).

End GraphBuilder.

(** ** Persistence ([save_graph]) *)

(** [dataclasses.asdict(node)]: the fields in declaration order. *)
Definition asdict_node (node : GraphNode) : json :=
  JObj [ ("id", JStr (n_id node));
         ("type", JStr (n_type node));
         ("content", JStr (n_content node));
         ("value", n_value node);
         ("timestamp", JStr (n_timestamp node));
         ("confidence", JFloat (n_confidence node));
         ("source", JStr (n_source node));
         ("tags", JArr (map JStr (n_tags node)));
         ("audience_relevance",
          JObj (map (fun kv => (fst kv, JFloat (snd kv))) (n_audience_relevance node)));
         ("embedding", JArr (map JFloat (n_embedding node)));
         ("metadata", JObj (n_metadata node)) ].

(** [dataclasses.asdict(edge)] *)
Definition asdict_edge (edge : GraphEdge) : json :=
  JObj [ ("source_id", JStr (e_source_id edge));
         ("target_id", JStr (e_target_id edge));
         ("relationship_type", JStr (e_relationship_type edge));
         ("weight", JFloat (e_weight edge));
         ("confidence", JFloat (e_confidence edge));
         ("semantic_similarity", JFloat (e_semantic_similarity edge));
         ("metadata", JObj (e_metadata edge)) ].

(** A count as a JSON integer. *)
Definition JCount (n : nat) : json := JInt (Z.of_nat n).

(** [n.audience_relevance.get(audience, 0)] *)
Definition relevance_for (audience : string) (d : list (string * Q)) : Q :=
  match dict_get audience d with Some v => v | None => 0 end.

(** The [summary] dict of [save_graph]. *)
Definition graph_summary (b : Builder) : json :=
  let node_list := dict_values (nodes b) in
  let node_types :=
    fold_left (fun d node => dict_incr (n_type node) d) node_list [] in
  let source_distribution :=
    fold_left (fun d node => dict_incr (n_source node) d) node_list [] in
  let relationship_types :=
    fold_left (fun d edge => dict_incr (e_relationship_type edge) d) (edges b) [] in
  let audience_coverage :=
    map (fun audience =>
           (audience,
            List.length
              (filter (fun n => Qltb (3 # 10)
                                     (relevance_for audience (n_audience_relevance n)))
                      node_list)))
        (dict_keys audiences) in
  let counts (d : list (string * nat)) := JObj (map (fun kv => (fst kv, JCount (snd kv))) d) in
  JObj [ ("graph_summary",
          JObj [ ("total_nodes", JCount (List.length (nodes b)));
                 ("total_edges", JCount (List.length (edges b)));
                 ("node_types", counts node_types);
                 ("relationship_types", counts relationship_types);
                 ("audience_coverage", counts audience_coverage);
                 ("source_distribution", counts source_distribution) ]) ].

(** The three JSON artifacts that [save_graph] writes. *)
Record SavedGraph : Type := mkSavedGraph {
  nodes_json : string;
  edges_json : string;
  summary_json : string
}.

Section Persistence.

(** [list(s)] for a set [s] of strings, given its members. *)
Variable set_order : list string -> list string.
(** [json]'s encoder of a float ([float.__repr__]). *)
Variable encode_float : Q -> string.
(** [json]'s encoder of a string (quotes and escapes, [ensure_ascii]). *)
Variable encode_string : string -> string.

(** A line break followed by the indentation of nesting level [level]
    ([indent=2]). *)
Fixpoint indentation (level : nat) : string :=
  match level with
  | O => ""
  | S l => ("  " ++ indentation l)%string
  end.

Definition newline_indent (level : nat) : string :=
  (String "010"%char "" ++ indentation level)%string.

(** [json.dumps(j, indent=2)], the text that [json.dump] writes, for a
    value at nesting level [level]. *)
Fixpoint dumps_at (level : nat) (j : json) : string :=
  match j with
  | JNull => "null"
  | JBool true => "true"
  | JBool false => "false"
  | JInt z => NilZero.string_of_int (Z.to_int z)
  | JFloat q => encode_float q
  | JStr s => encode_string s
  | JArr [] => "[]"
  | JArr (x :: rest) =>
      ("[" ++ newline_indent (S level) ++ dumps_at (S level) x
       ++ (fix items (l : list json) : string :=
             match l with
             | [] => ""
             | y :: l' =>
                 "," ++ newline_indent (S level) ++ dumps_at (S level) y ++ items l'
             end) rest
       ++ newline_indent level ++ "]")%string
  | JObj [] => "{}"
  | JObj ((k, v) :: rest) =>
      ("{" ++ newline_indent (S level) ++ encode_string k ++ ": " ++ dumps_at (S level) v
       ++ (fix items (l : list (string * json)) : string :=
             match l with
             | [] => ""
             | (k', v') :: l' =>
                 "," ++ newline_indent (S level) ++ encode_string k' ++ ": "
                 ++ dumps_at (S level) v' ++ items l'
             end) rest
       ++ newline_indent level ++ "}")%string
  end.

Definition dumps (j : json) : string := dumps_at 0 j.

(** The [nodes_data] dict of [save_graph]; [now] is what
    [datetime.now().isoformat()] returns there. *)
Definition nodes_data (b : Builder) (now : string) : json :=
  let node_list := dict_values (nodes b) in
  JObj [ ("metadata",
          JObj [ ("total_nodes", JCount (List.length (nodes b)));
                 ("node_types",
                  JArr (map JStr (set_order (set_of (map n_type node_list)))));
                 ("creation_timestamp", JStr now) ]);
         ("nodes", JArr (map asdict_node node_list)) ].

(** The [edges_data] dict of [save_graph]. *)
Definition edges_data (b : Builder) (now : string) : json :=
  JObj [ ("metadata",
          JObj [ ("total_edges", JCount (List.length (edges b)));
                 ("relationship_types",
                  JArr (map JStr (set_order (set_of (map e_relationship_type (edges b))))));
                 ("creation_timestamp", JStr now) ]);
         ("edges", JArr (map asdict_edge (edges b))) ].

(** [save_graph()]: the content of [flowmetrics_nodes.json],
    [flowmetrics_edges.json] and [graph_summary.json]; [now1] and [now2]
    are the two readings of the clock.  The plain edge-list file is not a
    JSON artifact and is left out. *)
Definition save_graph (b : Builder) (now1 now2 : string) : SavedGraph :=
  mkSavedGraph (dumps (nodes_data b now1))
               (dumps (edges_data b now2))
               (dumps (graph_summary b)).

End Persistence.

(** ** Query layer: what both back ends store *)

(** The [audience_relevance_json] column or property: absent (NULL), a text
    that [json.loads] rejects, or the text of a dict of scores. *)
Inductive AudienceColumn : Type :=
| ColNull
| ColMalformed
| ColDict (d : list (string * Q)).

(** A stored node.  [K] is the type of its [id]: the graph data base
    MERGEs its nodes on a string, while the [id TEXT PRIMARY KEY] column of
    the SQLite table holds a text or NULL, which Python reads as [None]. *)
Record StoredNode (K : Type) : Type := mkStoredNode {
  sn_id : K;
  sn_type : string;
  sn_content : string;
  sn_value : json;
  sn_timestamp : string;
  sn_confidence : Q;
  sn_source : string;
  sn_tags : list string;
  sn_audience_relevance_json : AudienceColumn;
  sn_embedding_json : list Q
}.

Arguments mkStoredNode {K}.
Arguments sn_id {K}.
Arguments sn_type {K}.
Arguments sn_content {K}.
Arguments sn_value {K}.
Arguments sn_timestamp {K}.
Arguments sn_confidence {K}.
Arguments sn_source {K}.
Arguments sn_tags {K}.
Arguments sn_audience_relevance_json {K}.
Arguments sn_embedding_json {K}.

(** The row of the SQLite table that holds a node under its [id]. *)
Definition keyed (n : StoredNode string) : StoredNode (option string) :=
  mkStoredNode (Some (sn_id n)) (sn_type n) (sn_content n) (sn_value n)
               (sn_timestamp n) (sn_confidence n) (sn_source n) (sn_tags n)
               (sn_audience_relevance_json n) (sn_embedding_json n).

Record StoredEdge : Type := mkStoredEdge {
  se_source_id : string;
  se_target_id : string;
  se_relationship_type : string;
  se_weight : Q;
  se_confidence : Q;
  se_semantic_similarity : Q;
  se_metadata_json : list (string * json)
}.

(** A member of the [nodes] list of a nodes file as [load_nodes_from_json]
    reads it with [node.get]: [j_id] is [None] for a node without an [id]
    member (or with a null one), [j_value] is any JSON value, and the other
    members are those of the data model. *)
Record JsonNode : Type := mkJsonNode {
  j_id : option string;
  j_type : string;
  j_content : string;
  j_value : json;
  j_timestamp : string;
  j_confidence : Q;
  j_source : string;
  j_tags : list string;
  j_audience_relevance : list (string * Q);
  j_embedding : list Q
}.


(** The double that C makes of a 64-bit integer, [(double)z]: [z] itself
    up to 53 bits, and beyond that the nearest multiple of the unit of its
    binade, a tie going to the even one. *)
Definition double_of_int (z : Z) : Q :=
  let a := Z.abs z in
  let e := (Z.log2 a - 52)%Z in
  if (e <=? 0)%Z then inject_Z z
  else
    let unit := (2 ^ e)%Z in
    let q := (a / unit)%Z in
    let r := (a mod unit)%Z in
    let m := if (2 * r <? unit)%Z then q
             else if (unit <? 2 * r)%Z then (q + 1)%Z
             else if Z.even q then q else (q + 1)%Z in
    inject_Z (Z.sgn z * m * unit).

(** What the [value REAL] column keeps of a bound parameter: [None] is
    NULL, a float is itself, an integer (a Python [bool] is bound as the
    integer 0 or 1) is turned into a double, and a text is turned into a
    number when it reads as one ([numeric_text], SQLite's reading of a
    numeric literal) and is kept as text otherwise. *)
Definition real_affinity (numeric_text : string -> option Q) (v : json) : json :=
  match v with
  | JBool b => JFloat (if b then 1 else 0)
  | JInt z => JFloat (double_of_int z)
  | JStr s =>
      match numeric_text s with
      | Some q => JFloat q
      | None => JStr s
      end
  | _ => v
  end.

(** The rows that the SQLite loaders write for a node and an edge of the
    JSON files. *)
Definition node_row (numeric_text : string -> option Q) (node : JsonNode)
  : StoredNode (option string) :=
  mkStoredNode (j_id node) (j_type node) (j_content node)
               (real_affinity numeric_text (j_value node))
               (j_timestamp node) (j_confidence node) (j_source node)
               (j_tags node) (ColDict (j_audience_relevance node))
               (j_embedding node).

Definition edge_row (edge : GraphEdge) : StoredEdge :=
  mkStoredEdge (e_source_id edge) (e_target_id edge) (e_relationship_type edge)
               (e_weight edge) (e_confidence edge) (e_semantic_similarity edge)
               (e_metadata edge).

(** [ORDER BY ... DESC] and [list.sort(..., reverse=True)]: a stable sort
    by insertion, where [ltb a b] says that the key of [a] is below the key
    of [b]. *)
Section Sort.
Context {A : Type}.
Variable ltb : A -> A -> bool.

Fixpoint insert_desc (x : A) (l : list A) : list A :=
  match l with
  | [] => [x]
  | y :: ys => if ltb x y then y :: insert_desc x ys else x :: y :: ys
  end.

Definition sort_desc (l : list A) : list A := fold_right insert_desc [] l.
End Sort.

(** A truthy list argument ([if node_types:]): given and not empty. *)
Definition given (l : option (list string)) : bool :=
  match l with
  | Some (_ :: _) => true
  | _ => false
  end.

(** [x IN l] for an argument that is given. *)
Definition in_given (x : string) (l : option (list string)) : bool :=
  match l with
  | Some l' => mem_str x l'
  | None => false
  end.

(** [x IN (?, ..., ?)] on the parameters [keys] in SQLite: a NULL among
    the parameters equals nothing. *)
Definition mem_key (x : string) (keys : list (option string)) : bool :=
  existsb (fun k => match k with
                    | Some y => String.eqb x y
                    | None => false
                    end) keys.

(** The result of [get_filtered_graph]. *)
Record FilteredGraph (K : Type) : Type := mkFilteredGraph {
  fg_nodes : list (StoredNode K);
  fg_edges : list StoredEdge;
  fg_total_nodes : nat;
  fg_total_edges : nat
}.

Arguments mkFilteredGraph {K}.
Arguments fg_nodes {K}.
Arguments fg_edges {K}.
Arguments fg_total_nodes {K}.
Arguments fg_total_edges {K}.

(** A node of the result of [get_audience_focused_graph]: the columns read
    from the stored node, the [relevance_score] key, the [is_expansion] key
    ([false] when the key is absent) and, for an expansion node,
    [connection_count] and [avg_weight]. *)
Record AudienceRow (K : Type) : Type := mkAudienceRow {
  ar_node : StoredNode K;
  ar_relevance_score : Q;
  ar_is_expansion : bool;
  ar_connection : option (nat * Q)
}.

Arguments mkAudienceRow {K}.
Arguments ar_node {K}.
Arguments ar_relevance_score {K}.
Arguments ar_is_expansion {K}.
Arguments ar_connection {K}.

(** The counts of [focus_metadata] (its [avg_relevance] and
    [audience_insights] members are summaries of [nodes] and are left out). *)
Record FocusMetadata : Type := mkFocusMetadata {
  original_relevant_nodes : nat;
  focused_nodes : nat;
  expansion_nodes : nat
}.

Record AudienceGraph (K : Type) : Type := mkAudienceGraph {
  ag_audience : string;
  ag_nodes : list (AudienceRow K);
  ag_edges : list StoredEdge;
  ag_total_nodes : nat;
  ag_total_edges : nat;
  ag_focus_metadata : option FocusMetadata
}.

Arguments mkAudienceGraph {K}.
Arguments ag_audience {K}.
Arguments ag_nodes {K}.
Arguments ag_edges {K}.
Arguments ag_total_nodes {K}.
Arguments ag_total_edges {K}.
Arguments ag_focus_metadata {K}.

Definition by_confidence {K : Type} (a b : StoredNode K) : bool :=
  Qltb (sn_confidence a) (sn_confidence b).

Definition by_weight (a b : StoredEdge) : bool :=
  Qltb (se_weight a) (se_weight b).

(** ** The relational client ([SimpleGraphClient]) *)

Module Simple.

(** The database: the [nodes] table in the order of its rows (a new row
    goes last), the [edges] table with its [AUTOINCREMENT] key, and the
    largest key handed out so far. *)
Record Db : Type := mkDb {
  db_nodes : list (StoredNode (option string));
  db_edges : list (nat * StoredEdge);
  db_edge_seq : nat
}.

(** The database after [create_tables] on a new file. *)
Definition empty : Db := mkDb [] [] 0.

(** Whether [sqlite3] can bind a value as a parameter: not a list or a
    dict, and an integer only within 64 bits. *)
Definition bindable (v : json) : bool :=
  match v with
  | JArr _ | JObj _ => false
  | JInt z => ((- 2 ^ 63 <=? z) && (z <? 2 ^ 63))%Z
  | _ => true
  end.

(** Whether two keys are in conflict under [id TEXT PRIMARY KEY]: two
    equal texts are; NULL is in conflict with no key, NULL included. *)
Definition same_key (a b : option string) : bool :=
  match a, b with
  | Some x, Some y => String.eqb x y
  | _, _ => false
  end.

(** [INSERT OR REPLACE INTO nodes]: the row in conflict with the new one,
    if any, goes and the new row is added. *)
Definition insert_or_replace (row : StoredNode (option string))
           (table : list (StoredNode (option string)))
  : list (StoredNode (option string)) :=
  filter (fun r => negb (same_key (sn_id r) (sn_id row))) table ++ [row].

(** [load_nodes_from_json]: [file_nodes] is the [nodes] member of the
    file; a node whose insertion raises is logged and skipped.  Returns the
    database and [loaded_count]. *)
Fixpoint load_nodes_from_json (numeric_text : string -> option Q)
         (file_nodes : list JsonNode) (db : Db) : Db * nat :=
  match file_nodes with
  | [] => (db, O)
  | node :: rest =>
      if bindable (j_value node) then
        let db' := mkDb (insert_or_replace (node_row numeric_text node) (db_nodes db))
                        (db_edges db) (db_edge_seq db) in
        let '(db'', loaded_count) := load_nodes_from_json numeric_text rest db' in
        (db'', S loaded_count)
      else load_nodes_from_json numeric_text rest db
  end.

(** [INSERT INTO edges]: a new row under the next key. *)
Definition insert_edge (row : StoredEdge) (db : Db) : Db :=
  mkDb (db_nodes db)
       (db_edges db ++ [(S (db_edge_seq db), row)])
       (S (db_edge_seq db)).

(** [load_edges_from_json]: returns the database and [loaded_count]. *)
Fixpoint load_edges_from_json (file_edges : list GraphEdge) (db : Db) : Db * nat :=
  match file_edges with
  | [] => (db, O)
  | edge :: rest =>
      let '(db', loaded_count) := load_edges_from_json rest (insert_edge (edge_row edge) db) in
      (db', S loaded_count)
  end.

(** [SELECT COUNT( * ) FROM nodes] and [... FROM edges], as in
    [get_graph_overview]. *)
Definition total_nodes (db : Db) : nat := List.length (db_nodes db).
Definition total_relationships (db : Db) : nat := List.length (db_edges db).

(** SQLite's [text LIKE pattern]: [%] stands for any run of characters,
    [_] for one character, a letter for itself in either case. *)
Fixpoint like (pattern text : string) : bool :=
  match pattern with
  | EmptyString => match text with EmptyString => true | _ => false end
  | String p pattern' =>
      if Ascii.eqb p "%" then
        (fix any_suffix (t : string) : bool :=
           like pattern' t ||
           match t with
           | EmptyString => false
           | String _ t' => any_suffix t'
           end) text
      else
        match text with
        | EmptyString => false
        | String c text' =>
            (Ascii.eqb p "_" || Ascii.eqb (ascii_lower p) (ascii_lower c))
            && like pattern' text'
        end
  end.

(** [search_nodes(query, limit)] *)
Definition search_nodes (db : Db) (query : string) (limit : nat)
  : list (StoredNode (option string)) :=
  let pattern := ("%" ++ query ++ "%")%string in
  firstn limit
    (sort_desc by_confidence
       (filter (fun n => like pattern (sn_content n) || like pattern (sn_source n))
               (db_nodes db))).

(** [get_filtered_graph(node_types, sources, min_confidence, min_weight,
    tags, limit)] *)
Definition get_filtered_graph (db : Db)
           (node_types sources : option (list string))
           (min_confidence min_weight : Q)
           (tags : option (list string)) (limit : nat)
  : FilteredGraph (option string) :=
  let condition (n : StoredNode (option string)) :=
    Qgeb (sn_confidence n) min_confidence
    && (if given node_types then in_given (sn_type n) node_types else true)
    && (if given sources then in_given (sn_source n) sources else true) in
  let nodes := firstn limit (sort_desc by_confidence (filter condition (db_nodes db))) in
  let node_ids := map sn_id nodes in
  let edges :=
    match node_ids with
    | [] => []
    | _ :: _ =>
        sort_desc by_weight
          (filter (fun e => mem_key (se_source_id e) node_ids
                            && mem_key (se_target_id e) node_ids
                            && Qgeb (se_weight e) min_weight)
                  (map snd (db_edges db)))
    end in
  mkFilteredGraph nodes edges (List.length nodes) (List.length edges).

(** [get_audience_focused_graph(audience, limit)] *)
Definition get_audience_focused_graph (db : Db) (audience : string) (limit : nat)
  : AudienceGraph (option string) :=
  let all_nodes :=
    sort_desc by_confidence
      (filter (fun n => match sn_audience_relevance_json n with
                        | ColNull => false
                        | _ => true
                        end)
              (db_nodes db)) in
  let relevant_nodes :=
    flat_map (fun node =>
                match sn_audience_relevance_json node with
                | ColDict audience_data =>
                    if Qltb 0 (relevance_for audience audience_data)
                    then [mkAudienceRow node (relevance_for audience audience_data)
                                        false None]
                    else []
                | _ => []
                end)
             all_nodes in
  let relevant_nodes :=
    sort_desc (fun a b => Qltb (ar_relevance_score a) (ar_relevance_score b))
              relevant_nodes in
  let relevant_nodes := firstn limit relevant_nodes in
  let edges :=
    match relevant_nodes with
    | [] => []
    | _ :: _ =>
        let node_ids := map (fun r => sn_id (ar_node r)) relevant_nodes in
        sort_desc by_weight
          (filter (fun e => mem_key (se_source_id e) node_ids
                            && mem_key (se_target_id e) node_ids
                            && Qgeb (se_weight e) (3 # 10))
                  (map snd (db_edges db)))
    end in
  mkAudienceGraph audience relevant_nodes edges
                  (List.length relevant_nodes) (List.length edges) None.

End Simple.

(** ** The graph data base client ([Neo4jGraphClient]) *)

Module Neo4j.

(** The data base: the [:Node] nodes and the [RELATES_TO] relationships,
    each with the [id] of the node it starts from and of the node it ends
    at. *)
Record Db : Type := mkDb {
  g_nodes : list (StoredNode string);
  g_rels : list StoredEdge
}.

(** [toLower(text) CONTAINS toLower(query)] *)
Definition contains_ci (text query : string) : bool :=
  is_substring (lower query) (lower text).

(** [search_nodes(query, limit)] *)
Definition search_nodes (db : Db) (query : string) (limit : nat)
  : list (StoredNode string) :=
  firstn limit
    (sort_desc by_confidence
       (filter (fun n => contains_ci (sn_content n) query
                         || contains_ci (sn_source n) query
                         || existsb (fun tag => contains_ci tag query) (sn_tags n))
               (g_nodes db))).

(** [get_filtered_graph(node_types, sources, min_confidence, min_weight,
    tags, limit)] *)
Definition get_filtered_graph (db : Db)
           (node_types sources : option (list string))
           (min_confidence min_weight : Q)
           (tags : option (list string)) (limit : nat) : FilteredGraph string :=
  let condition (n : StoredNode string) :=
    Qgeb (sn_confidence n) min_confidence
    && (if given node_types then in_given (sn_type n) node_types else true)
    && (if given sources then in_given (sn_source n) sources else true)
    && (if given tags then existsb (fun tag => in_given tag tags) (sn_tags n) else true) in
  let nodes := firstn limit (sort_desc by_confidence (filter condition (g_nodes db))) in
  let node_ids := map sn_id nodes in
  let edges :=
    match node_ids with
    | [] => []
    | _ :: _ =>
        sort_desc by_weight
          (filter (fun r => mem_str (se_source_id r) node_ids
                            && mem_str (se_target_id r) node_ids
                            && Qgeb (se_weight r) min_weight)
                  (g_rels db))
    end in
  mkFilteredGraph nodes edges (List.length nodes) (List.length edges).

(** The key [(relevance_score, confidence)] of [a] is below that of [b]. *)
Definition by_relevance_confidence (a b : AudienceRow string) : bool :=
  Qltb (ar_relevance_score a) (ar_relevance_score b)
  || (Qeq_bool (ar_relevance_score a) (ar_relevance_score b)
      && Qltb (sn_confidence (ar_node a)) (sn_confidence (ar_node b))).

(** The sum of the weights of some relationships. *)
Definition sum_weights (rels : list StoredEdge) : Q :=
  fold_right (fun r acc => se_weight r + acc) 0 rels.

(** [expansion_query]: the nodes outside [focused_ids] that a relationship
    of weight at least 0.4 joins to a focused node, with the number of
    such relationships and their average weight, the ten best. *)
Definition expansion (db : Db) (focused_ids : list string)
  : list (StoredNode string * (nat * Q)) :=
  let rows :=
    flat_map
      (fun connected =>
         if mem_str (sn_id connected) focused_ids then []
         else
           let rels :=
             filter (fun r =>
                       Qgeb (se_weight r) (4 # 10)
                       && ((String.eqb (se_source_id r) (sn_id connected)
                            && mem_str (se_target_id r) focused_ids)
                           || (String.eqb (se_target_id r) (sn_id connected)
                               && mem_str (se_source_id r) focused_ids)))
                    (g_rels db) in
           match rels with
           | [] => []
           | _ :: _ =>
               [(connected,
                 (List.length rels, sum_weights rels / Q_of_nat (List.length rels)))]
           end)
      (g_nodes db) in
  firstn 10
    (sort_desc (fun a b =>
                  (fst (snd a) <? fst (snd b))%nat
                  || ((fst (snd a) =? fst (snd b))%nat
                      && Qltb (snd (snd a)) (snd (snd b))))
               rows).

(** [edges_query]: the relationships of weight at least 0.35 between the
    returned nodes, read in both directions, the hundred heaviest. *)
Definition audience_edges (db : Db) (node_ids : list string) : list StoredEdge :=
  firstn 100
    (sort_desc by_weight
       (flat_map
          (fun r =>
             if mem_str (se_source_id r) node_ids
                && mem_str (se_target_id r) node_ids
                && Qgeb (se_weight r) (35 # 100)
             then
               if String.eqb (se_source_id r) (se_target_id r) then [r]
               else [r;
                     mkStoredEdge (se_target_id r) (se_source_id r)
                                  (se_relationship_type r) (se_weight r)
                                  (se_confidence r) (se_semantic_similarity r)
                                  (se_metadata_json r)]
             else [])
          (g_rels db))).

(** [get_audience_focused_graph(audience, limit)] *)
Definition get_audience_focused_graph (db : Db) (audience : string) (limit : nat)
  : AudienceGraph string :=
  let all_nodes :=
    sort_desc by_confidence
      (filter (fun n => match sn_audience_relevance_json n with
                        | ColNull => false
                        | _ => true
                        end)
              (g_nodes db)) in
  let audience_nodes :=
    flat_map (fun node =>
                match sn_audience_relevance_json node with
                | ColDict audience_data =>
                    let relevance_score := relevance_for audience audience_data in
                    if Qltb (1 # 10) relevance_score
                    then [mkAudienceRow node
                            (if String.eqb (sn_type node) "insight"
                             then relevance_score * (12 # 10) else relevance_score)
                            false None]
                    else []
                | _ => []
                end)
             all_nodes in
  match audience_nodes with
  | [] => mkAudienceGraph audience [] [] 0 0 None
  | _ :: _ =>
      let focused_nodes := firstn limit (sort_desc by_relevance_confidence audience_nodes) in
      let focused_node_ids := map (fun r => sn_id (ar_node r)) focused_nodes in
      let expansion_nodes :=
        map (fun exp_node => mkAudienceRow (fst exp_node) (3 # 10) true (Some (snd exp_node)))
            (expansion db focused_node_ids) in
      let focused_nodes := focused_nodes ++ expansion_nodes in
      let all_node_ids := map (fun r => sn_id (ar_node r)) focused_nodes in
      let edges := audience_edges db all_node_ids in
      mkAudienceGraph audience focused_nodes edges
        (List.length focused_nodes) (List.length edges)
        (Some (mkFocusMetadata
                 (List.length audience_nodes)
                 (List.length (filter (fun n => negb (ar_is_expansion n)) focused_nodes))
                 (List.length (filter ar_is_expansion focused_nodes))))
  end.

End Neo4j.

(** ** The edge classifier as the specification words it

    These definitions follow the algorithm of the design document, step by
    step, and are compared with [_analyze_relationship] below. *)

Module Spec.

(** Step 2: the tag overlap ratio
    [|tags(A) ∩ tags(B)| / max(|tags(A)|, |tags(B)|, 1)], the tags of a
    node being its list of labels and the intersection the labels that
    both lists hold. *)
Definition common_labels (A B : GraphNode) : list string :=
  nodup string_dec
        (filter (fun t => if in_dec string_dec t (n_tags B) then true else false)
                (n_tags A)).

Definition tag_overlap (A B : GraphNode) : Q :=
  Q_of_nat (List.length (common_labels A B))
  / Q_of_nat (Nat.max (List.length (n_tags A)) (Nat.max (List.length (n_tags B)) 1)).

Inductive Relationship : Type := Causality | Influence | Relevance.

Definition one_is (ty : string) (A B : GraphNode) (other : string -> bool) : bool :=
  (String.eqb (n_type A) ty && other (n_type B))
  || (String.eqb (n_type B) ty && other (n_type A)).

(** Step 3: the relationship type. *)
Definition classify (A B : GraphNode) : Relationship :=
  if one_is "insight" A B (String.eqb "metric")
     && existsb (fun t => mem_str t ["growth"; "improvement"; "performance"])
                (common_labels A B)
  then Causality
  else if one_is "event" A B (fun ty => mem_str ty ["metric"; "insight"])
  then Influence
  else Relevance.

Definition name (r : Relationship) : string :=
  match r with
  | Causality => "causality"
  | Influence => "influence"
  | Relevance => "relevance"
  end.

Definition multiplier (r : Relationship) : Q :=
  match r with
  | Causality => 13 # 10
  | Influence => 12 # 10
  | Relevance => 1
  end.

Definition confidence (r : Relationship) : Q :=
  match r with
  | Causality => 8 # 10
  | Influence => 75 # 100
  | Relevance => 7 # 10
  end.

(** Step 4: the similarity times the multiplier, capped at 1.0. *)
Definition base_weight (A B : GraphNode) (s : Q) : Q :=
  Qmin (s * multiplier (classify A B)) 1.

(** Step 5 *)
Definition final_weight (A B : GraphNode) (s : Q) : Q :=
  Qmin (base_weight A B s * (1 + tag_overlap A B * (5 # 10))) 1.

End Spec.

(** ** Predicates of the statements *)

(** The edge [e] joins the nodes named [a] and [b], in either direction. *)
Definition connects (e : GraphEdge) (a b : string) : Prop :=
  (e_source_id e = a /\ e_target_id e = b) \/ (e_source_id e = b /\ e_target_id e = a).

(** A list of nodes in the order of descending confidence. *)
Definition confidence_descending {K : Type} (l : list (StoredNode K)) : Prop :=
  StronglySorted (fun a b => sn_confidence b <= sn_confidence a) l.

(** A node meets the filters of [get_filtered_graph] that are given. *)
Definition meets_filters {K : Type} (node_types sources : option (list string))
           (min_confidence : Q) (tags : option (list string)) (n : StoredNode K) : Prop :=
  (given node_types = true ->
   exists l, node_types = Some l /\ In (sn_type n) l)
  /\ (given sources = true ->
      exists l, sources = Some l /\ In (sn_source n) l)
  /\ min_confidence <= sn_confidence n
  /\ (given tags = true ->
      exists l tag, tags = Some l /\ In tag (sn_tags n) /\ In tag l).

(** The same, but for the tags. *)
Definition meets_filters_but_tags {K : Type} (node_types sources : option (list string))
           (min_confidence : Q) (n : StoredNode K) : Prop :=
  (given node_types = true ->
   exists l, node_types = Some l /\ In (sn_type n) l)
  /\ (given sources = true ->
      exists l, sources = Some l /\ In (sn_source n) l)
  /\ min_confidence <= sn_confidence n.

(** The node matches a search: its content, its source or one of its tags
    contains the query, letter case apart. *)
Definition matches_query {K : Type} (query : string) (n : StoredNode K) : Prop :=
  is_substring (lower query) (lower (sn_content n)) = true
  \/ is_substring (lower query) (lower (sn_source n)) = true
  \/ exists tag, In tag (sn_tags n) /\ is_substring (lower query) (lower tag) = true.

(** The stored relevance of a returned node for an audience exceeds
    [bound]. *)
Definition stored_relevance_above {K : Type} (audience : string) (bound : Q)
           (r : AudienceRow K) : Prop :=
  exists d, sn_audience_relevance_json (ar_node r) = ColDict d
            /\ bound < relevance_for audience d.

(** A text that depends on a clock reading only through the encoded
    reading, which it holds once. *)
Definition clock_only (encode_string : string -> string) (text : string -> string) : Prop :=
  exists before after : string,
    forall now, text now = (before ++ encode_string now ++ after)%string.





(** The nodes of a file that the loader inserts (those whose value can be
    bound), their identifiers, and how many of them have none. *)
Definition loaded (file_nodes : list JsonNode) : list JsonNode :=
  filter (fun node => Simple.bindable (j_value node)) file_nodes.



(** The node dictionary is keyed by the identifier of each node. *)
Definition keyed_by_id (d : list (string * GraphNode)) : Prop :=
  NoDup (map fst d) /\ forall k v, In (k, v) d -> n_id v = k.

(** The ordered pair of identifiers that an edge joins. *)
Definition edge_key (e : GraphEdge) : string * string :=
  (e_source_id e, e_target_id e).

(** ** Sample data of the scenarios *)

Definition sample_node (id type : string) (tags : list string) (embedding : list Q)
  : GraphNode :=
  mkGraphNode id type "Monthly revenue grew" (JFloat (5 # 1)) "2025-01-01"
              (9 # 10) "revenue_metrics" tags [("investors", 4 # 10)] embedding [].

Definition sample_stored (id content source : string) (confidence : Q) (tags : list string)
  : StoredNode string :=
  mkStoredNode id "metric" content JNull "2025-01-01" confidence source tags
               (ColDict [("investors", 4 # 10)]) [].

Definition sample_pair : list GraphNode :=
  [ sample_node "a" "metric" ["dau"] [1]; sample_node "b" "metric" ["mrr"] [1] ].

Definition retention_node : StoredNode string :=
  sample_stored "n1" "Retention fell" "customer_feedback" (9 # 10) ["retention"].

Definition churn_node : StoredNode string :=
  sample_stored "n2" "Monthly churn fell" "customer_feedback" (8 # 10) ["revenue"].





(** A string encoder for the sample runs: the text between quotes. *)
Definition quoted (s : string) : string :=
  (String "034"%char s ++ String "034"%char "")%string.

(** ** Further definitions: the builder's loops *)

(** The node that [create_graph_nodes] makes of a data point under the
    identifier [node_id]. *)
Definition node_of_point (encode : string -> list Q) (round3 : Q -> Q)
           (node_id : string) (point : DataPoint) : GraphNode :=
  mkGraphNode node_id (p_type point) (p_content point) (p_value point)
              (p_timestamp point) (p_confidence point) (p_source point)
              (p_tags point)
              (calculate_audience_relevance round3 (p_content point) (p_tags point))
              (encode (p_content point))
              (p_metadata point).

(** The counting loop of [save_graph] and of [generate_graph.main]:
    [for x in xs: d[key(x)] = d.get(key(x), 0) + 1], from the empty dict. *)
Definition tally {A : Type} (key : A -> string) (xs : list A) : list (string * nat) :=
  fold_left (fun d x => dict_incr (key x) d) xs [].

(** The number of members of [xs] whose key is [k]. *)
Definition count_key {A : Type} (key : A -> string) (k : string) (xs : list A) : nat :=
  List.length (filter (fun x => String.eqb (key x) k) xs).

(** The sum of the counts of a tally. *)
Definition total_count (d : list (string * nat)) : nat :=
  fold_right (fun kv acc => (snd kv + acc)%nat) 0%nat d.

(** The node type and relationship type breakdowns that
    [generate_graph.main] prints after a build. *)
Definition node_type_breakdown (b : Builder) : list (string * nat) :=
  tally n_type (dict_values (nodes b)).

Definition relationship_breakdown (b : Builder) : list (string * nat) :=
  tally e_relationship_type (edges b).

(** Two data points and two identifiers for the sample runs. *)
Definition two_points : list DataPoint :=
  [ mkDataPoint "metric" "Monthly Recurring Revenue grew" (JFloat (12 # 1)) "2024-03-31"
                (96 # 100) "stripe" ["revenue"; "growth"; "mrr"; "quarterly"] [];
    mkDataPoint "insight" "Power users adopt dashboards" (JStr "") "2024-01-15"
                (9 # 10) "mixpanel" ["behavior"; "product"; "engagement"] [] ].

Definition two_ids (i : nat) : string :=
  match i with
  | O => "id-0"
  | _ => "id-1"
  end.


(** What a tally holds after the members [seen]: each key that occurs,
    once, with the number of its occurrences. *)
Definition tally_of {A : Type} (key : A -> string) (seen : list A)
           (d : list (string * nat)) : Prop :=
  NoDup (map fst d)
  /\ forall k, dict_get k d
               = if (count_key key k seen =? 0)%nat then None
                 else Some (count_key key k seen).

(** ** Further definitions: the relational client *)

(** The result of [get_graph_overview] ([generated_at], the clock reading,
    is left out); [relationship_types] is reported by the graph data base
    client only. *)
Record Overview : Type := mkOverview {
  ov_total_nodes : nat;
  ov_total_relationships : nat;
  ov_node_types : list (string * nat);
  ov_relationship_types : option (list (string * nat));
  ov_top_sources : list (string * nat);
  ov_high_confidence_nodes : nat
}.

(** [ORDER BY count DESC] on the rows of a [GROUP BY]. *)
Definition by_count (a b : string * nat) : bool := (snd a <? snd b)%nat.

(** [SELECT key, COUNT( * ) ... GROUP BY key ORDER BY count DESC]: one row
    for each key that occurs, with the number of its rows. *)
Definition group_counts {A : Type} (key : A -> string) (rows : list A)
  : list (string * nat) :=
  sort_desc by_count (tally key rows).


Module SimpleMore.

(** [clear_database()]: both tables are emptied; the key sequence of the
    [edges] table goes on. *)
Definition clear_database (db : Simple.Db) : Simple.Db :=
  Simple.mkDb [] [] (Simple.db_edge_seq db).

(** [get_graph_overview()] *)
Definition get_graph_overview (db : Simple.Db) : Overview :=
  mkOverview (Simple.total_nodes db)
             (Simple.total_relationships db)
             (group_counts sn_type (Simple.db_nodes db))
             None
             (firstn 10 (group_counts sn_source (Simple.db_nodes db)))
             (List.length (filter (fun n => Qgeb (sn_confidence n) (8 # 10))
                                  (Simple.db_nodes db))).

(** [initialize_simple_graph(nodes_file, edges_file)] on the data base
    that the file [graph.db] holds: both loads, then the overview that is
    logged. *)
Definition initialize_simple_graph (numeric_text : string -> option Q)
           (file_nodes : list JsonNode) (file_edges : list GraphEdge) (db : Simple.Db)
  : Simple.Db * Overview :=
  let db1 := fst (Simple.load_nodes_from_json numeric_text file_nodes db) in
  let db2 := fst (Simple.load_edges_from_json file_edges db1) in
  (db2, get_graph_overview db2).

End SimpleMore.

(** ** Further predicates *)

(** The key [(relevance_score, confidence)] of [a] is at most that of [b],
    as Python compares tuples. *)
Definition score_confidence_le (a b : AudienceRow string) : Prop :=
  ar_relevance_score a < ar_relevance_score b
  \/ (ar_relevance_score a == ar_relevance_score b
      /\ sn_confidence (ar_node a) <= sn_confidence (ar_node b)).

(** A list of edges in the order of descending weight. *)
Definition weight_descending (l : list StoredEdge) : Prop :=
  StronglySorted (fun a b => se_weight b <= se_weight a) l.

(** ** Further definitions: the data point extractor
    ([graphs/data_extractor.py]) *)

(** [d[k]] on a loaded JSON value: the member of a dict; a missing key
    ([KeyError]) and a value that is not a dict ([TypeError]) raise. *)
Definition py_getitem (j : json) (k : string) : option json :=
  match j with
  | JObj members => dict_get k members
  | _ => None
  end.

(** [d.get(k, default)] on a loaded JSON value; a value that is not a dict
    raises ([AttributeError]). *)
Definition py_get (j : json) (k : string) (default : json) : option json :=
  match j with
  | JObj members =>
      Some match dict_get k members with
           | Some v => v
           | None => default
           end
  | _ => None
  end.

(** The characters of a string, each as a string. *)
Fixpoint chars (s : string) : list json :=
  match s with
  | EmptyString => []
  | String c rest => JStr (String c "") :: chars rest
  end.

(** [for x in j]: the members of a list, the keys of a dict, the
    characters of a string; anything else raises. *)
Definition py_iter (j : json) : option (list json) :=
  match j with
  | JArr l => Some l
  | JObj members => Some (map (fun kv => JStr (fst kv)) members)
  | JStr s => Some (chars s)
  | _ => None
  end.

(** [needle in j] for a string [needle]: a substring of a string, a member
    of a list, a key of a dict; anything else raises. *)
Definition py_contains (needle : string) (j : json) : option bool :=
  match j with
  | JStr s => Some (is_substring needle s)
  | JArr l => Some (existsb (fun x => match x with
                                       | JStr s => String.eqb s needle
                                       | _ => false
                                       end) l)
  | JObj members => Some (mem_str needle (map fst members))
  | _ => None
  end.

(** [s.replace(a, b)] for two characters. *)
Fixpoint replace_char (a b : ascii) (s : string) : string :=
  match s with
  | EmptyString => EmptyString
  | String c rest => String (if Ascii.eqb c a then b else c) (replace_char a b rest)
  end.

(** [j.replace(a, b)]; a value that is not a string raises. *)
Definition py_replace (a b : ascii) (j : json) : option string :=
  match j with
  | JStr s => Some (replace_char a b s)
  | _ => None
  end.

Definition ascii_is_letter (c : ascii) : bool :=
  let n := nat_of_ascii c in
  ((65 <=? n) && (n <=? 90) || (97 <=? n) && (n <=? 122))%nat.

Definition ascii_upper (c : ascii) : ascii :=
  let n := nat_of_ascii c in
  if (97 <=? n)%nat && (n <=? 122)%nat then ascii_of_nat (n - 32) else c.

(** [s.title()]: a letter that follows a letter in lower case, any other
    letter in upper case. *)
Fixpoint title_from (after_letter : bool) (s : string) : string :=
  match s with
  | EmptyString => EmptyString
  | String c rest =>
      String (if ascii_is_letter c
              then if after_letter then ascii_lower c else ascii_upper c
              else c)
             (title_from (ascii_is_letter c) rest)
  end.

Definition title (s : string) : string := title_from false s.

(** A data point as the extractor builds it: the fields copied from the
    data are whatever JSON value the data holds. *)
Record ExtractedPoint : Type := mkExtractedPoint {
  x_type : string;
  x_content : json;
  x_value : json;
  x_source : json;
  x_tags : list string;
  x_confidence : json;
  x_timestamp : json;
  x_metadata : list (string * json)
}.

(** The error monad of the extractor: [None] is a raised exception. *)
Definition bind {A B : Type} (m : option A) (f : A -> option B) : option B :=
  match m with
  | Some a => f a
  | None => None
  end.

(** [result.extend(f(x)) for x in xs], stopping at the first exception. *)
Fixpoint collect {A B : Type} (f : A -> option (list B)) (xs : list A)
  : option (list B) :=
  match xs with
  | [] => Some []
  | x :: rest =>
      bind (f x) (fun ys => bind (collect f rest) (fun zs => Some (ys ++ zs)))
  end.

Module Extractor.
Section Formats.

Notation "x <- m ;; k" := (bind m (fun x => k))
  (at level 61, m at next level, right associativity).

(** [f"{x:.1f}"] on a float. *)
Variable fmt_1f : Q -> string.
(** [f"{x:,}"] on an int and on a float. *)
Variable fmt_comma_int : Z -> string.
Variable fmt_comma_float : Q -> string.
(** [str(x)] for a value that is not a string. *)
Variable py_repr : json -> string.

(** [f"{j}"]: a string is written as it is, any other value as [str]
    writes it. *)
Definition py_str (j : json) : string :=
  match j with
  | JStr s => s
  | _ => py_repr j
  end.

(** [f"{j:.1f}"]: a number is written with one decimal; anything else
    raises. *)
Definition format_1f (j : json) : option string :=
  match j with
  | JInt z => Some (fmt_1f (inject_Z z))
  | JFloat q => Some (fmt_1f q)
  | JBool b => Some (fmt_1f (if b then 1 else 0))
  | _ => None
  end.

(** [f"{j:,}"]: a number is written with thousands separators; anything
    else raises. *)
Definition format_comma (j : json) : option string :=
  match j with
  | JInt z => Some (fmt_comma_int z)
  | JFloat q => Some (fmt_comma_float q)
  | JBool b => Some (fmt_comma_int (if b then 1 else 0)%Z)
  | _ => None
  end.

(** [_extract_dau_points(data, source)] *)
Definition _extract_dau_points (data source : json) : option (list ExtractedPoint) :=
  metrics <- py_getitem data "metrics" ;;
  growth_rate <- py_getitem metrics "growth_rate" ;;
  growth_text <- format_1f growth_rate ;;
  current_dau <- py_getitem metrics "current_dau" ;;
  previous_dau <- py_getitem metrics "previous_period_dau" ;;
  let main :=
    mkExtractedPoint "metric"
      (JStr ("Daily Active Users grew " ++ growth_text ++ "% to "
             ++ py_str current_dau ++ " users")%string)
      growth_rate source ["growth"; "users"; "engagement"; "monthly"]
      (JFloat (95 # 100)) (JStr "2024-01-15")
      [ ("metric_type", JStr "dau_growth");
        ("current_value", current_dau);
        ("previous_value", previous_dau) ] in
  insights_value <- py_get data "insights" (JArr []) ;;
  insights <- py_iter insights_value ;;
  points <- collect
              (fun insight =>
                 content <- py_getitem insight "content" ;;
                 supporting <- py_get insight "supporting_data" (JStr "") ;;
                 confidence <- py_getitem insight "confidence" ;;
                 insight_type <- py_getitem insight "type" ;;
                 Some [ mkExtractedPoint "insight" content supporting source
                          ["behavior"; "product"; "engagement"]
                          confidence (JStr "2024-01-15")
                          [ ("insight_type", insight_type) ] ])
              insights ;;
  Some (main :: points).

(** [_extract_feature_points(data, source)] *)
Definition _extract_feature_points (data source : json) : option (list ExtractedPoint) :=
  features_value <- py_get data "features" (JArr []) ;;
  features <- py_iter features_value ;;
  collect
    (fun feature =>
       feature_name <- py_getitem feature "feature_name" ;;
       adoption_metrics <- py_getitem feature "adoption_metrics" ;;
       adoption_rate <- py_getitem adoption_metrics "adoption_rate" ;;
       rate_text <- format_1f adoption_rate ;;
       tag <- py_replace "_" "-" feature_name ;;
       launch_date <- py_getitem feature "launch_date" ;;
       business_impact <- py_getitem feature "business_impact" ;;
       Some [ mkExtractedPoint "metric"
                (JStr (py_str feature_name ++ " has " ++ rate_text
                       ++ "% adoption rate")%string)
                adoption_rate source ["features"; "adoption"; tag]
                (JFloat (88 # 100)) launch_date
                [ ("feature_name", feature_name);
                  ("business_impact", business_impact) ] ])
    features.

(** [_extract_revenue_points(data, source)] *)
Definition _extract_revenue_points (data source : json) : option (list ExtractedPoint) :=
  current_metrics <- py_getitem data "current_metrics" ;;
  growth <- py_getitem current_metrics "mrr_growth_qoq" ;;
  growth_text <- format_1f growth ;;
  mrr_current <- py_getitem current_metrics "mrr_current" ;;
  mrr_text <- format_comma mrr_current ;;
  Some [ mkExtractedPoint "metric"
           (JStr ("Monthly Recurring Revenue grew " ++ growth_text ++ "% QoQ to $"
                  ++ mrr_text)%string)
           growth source ["revenue"; "growth"; "mrr"; "quarterly"]
           (JFloat (96 # 100)) (JStr "2024-03-31")
           [ ("metric_type", JStr "mrr_growth");
             ("current_mrr", mrr_current) ] ].

(** [_extract_support_points(data, source)] *)
Definition _extract_support_points (data source : json) : option (list ExtractedPoint) :=
  summary_metrics <- py_getitem data "summary_metrics" ;;
  score <- py_getitem summary_metrics "customer_satisfaction_score" ;;
  score_text <- format_1f score ;;
  Some [ mkExtractedPoint "metric"
           (JStr ("Customer support satisfaction: " ++ score_text ++ "/5.0")%string)
           score source ["support"; "satisfaction"; "customer-experience"]
           (JFloat (89 # 100)) (JStr "2024-01-31")
           [ ("metric_type", JStr "support_satisfaction") ] ].

(** [_extract_market_points(data, source)] *)
Definition _extract_market_points (data source : json) : option (list ExtractedPoint) :=
  opportunities_value <- py_get data "market_opportunities" (JArr []) ;;
  opportunities <- py_iter opportunities_value ;;
  collect
    (fun opportunity =>
       name <- py_getitem opportunity "opportunity" ;;
       spaced <- py_replace "_" " " name ;;
       impact <- py_getitem opportunity "expected_arr_impact" ;;
       impact_text <- format_comma impact ;;
       tag <- py_replace "_" "-" name ;;
       market_size <- py_getitem opportunity "market_size" ;;
       Some [ mkExtractedPoint "insight"
                (JStr (title spaced ++ ": $" ++ impact_text ++ " potential ARR")%string)
                impact source ["opportunity"; "expansion"; tag]
                (JFloat (80 # 100)) (JStr "2024-01-30")
                [ ("opportunity_type", name);
                  ("market_size", market_size) ] ])
    opportunities.

(** [_extract_social_points(data, source)] *)
Definition _extract_social_points (data source : json) : option (list ExtractedPoint) :=
  summary_metrics <- py_getitem data "summary_metrics" ;;
  sentiment <- py_getitem summary_metrics "net_sentiment_score" ;;
  sentiment_text <- format_1f sentiment ;;
  total_mentions <- py_getitem summary_metrics "total_mentions" ;;
  Some [ mkExtractedPoint "metric"
           (JStr ("Brand sentiment: " ++ sentiment_text ++ "% across "
                  ++ py_str total_mentions ++ " mentions")%string)
           sentiment source ["sentiment"; "brand"; "social"]
           (JFloat (87 # 100)) (JStr "2024-01-31")
           [ ("total_mentions", total_mentions) ] ].

(** [_extract_team_points(data, source)] *)
Definition _extract_team_points (data source : json) : option (list ExtractedPoint) :=
  team_overview <- py_getitem data "team_overview" ;;
  total_employees <- py_getitem team_overview "total_employees" ;;
  satisfaction <- py_getitem team_overview "employee_satisfaction" ;;
  satisfaction_text <- format_1f satisfaction ;;
  Some [ mkExtractedPoint "metric"
           (JStr ("Team size: " ++ py_str total_employees ++ " employees with "
                  ++ satisfaction_text ++ "/5.0 satisfaction")%string)
           total_employees source ["team"; "headcount"; "satisfaction"]
           (JFloat (92 # 100)) (JStr "2024-03-31")
           [ ("satisfaction", satisfaction) ] ].

(** The kinds of source file, in the order of the [if]/[elif] chain of
    [extract_data_points], each with its extraction rule. *)
Definition rules : list (string * (json -> json -> option (list ExtractedPoint))) :=
  [ ("daily_active_users", _extract_dau_points);
    ("feature_adoption", _extract_feature_points);
    ("monthly_recurring_revenue", _extract_revenue_points);
    ("support_tickets", _extract_support_points);
    ("competitor_analysis", _extract_market_points);
    ("brand_mentions", _extract_social_points);
    ("internal_kpis", _extract_team_points) ].

(** The [if]/[elif] chain on one member of [data_list]: the first kind
    whose name the source file holds decides; no kind, no point. *)
Fixpoint dispatch (chain : list (string * (json -> json -> option (list ExtractedPoint))))
         (source_file data source_api : json) : option (list ExtractedPoint) :=
  match chain with
  | [] => Some []
  | (kind, rule) :: rest =>
      holds <- py_contains kind source_file ;;
      if holds then rule data source_api
      else dispatch rest source_file data source_api
  end.

(** [extract_data_points(data_list)]; each member of [data_list] is a
    dict, given by its members (each key once). *)
Definition extract_data_points (data_list : list (list (string * json)))
  : option (list ExtractedPoint) :=
  collect
    (fun data =>
       let source_file :=
         match dict_get "_file_source" data with
         | Some v => v
         | None => JStr "unknown"
         end in
       let source_api :=
         match dict_get "source" data with
         | Some v => v
         | None => JStr "unknown"
         end in
       dispatch rules source_file (JObj data) source_api)
    data_list.

End Formats.
End Extractor.

(** The data point that [create_graph_nodes] reads from an extracted point
    whose content, source and time stamp are strings and whose confidence
    is a number. *)
Definition to_data_point (x : ExtractedPoint) : option DataPoint :=
  match x_content x, x_source x, x_timestamp x with
  | JStr content, JStr source, JStr timestamp =>
      match x_confidence x with
      | JFloat confidence =>
          Some (mkDataPoint (x_type x) content (x_value x) timestamp confidence
                            source (x_tags x) (x_metadata x))
      | JInt confidence =>
          Some (mkDataPoint (x_type x) content (x_value x) timestamp
                            (inject_Z confidence) source (x_tags x) (x_metadata x))
      | _ => None
      end
  | _, _, _ => None
  end.

(** What every extraction rule guarantees of a point: its type, its
    source, the number of its tags. *)
Definition point_ok (source : json) (x : ExtractedPoint) : Prop :=
  (x_type x = "metric" \/ x_type x = "insight")
  /\ x_source x = source
  /\ (3 <= List.length (x_tags x) <= 4)%nat.


(** The source that the extractor reads off a member of [data_list]:
    [data.get('source', 'unknown')]. *)
Definition source_of (data : list (string * json)) : json :=
  match dict_get "source" data with
  | Some v => v
  | None => JStr "unknown"
  end.

(** The source file that the extractor reads off a member of [data_list]:
    [data.get('_file_source', 'unknown')]. *)
Definition source_file_of (data : list (string * json)) : json :=
  match dict_get "_file_source" data with
  | Some v => v
  | None => JStr "unknown"
  end.

(** A revenue file and an active-users file for the sample runs. *)
Definition revenue_file : list (string * json) :=
  [ ("source", JStr "stripe");
    ("current_metrics",
     JObj [ ("mrr_growth_qoq", JFloat (125 # 10)); ("mrr_current", JInt 85000) ]);
    ("_file_source", JStr "data/revenue_metrics/monthly_recurring_revenue.json") ].

Definition dau_file : list (string * json) :=
  [ ("source", JStr "mixpanel");
    ("metrics",
     JObj [ ("growth_rate", JFloat (82 # 10)); ("current_dau", JInt 12000);
            ("previous_period_dau", JInt 11000) ]);
    ("insights",
     JArr [ JObj [ ("content", JStr "Dashboard users show growth in retention");
                   ("confidence", JFloat (9 # 10));
                   ("type", JStr "behavioral") ] ]);
    ("_file_source", JStr "data/product_analytics/daily_active_users.json") ].

Definition notes_file : list (string * json) :=
  [ ("source", JStr "wiki"); ("_file_source", JStr "data/notes/meeting_notes.json") ].

(** The points of the two sample files, and the data points read from
    them. *)
Definition sample_extracted : list ExtractedPoint :=
  Eval vm_compute in
    match Extractor.extract_data_points
            (fun _ => "0.0") (fun _ => "0") (fun _ => "0.0") (fun _ => "?")
            [revenue_file; dau_file] with
    | Some points => points
    | None => []
    end.

Definition sample_data_points : list DataPoint :=
  Eval vm_compute in
    flat_map (fun x => match to_data_point x with
                       | Some p => [p]
                       | None => []
                       end)
             sample_extracted.

(** ** Further definitions: the graph data base client and its callers *)

Module Neo4jMore.

(** [get_graph_overview()]; every relationship of the store has the type
    [RELATES_TO]. *)
Definition get_graph_overview (db : Neo4j.Db) : Overview :=
  mkOverview (List.length (Neo4j.g_nodes db))
             (List.length (Neo4j.g_rels db))
             (group_counts sn_type (Neo4j.g_nodes db))
             (Some match Neo4j.g_rels db with
                   | [] => []
                   | _ :: _ => [("RELATES_TO", List.length (Neo4j.g_rels db))]
                   end)
             (firstn 10 (group_counts sn_source (Neo4j.g_nodes db)))
             (List.length (filter (fun n => Qgeb (sn_confidence n) (8 # 10))
                                  (Neo4j.g_nodes db))).

(** [text.startswith(start)] *)
Definition startswith (start text : string) : bool := String.prefix start text.

(** The string without its first [n] characters. *)
Fixpoint drop (n : nat) (s : string) : string :=
  match n, s with
  | S n', String _ rest => drop n' rest
  | _, _ => s
  end.

(** [s.replace(old, '')] for a pattern [old] that is not empty: its
    occurrences are taken out from left to right; [fuel] bounds the scan. *)
Fixpoint remove_all_from (fuel : nat) (old s : string) : string :=
  match fuel with
  | O => s
  | S fuel' =>
      if String.prefix old s then remove_all_from fuel' old (drop (String.length old) s)
      else match s with
           | EmptyString => EmptyString
           | String c rest => String c (remove_all_from fuel' old rest)
           end
  end.

Definition remove_all (old s : string) : string :=
  remove_all_from (S (String.length s)) old s.

(** The [insights] dict of [_get_audience_insights]. *)
Record AudienceInsights : Type := mkAudienceInsights {
  top_categories : list (string * nat);
  key_metrics : list (string * Q * string);
  data_sources : list (string * nat);
  confidence_high : nat;
  confidence_medium : nat;
  confidence_low : nat
}.

(** The loop of [_get_audience_insights] over one node. *)
Definition insights_step (insights : AudienceInsights) (node : AudienceRow string)
  : AudienceInsights :=
  let categories :=
    fold_left (fun d tag =>
                 if startswith "category_" tag
                 then dict_incr (remove_all "category_" tag) d
                 else d)
              (sn_tags (ar_node node)) (top_categories insights) in
  let metrics :=
    if Qltb (6 # 10) (ar_relevance_score node)
       && (List.length (key_metrics insights) <? 5)%nat
    then key_metrics insights
         ++ [(sn_content (ar_node node), ar_relevance_score node, sn_type (ar_node node))]
    else key_metrics insights in
  let sources := dict_incr (sn_source (ar_node node)) (data_sources insights) in
  let confidence := sn_confidence (ar_node node) in
  if Qgeb confidence (8 # 10) then
    mkAudienceInsights categories metrics sources
      (S (confidence_high insights)) (confidence_medium insights) (confidence_low insights)
  else if Qgeb confidence (6 # 10) then
    mkAudienceInsights categories metrics sources
      (confidence_high insights) (S (confidence_medium insights)) (confidence_low insights)
  else
    mkAudienceInsights categories metrics sources
      (confidence_high insights) (confidence_medium insights) (S (confidence_low insights)).

(** [_get_audience_insights(audience, nodes)] *)
Definition _get_audience_insights (audience : string) (nodes : list (AudienceRow string))
  : AudienceInsights :=
  let insights := fold_left insights_step nodes (mkAudienceInsights [] [] [] 0 0 0) in
  mkAudienceInsights
    (firstn 3 (sort_desc by_count (top_categories insights)))
    (key_metrics insights)
    (firstn 5 (sort_desc by_count (data_sources insights)))
    (confidence_high insights) (confidence_medium insights) (confidence_low insights).

End Neo4jMore.

(** The web service ([graphs/graph_api.py]). *)
Module Api.

(** [GET /api/node-types]; without a client the request fails. *)
Definition get_node_types (neo4j_client : option Neo4j.Db) : option (list string) :=
  match neo4j_client with
  | None => None
  | Some db => Some (map fst (ov_node_types (Neo4jMore.get_graph_overview db)))
  end.

(** [GET /api/sources] *)
Definition get_available_sources (neo4j_client : option Neo4j.Db)
  : option (list string) :=
  match neo4j_client with
  | None => None
  | Some db => Some (map fst (ov_top_sources (Neo4jMore.get_graph_overview db)))
  end.

(** [ConnectionManager]: the connections, in the order of their
    arrival. *)
Definition connect (websocket : nat) (active_connections : list nat) : list nat :=
  active_connections ++ [websocket].

(** [list.remove(x)]: the first occurrence goes. *)
Fixpoint remove_first (x : nat) (l : list nat) : list nat :=
  match l with
  | [] => []
  | y :: rest => if (y =? x)%nat then rest else y :: remove_first x rest
  end.

(** [disconnect(websocket)] *)
Definition disconnect (websocket : nat) (active_connections : list nat) : list nat :=
  if existsb (Nat.eqb websocket) active_connections
  then remove_first websocket active_connections
  else active_connections.

(** The outcome of [broadcast]: the connections left, the connections that
    were sent the message, and whether an exception left the call. *)
Record Broadcast : Type := mkBroadcast {
  left_connections : list nat;
  delivered : list nat;
  raised : bool
}.

(** The loop of [broadcast] over the connections still to serve:
    [sends c] says whether [send_json] succeeds on [c].  A failed send
    runs the handler [await self.disconnect(connection)]: [disconnect] is
    an ordinary function, so the connection is removed and awaiting its
    result, [None], raises. *)
Fixpoint broadcast_loop (sends : nat -> bool) (pending active : list nat)
  : Broadcast :=
  match pending with
  | [] => mkBroadcast active [] false
  | connection :: rest =>
      if sends connection then
        let r := broadcast_loop sends rest active in
        mkBroadcast (left_connections r) (connection :: delivered r) (raised r)
      else mkBroadcast (disconnect connection active) [] true
  end.

(** [broadcast(message)] *)
Definition broadcast (sends : nat -> bool) (active_connections : list nat)
  : Broadcast :=
  broadcast_loop sends active_connections active_connections.

End Api.

(** Every key of the [edges] table is at most the largest key handed
    out. *)
Definition keys_within (db : Simple.Db) : Prop :=
  Forall (fun row => (fst row <= Simple.db_edge_seq db)%nat) (Simple.db_edges db).

(* ================================================================== *)
(** * Properties *)
(* ================================================================== *)

(** ** Numbers *)

Lemma Qltb_lt (a b : Q) : Qltb a b = true <-> a < b.
Proof.
  unfold Qltb. rewrite negb_true_iff. split.
  - intros H. apply Qnot_le_lt. intros Hle.
    apply Qle_bool_iff in Hle. congruence.
  - intros H. destruct (Qle_bool b a) eqn:E; [|reflexivity].
    apply Qle_bool_iff in E. exfalso. exact (Qlt_not_le _ _ H E).
Qed.

Lemma Qltb_ge (a b : Q) : Qltb a b = false <-> b <= a.
Proof.
  unfold Qltb. rewrite negb_false_iff. apply Qle_bool_iff.
Qed.

Lemma Qgeb_le (a b : Q) : Qgeb a b = true <-> b <= a.
Proof. unfold Qgeb. apply Qle_bool_iff. Qed.

Lemma py_min_cases (a b : Q) :
  (b < a /\ py_min a b = b) \/ (a <= b /\ py_min a b = a).
Proof.
  unfold py_min. destruct (Qltb b a) eqn:E.
  - left. split; [apply Qltb_lt; exact E | reflexivity].
  - right. split; [apply Qltb_ge; exact E | reflexivity].
Qed.

Lemma py_min_Qmin (a b : Q) : py_min a b == Qmin a b.
Proof.
  destruct (py_min_cases a b) as [[H E] | [H E]]; rewrite E.
  - symmetry. apply Q.min_r. apply Qlt_le_weak, H.
  - symmetry. apply Q.min_l. exact H.
Qed.

Lemma py_min_le_r (a b : Q) : py_min a b <= b.
Proof.
  destruct (py_min_cases a b) as [[H E] | [H E]]; rewrite E.
  - apply Qle_refl.
  - exact H.
Qed.

#[export] Instance py_min_compat : Proper (Qeq ==> Qeq ==> Qeq) py_min.
Proof.
  intros a a' Ha b b' Hb. rewrite !py_min_Qmin. rewrite Ha, Hb. reflexivity.
Qed.

(** ** Tags *)

Lemma mem_str_In (x : string) (l : list string) : mem_str x l = true <-> In x l.
Proof.
  unfold mem_str. rewrite existsb_exists. split.
  - intros [y [Hy E]]. apply String.eqb_eq in E. subst. exact Hy.
  - intros H. exists x. split; [exact H | apply String.eqb_refl].
Qed.

Lemma set_inter_In (t : string) (l1 l2 : list string) :
  In t (set_inter l1 l2) <-> In t l1 /\ In t l2.
Proof.
  unfold set_inter, set_of. rewrite nodup_In, filter_In, mem_str_In. reflexivity.
Qed.

Lemma common_labels_set_inter (A B : GraphNode) :
  Spec.common_labels A B = set_inter (n_tags A) (n_tags B).
Proof.
  unfold Spec.common_labels, set_inter, set_of. f_equal.
  apply filter_ext. intros t.
  destruct (in_dec string_dec t (n_tags B)) as [H | H].
  - symmetry. apply mem_str_In. exact H.
  - symmetry. apply not_true_is_false. rewrite mem_str_In. exact H.
Qed.

Lemma existsb_swap (l1 l2 : list string) :
  existsb (fun t => mem_str t l2) l1 = existsb (fun t => mem_str t l1) l2.
Proof.
  apply eq_true_iff_eq. rewrite !existsb_exists. split.
  - intros [t [H1 H2]]. exists t. rewrite mem_str_In in *. tauto.
  - intros [t [H1 H2]]. exists t. rewrite mem_str_In in *. tauto.
Qed.

Lemma Q_of_nat_nonneg (n : nat) : 0 <= Q_of_nat n.
Proof.
  unfold Q_of_nat, Qle. simpl. lia.
Qed.

Lemma Q_of_nat_pos (n : nat) : (0 < n)%nat -> 0 < Q_of_nat n.
Proof.
  intros H. unfold Q_of_nat, Qlt. simpl. lia.
Qed.

Lemma tag_overlap_nonneg (A B : GraphNode) : 0 <= Spec.tag_overlap A B.
Proof.
  unfold Spec.tag_overlap.
  apply Qle_shift_div_l.
  - apply Q_of_nat_pos. lia.
  - rewrite Qmult_0_l. apply Q_of_nat_nonneg.
Qed.

(** Capping the similarity before the tag boost changes nothing once the
    boosted weight is capped. *)
Lemma cap_before_boost (s k : Q) :
  1 <= k -> Qmin (Qmin s 1 * k) 1 == Qmin (s * k) 1.
Proof.
  intros Hk. destruct (Q.min_spec s 1) as [[Hs E] | [Hs E]]; rewrite E.
  - reflexivity.
  - assert (H1 : 1 <= 1 * k) by (rewrite Qmult_1_l; exact Hk).
    assert (H2 : 1 <= s * k).
    { apply Qle_trans with (1 * k); [exact H1|].
      apply Qmult_le_compat_r; [exact Hs|].
      apply Qle_trans with 1; [discriminate | exact Hk]. }
    rewrite (Q.min_r _ _ H1), (Q.min_r _ _ H2). reflexivity.
Qed.

Lemma analyze_matches_spec (A B : GraphNode) (s : Q) :
  fst (fst (_analyze_relationship A B s)) = Spec.name (Spec.classify A B)
  /\ snd (fst (_analyze_relationship A B s)) == Spec.final_weight A B s
  /\ snd (_analyze_relationship A B s) = Spec.confidence (Spec.classify A B).
Proof.
  assert (Hk : 1 <= 1 + Spec.tag_overlap A B * (5 # 10)).
  { rewrite <- (Qplus_0_r 1) at 1. apply Qplus_le_r.
    apply Qmult_le_0_compat; [apply tag_overlap_nonneg | discriminate]. }
  assert (Ht : Q_of_nat (List.length (set_inter (n_tags A) (n_tags B)))
               / Q_of_nat (Nat.max (Nat.max (List.length (n_tags A))
                                            (List.length (n_tags B))) 1)
               == Spec.tag_overlap A B).
  { unfold Spec.tag_overlap. rewrite common_labels_set_inter.
    rewrite Nat.max_assoc. reflexivity. }
  unfold Spec.final_weight, Spec.base_weight, Spec.classify, Spec.one_is.
  unfold _analyze_relationship.
  rewrite common_labels_set_inter.
  rewrite (existsb_swap (set_inter (n_tags A) (n_tags B))).
  rewrite (String.eqb_sym "metric" (n_type B)), (String.eqb_sym "metric" (n_type A)).
  set (ex := existsb (fun tag => mem_str tag (set_inter (n_tags A) (n_tags B)))
                    ["growth"; "improvement"; "performance"]).
  unfold mem_str. cbn [existsb].
  destruct (String.eqb (n_type A) "insight") eqn:Ai;
    destruct (String.eqb (n_type B) "metric") eqn:Bm;
    destruct (String.eqb (n_type B) "insight") eqn:Bi;
    destruct (String.eqb (n_type A) "metric") eqn:Am;
    destruct (String.eqb (n_type A) "event") eqn:Ae;
    destruct (String.eqb (n_type B) "event") eqn:Be;
    try match goal with
        | H1 : String.eqb ?x ?a = true, H2 : String.eqb ?x ?b = true |- _ =>
            exfalso; apply String.eqb_eq in H1; apply String.eqb_eq in H2;
            rewrite H1 in H2; discriminate H2
        end;
    destruct ex;
    cbn [andb orb fst snd Spec.name Spec.multiplier Spec.confidence];
    (split; [reflexivity | split; [| reflexivity]]);
    rewrite ?py_min_Qmin, ?Ht; try reflexivity.
  all: rewrite ?Qmult_1_r; symmetry; apply cap_before_boost; exact Hk.
Qed.

(** ** The edge loops *)

Lemma edge_for_similarity_Some set_order thr n1 n2 s e :
  edge_for_similarity set_order thr n1 n2 s = Some e ->
  (thr < s /\ 0 < snd (fst (_analyze_relationship n1 n2 s)))
  /\ e_source_id e = n_id n1 /\ e_target_id e = n_id n2
  /\ e_relationship_type e = fst (fst (_analyze_relationship n1 n2 s))
  /\ e_weight e = snd (fst (_analyze_relationship n1 n2 s))
  /\ e_confidence e = snd (_analyze_relationship n1 n2 s)
  /\ e_semantic_similarity e = s.
Proof.
  unfold edge_for_similarity.
  destruct (_analyze_relationship n1 n2 s) as [[rt w] c]. cbn [fst snd].
  destruct (Qltb thr s && Qltb 0 w) eqn:E; [|discriminate].
  apply andb_true_iff in E. destruct E as [E1 E2].
  apply Qltb_lt in E1. apply Qltb_lt in E2.
  intros H. injection H as <-. cbn. tauto.
Qed.

Lemma edge_for_similarity_emits set_order thr n1 n2 s :
  thr < s -> 0 < snd (fst (_analyze_relationship n1 n2 s)) ->
  exists e, edge_for_similarity set_order thr n1 n2 s = Some e.
Proof.
  unfold edge_for_similarity.
  destruct (_analyze_relationship n1 n2 s) as [[rt w] c]. cbn [fst snd].
  intros H1 H2. apply Qltb_lt in H1. apply Qltb_lt in H2.
  rewrite H1, H2. cbn. eexists. reflexivity.
Qed.

Section EdgeLoops.
Variable cosine_similarity : list Q -> list Q -> Q.
Variable set_order : list string -> list string.

Let edge_for_pair := edge_for_pair cosine_similarity set_order.
Let edges_from := edges_from cosine_similarity set_order.
Let semantic_edges := semantic_edges cosine_similarity set_order.

Lemma in_edges_from thr n1 later e :
  In e (edges_from thr n1 later) <->
  exists n2, In n2 later /\ edge_for_pair thr n1 n2 = Some e.
Proof.
  induction later as [|n2 rest IH]; cbn.
  - split; [tauto | intros [? [[] _]]].
  - fold (edge_for_pair thr n1 n2). fold (edges_from thr n1 rest).
    destruct (edge_for_pair thr n1 n2) as [e'|] eqn:E; cbn; rewrite IH; split.
    + intros [<- | [m [Hm He]]]; [exists n2; auto | exists m; auto].
    + intros [m [[<- | Hm] He]]; [left; congruence | right; exists m; auto].
    + intros [m [Hm He]]. exists m; auto.
    + intros [m [[<- | Hm] He]]; [congruence | exists m; auto].
Qed.

Lemma in_semantic_edges thr node_list e :
  In e (semantic_edges thr node_list) <->
  exists i j n1 n2,
    (i < j)%nat /\ nth_error node_list i = Some n1 /\ nth_error node_list j = Some n2
    /\ edge_for_pair thr n1 n2 = Some e.
Proof.
  induction node_list as [|n rest IH]; cbn.
  - split; [tauto|]. intros (i & j & n1 & n2 & _ & H & _). destruct i; discriminate.
  - fold (edges_from thr n rest). fold (semantic_edges thr rest).
    rewrite in_app_iff, in_edges_from, IH. split.
    + intros [[n2 [Hin He]] | (i & j & n1 & n2 & Hij & Hi & Hj & He)].
      * apply In_nth_error in Hin. destruct Hin as [j Hj].
        exists O, (S j), n, n2. cbn. repeat split; auto. lia.
      * exists (S i), (S j), n1, n2. cbn. repeat split; auto. lia.
    + intros (i & j & n1 & n2 & Hij & Hi & Hj & He).
      destruct j as [|j]; [lia|]. cbn in Hj.
      destruct i as [|i]; cbn in Hi.
      * injection Hi as ->. left. exists n2. split; [|exact He].
        eapply nth_error_In; eauto.
      * right. exists i, j, n1, n2. repeat split; auto. lia.
Qed.

(** The position of a node in a list without repeated identifiers is
    determined by its identifier. *)
Lemma id_determines_position node_list i j n1 n2 :
  NoDup (map n_id node_list) ->
  nth_error node_list i = Some n1 -> nth_error node_list j = Some n2 ->
  n_id n1 = n_id n2 -> i = j /\ n1 = n2.
Proof.
  intros Hnd Hi Hj Hid.
  assert (i = j).
  { apply (proj1 (NoDup_nth_error (map n_id node_list)) Hnd).
    - rewrite length_map. apply nth_error_Some. congruence.
    - rewrite (map_nth_error n_id i node_list Hi).
      rewrite (map_nth_error n_id j node_list Hj). congruence. }
  subst. split; [reflexivity | congruence].
Qed.

End EdgeLoops.

Lemma zero_overlap_weight (n1 n2 : GraphNode) (s : Q) :
  set_inter (n_tags n1) (n_tags n2) = [] ->
  n_type n1 = "metric" -> n_type n2 = "metric" -> s <= 1 ->
  fst (fst (_analyze_relationship n1 n2 s)) = "relevance"
  /\ snd (fst (_analyze_relationship n1 n2 s)) == s.
Proof.
  intros Hsh H1 H2 Hs. unfold _analyze_relationship.
  rewrite Hsh, H1, H2. cbn [String.eqb Ascii.eqb Bool.eqb andb orb mem_str existsb fst snd].
  cbn. split; [reflexivity|].
  rewrite py_min_Qmin.
  assert (E : s * (1 + Q_of_nat 0 /
                   Q_of_nat (Nat.max (Nat.max (List.length (n_tags n1))
                                              (List.length (n_tags n2))) 1) * (5 # 10))
              == s).
  { unfold Qdiv. change (Q_of_nat 0) with 0. rewrite !Qmult_0_l, Qplus_0_r.
    apply Qmult_1_r. }
  rewrite E. apply Q.min_l. exact Hs.
Qed.

(** C1.  For the nodes at positions [i < j] of the node list, with raw
    similarity [s] and final weight [w], the classifier emits an edge
    between them exactly when [s > similarity_threshold] and [w > 0].  With
    threshold 0.3, a similarity of 0.29 gives no edge, and a similarity of
    0.31 with no shared tag between two "metric" nodes gives a "relevance"
    edge of weight 0.31. *)
Theorem edge_emitted_iff_above_threshold :
  forall (cosine : list Q -> list Q -> Q) (set_order : list string -> list string)
         (similarity_threshold : Q) (node_list : list GraphNode)
         (i j : nat) (n1 n2 : GraphNode),
    NoDup (map n_id node_list) ->
    nth_error node_list i = Some n1 ->
    nth_error node_list j = Some n2 ->
    (i < j)%nat ->
    let s := calculate_semantic_similarity cosine (n_embedding n1) (n_embedding n2) in
    let w := snd (fst (_analyze_relationship n1 n2 s)) in
    let emitted := semantic_edges cosine set_order similarity_threshold node_list in
    ((exists e, In e emitted /\ connects e (n_id n1) (n_id n2))
     <-> (similarity_threshold < s /\ 0 < w))
    /\ (similarity_threshold == 3 # 10 -> s == 29 # 100 ->
        ~ exists e, In e emitted /\ connects e (n_id n1) (n_id n2))
    /\ (similarity_threshold == 3 # 10 -> s == 31 # 100 ->
        set_inter (n_tags n1) (n_tags n2) = [] ->
        n_type n1 = "metric" -> n_type n2 = "metric" ->
        exists e, In e emitted /\ connects e (n_id n1) (n_id n2)
                  /\ e_relationship_type e = "relevance"
                  /\ e_weight e == 31 # 100).
Proof.
  intros cosine set_order thr node_list i j n1 n2 Hnd Hi Hj Hij s w emitted.
  assert (Hiff : (exists e, In e emitted /\ connects e (n_id n1) (n_id n2))
                 <-> (thr < s /\ 0 < w)).
  { split.
    - intros [e [Hin Hc]].
      apply (in_semantic_edges cosine set_order) in Hin.
      destruct Hin as (i' & j' & m1 & m2 & Hij' & Hi' & Hj' & He).
      apply edge_for_similarity_Some in He.
      destruct He as (Hsw & Hsrc & Htgt & _).
      destruct Hc as [[Ha Hb] | [Ha Hb]].
      + assert (E1 : n_id m1 = n_id n1) by congruence.
        assert (E2 : n_id m2 = n_id n2) by congruence.
        destruct (id_determines_position node_list i' i m1 n1 Hnd Hi' Hi E1) as [_ <-].
        destruct (id_determines_position node_list j' j m2 n2 Hnd Hj' Hj E2) as [_ <-].
        exact Hsw.
      + assert (E1 : n_id m1 = n_id n2) by congruence.
        assert (E2 : n_id m2 = n_id n1) by congruence.
        destruct (id_determines_position node_list i' j m1 n2 Hnd Hi' Hj E1) as [-> _].
        destruct (id_determines_position node_list j' i m2 n1 Hnd Hj' Hi E2) as [-> _].
        lia.
    - intros [H1 H2].
      destruct (edge_for_similarity_emits set_order thr n1 n2 s H1 H2) as [e He].
      exists e. split.
      + apply (in_semantic_edges cosine set_order). exists i, j, n1, n2. auto.
      + apply edge_for_similarity_Some in He. left. tauto. }
  split; [exact Hiff | split].
  - intros Hthr Hs H. apply Hiff in H. destruct H as [H _].
    rewrite Hthr, Hs in H. discriminate H.
  - intros Hthr Hs Hsh Ht1 Ht2.
    assert (Hle : s <= 1) by (rewrite Hs; discriminate).
    destruct (zero_overlap_weight n1 n2 s Hsh Ht1 Ht2 Hle) as [Hrt Hw].
    assert (H1 : thr < s) by (rewrite Hthr, Hs; reflexivity).
    assert (H2 : 0 < w) by (unfold w; rewrite Hw, Hs; reflexivity).
    destruct (edge_for_similarity_emits set_order thr n1 n2 s H1 H2) as [e He].
    exists e. split; [|split].
    + apply (in_semantic_edges cosine set_order). exists i, j, n1, n2. auto.
    + apply edge_for_similarity_Some in He. left. tauto.
    + apply edge_for_similarity_Some in He.
      destruct He as (_ & _ & _ & Hr & Hwe & _).
      rewrite Hr, Hwe, Hrt, Hw, Hs. split; reflexivity.
Qed.

Lemma edge_emitted_iff_above_threshold_witness :
  (~ exists e, In e (semantic_edges (fun _ _ => 29 # 100) (fun l => l) (3 # 10) sample_pair)
               /\ connects e "a" "b")
  /\ (exists e, In e (semantic_edges (fun _ _ => 31 # 100) (fun l => l) (3 # 10) sample_pair)
                /\ connects e "a" "b"
                /\ e_relationship_type e = "relevance"
                /\ e_weight e == 31 # 100).
Proof.
  assert (Hnd : NoDup (map n_id sample_pair)).
  { repeat constructor; cbn; intuition discriminate. }
  split.
  - apply (proj1 (proj2 (edge_emitted_iff_above_threshold
                           (fun _ _ => 29 # 100) (fun l => l) (3 # 10) sample_pair 0 1
                           _ _ Hnd eq_refl eq_refl Nat.lt_0_1)));
      reflexivity.
  - apply (proj2 (proj2 (edge_emitted_iff_above_threshold
                           (fun _ _ => 31 # 100) (fun l => l) (3 # 10) sample_pair 0 1
                           _ _ Hnd eq_refl eq_refl Nat.lt_0_1)));
      reflexivity.
Defined.

(** ** The node dictionary *)

Lemma dict_set_cases {V : Type} (k k' : string) (v v' : V) (d : list (string * V)) :
  In (k', v') (dict_set k v d) -> (k' = k /\ v' = v) \/ In (k', v') d.
Proof.
  induction d as [|[k3 v3] rest IH]; cbn.
  - intros [E | []]. left. split; congruence.
  - destruct (String.eqb k k3) eqn:E3.
    + intros [E | Hin]; [left; split; congruence | right; right; exact Hin].
    + intros [E | Hin]; [right; left; exact E|].
      destruct (IH Hin) as [? | ?]; auto.
Qed.

Lemma dict_set_keyed (v : GraphNode) (d : list (string * GraphNode)) :
  keyed_by_id d -> keyed_by_id (dict_set (n_id v) v d).
Proof.
  induction d as [|[k' v'] rest IH]; intros [Hnd Hid].
  - split; cbn.
    + constructor; [tauto | constructor].
    + intros ? ? [E | []]. congruence.
  - cbn. destruct (String.eqb (n_id v) k') eqn:E.
    + apply String.eqb_eq in E. split; cbn.
      * rewrite E. exact Hnd.
      * intros k2 v2 [E2 | Hin]; [congruence|]. apply Hid. right. exact Hin.
    + cbn in Hnd. inversion Hnd as [|x l Hnotin Hnd' [Hx Hl]]. clear x l Hx Hl.
      destruct IH as [IHnd IHid].
      { split; [exact Hnd'|]. intros k2 v2 Hin. apply Hid. right. exact Hin. }
      split; cbn.
      * constructor; [|exact IHnd].
        intros Hin. apply in_map_iff in Hin. destruct Hin as [[k2 v2] [E2 Hin]].
        cbn in E2. rewrite E2 in Hin.
        destruct (dict_set_cases _ _ _ _ _ Hin) as [[Hk _] | Hk].
        -- rewrite Hk, String.eqb_refl in E. discriminate.
        -- apply Hnotin. apply in_map_iff. exists (k', v2). auto.
      * intros k2 v2 [E2 | Hin]; [apply Hid; left; exact E2|].
        apply IHid. exact Hin.
Qed.

Lemma create_nodes_from_keyed encode uuid4 round3 i data_points d :
  keyed_by_id d -> keyed_by_id (create_nodes_from encode uuid4 round3 i data_points d).
Proof.
  revert i d. induction data_points as [|point rest IH]; intros i d Hd; cbn.
  - exact Hd.
  - apply IH. apply (dict_set_keyed (mkGraphNode _ _ _ _ _ _ _ _ _ _ _)). exact Hd.
Qed.

Lemma keyed_values_NoDup (d : list (string * GraphNode)) :
  keyed_by_id d -> NoDup (map n_id (dict_values d)).
Proof.
  intros [Hnd Hid]. unfold dict_values. rewrite map_map.
  rewrite (map_ext_in (fun x => n_id (snd x)) fst); [exact Hnd|].
  intros [k v] Hin. cbn. apply Hid. exact Hin.
Qed.

(** ** The pairs that the edges join *)

Section EdgeKeys.
Variable cosine_similarity : list Q -> list Q -> Q.
Variable set_order : list string -> list string.

Lemma edge_for_pair_key thr n1 n2 e :
  edge_for_pair cosine_similarity set_order thr n1 n2 = Some e ->
  edge_key e = (n_id n1, n_id n2).
Proof.
  intros H. apply edge_for_similarity_Some in H. unfold edge_key.
  destruct H as (_ & -> & -> & _). reflexivity.
Qed.

Lemma edges_from_keys_NoDup thr n1 later :
  NoDup (map n_id later) ->
  NoDup (map edge_key (edges_from cosine_similarity set_order thr n1 later)).
Proof.
  induction later as [|n2 rest IH]; cbn; intros Hnd.
  - constructor.
  - inversion Hnd as [|? ? Hnotin Hnd']; subst.
    destruct (edge_for_pair cosine_similarity set_order thr n1 n2) as [e|] eqn:E;
      [|apply IH; exact Hnd'].
    cbn. constructor; [|apply IH; exact Hnd'].
    intros Hin. apply in_map_iff in Hin. destruct Hin as [e' [Hk Hin]].
    apply (in_edges_from cosine_similarity set_order) in Hin.
    destruct Hin as [m [Hm He']].
    apply edge_for_pair_key in He'. apply edge_for_pair_key in E.
    apply Hnotin. apply in_map_iff. exists m. split; [congruence | exact Hm].
Qed.

Lemma semantic_edges_keys_NoDup thr node_list :
  NoDup (map n_id node_list) ->
  NoDup (map edge_key (semantic_edges cosine_similarity set_order thr node_list)).
Proof.
  induction node_list as [|n rest IH]; cbn; intros Hnd.
  - constructor.
  - inversion Hnd as [|? ? Hnotin Hnd']; subst.
    rewrite map_app. apply NoDup_app.
    + apply edges_from_keys_NoDup. exact Hnd'.
    + apply IH. exact Hnd'.
    + intros k H1 H2.
      apply in_map_iff in H1. destruct H1 as [e1 [Hk1 H1]].
      apply in_map_iff in H2. destruct H2 as [e2 [Hk2 H2]].
      apply (in_edges_from cosine_similarity set_order) in H1.
      destruct H1 as [m [_ He1]]. apply edge_for_pair_key in He1.
      apply (in_semantic_edges cosine_similarity set_order) in H2.
      destruct H2 as (i & j & m1 & m2 & _ & Hi & _ & He2).
      apply edge_for_pair_key in He2.
      apply Hnotin. apply in_map_iff. exists m1. split.
      * congruence.
      * eapply nth_error_In. exact Hi.
Qed.

(** Every edge goes from a node to a node further down the list. *)
Lemma semantic_edges_forward thr node_list e :
  In e (semantic_edges cosine_similarity set_order thr node_list) ->
  exists i j, (i < j)%nat
              /\ nth_error (map n_id node_list) i = Some (e_source_id e)
              /\ nth_error (map n_id node_list) j = Some (e_target_id e).
Proof.
  intros H. apply (in_semantic_edges cosine_similarity set_order) in H.
  destruct H as (i & j & m1 & m2 & Hij & Hi & Hj & He).
  apply edge_for_similarity_Some in He. destruct He as (_ & -> & -> & _).
  exists i, j. split; [exact Hij|]. split; apply map_nth_error; assumption.
Qed.

End EdgeKeys.

Lemma analyze_weight_le_1 (A B : GraphNode) (s : Q) :
  snd (fst (_analyze_relationship A B s)) <= 1.
Proof.
  destruct (analyze_matches_spec A B s) as (_ & Hw & _).
  rewrite Hw. apply Q.le_min_r.
Qed.

(** C2.  In the edge set of a graph build no two edges join the same
    unordered pair of nodes, no edge joins a node to itself, and every edge
    has a weight [w] with [0 < w <= 1] and a semantic similarity above the
    similarity threshold. *)
Theorem build_edges_invariant :
  forall (cosine : list Q -> list Q -> Q) (encode : string -> list Q)
         (uuid4 : nat -> string) (round3 : Q -> Q)
         (set_order : list string -> list string)
         (similarity_threshold : Q) (data_points : list DataPoint),
    let b := build_graph cosine encode uuid4 round3 set_order
                         similarity_threshold data_points in
    (forall p q e1 e2,
        nth_error (edges b) p = Some e1 ->
        nth_error (edges b) q = Some e2 ->
        connects e1 (e_source_id e2) (e_target_id e2) ->
        p = q)
    /\ (forall e, In e (edges b) ->
                  e_source_id e <> e_target_id e
                  /\ 0 < e_weight e /\ e_weight e <= 1
                  /\ similarity_threshold < e_semantic_similarity e).
Proof.
  intros cosine encode uuid4 round3 set_order thr data_points b.
  set (node_list := dict_values (create_nodes_from encode uuid4 round3 0 data_points [])).
  assert (Hb : edges b = semantic_edges cosine set_order thr node_list) by reflexivity.
  assert (Hnd : NoDup (map n_id node_list)).
  { apply keyed_values_NoDup. apply create_nodes_from_keyed.
    split; [constructor | intros ? ? []]. }
  assert (Hpos : forall i j a,
             nth_error (map n_id node_list) i = Some a ->
             nth_error (map n_id node_list) j = Some a -> i = j).
  { intros i j a Hi Hj. apply (proj1 (NoDup_nth_error _) Hnd).
    - apply nth_error_Some. congruence.
    - congruence. }
  rewrite Hb. split.
  - intros p q e1 e2 Hp Hq [[Hs Ht] | [Hs Ht]].
    + pose proof (semantic_edges_keys_NoDup cosine set_order thr node_list Hnd) as Hk.
      apply (proj1 (NoDup_nth_error _) Hk).
      * rewrite length_map. apply nth_error_Some. congruence.
      * rewrite (map_nth_error edge_key p _ Hp), (map_nth_error edge_key q _ Hq).
        unfold edge_key. congruence.
    + exfalso.
      apply nth_error_In in Hp. apply nth_error_In in Hq.
      apply semantic_edges_forward in Hp. apply semantic_edges_forward in Hq.
      destruct Hp as (i & j & Hij & Hi & Hj).
      destruct Hq as (i' & j' & Hij' & Hi' & Hj').
      rewrite Hs in Hi. rewrite Ht in Hj.
      pose proof (Hpos _ _ _ Hi Hj'). pose proof (Hpos _ _ _ Hj Hi'). lia.
  - intros e He. split; [|].
    + intros Heq. apply semantic_edges_forward in He.
      destruct He as (i & j & Hij & Hi & Hj).
      rewrite Heq in Hi. pose proof (Hpos _ _ _ Hi Hj). lia.
    + apply (in_semantic_edges cosine set_order) in He.
      destruct He as (i & j & m1 & m2 & _ & _ & _ & He).
      apply edge_for_similarity_Some in He.
      destruct He as ((H1 & H2) & _ & _ & _ & Hw & _ & Hsim).
      rewrite Hw, Hsim. split; [exact H2|]. split; [|exact H1].
      apply analyze_weight_le_1.
Qed.

(** C3.  The weight that the relationship analyzer returns equals
    [min(base_weight * (1 + t * 0.5), 1.0)], where [t] is the tag overlap
    ratio and [base_weight] the similarity times the multiplier of the
    relationship type, capped at 1.0. *)
Theorem analyzer_weight_formula :
  forall (A B : GraphNode) (s : Q),
    snd (fst (_analyze_relationship A B s))
    == Qmin (Spec.base_weight A B s * (1 + Spec.tag_overlap A B * (5 # 10))) 1
    /\ Spec.base_weight A B s = Qmin (s * Spec.multiplier (Spec.classify A B)) 1
    /\ fst (fst (_analyze_relationship A B s)) = Spec.name (Spec.classify A B).
Proof.
  intros A B s. destruct (analyze_matches_spec A B s) as (Hn & Hw & _).
  split; [exact Hw | split; [reflexivity | exact Hn]].
Qed.

(** C4.  Two nodes with similarity 1.0, both tagged ["growth"], one of type
    "insight" and the other of type "metric", are classified "causality"
    with confidence 0.8, and the edge between them has weight 1.0. *)
Theorem growth_insight_metric_is_causality :
  forall (n1 n2 : GraphNode) (s : Q),
    s == 1 ->
    n_tags n1 = ["growth"] -> n_tags n2 = ["growth"] ->
    (n_type n1 = "insight" /\ n_type n2 = "metric")
    \/ (n_type n1 = "metric" /\ n_type n2 = "insight") ->
    (fst (fst (_analyze_relationship n1 n2 s)) = "causality"
     /\ snd (fst (_analyze_relationship n1 n2 s)) == 1
     /\ snd (_analyze_relationship n1 n2 s) == 8 # 10)
    /\ forall (set_order : list string -> list string) (similarity_threshold : Q),
        similarity_threshold < 1 ->
        exists e, edge_for_similarity set_order similarity_threshold n1 n2 s = Some e
                  /\ e_relationship_type e = "causality"
                  /\ e_weight e == 1
                  /\ e_confidence e == 8 # 10.
Proof.
  intros n1 n2 s Hs Ht1 Ht2 Hty.
  assert (H : fst (fst (_analyze_relationship n1 n2 s)) = "causality"
              /\ snd (fst (_analyze_relationship n1 n2 s)) == 1
              /\ snd (_analyze_relationship n1 n2 s) == 8 # 10).
  { unfold _analyze_relationship. rewrite Ht1, Ht2.
    destruct Hty as [[-> ->] | [-> ->]]; cbn;
      (split; [reflexivity | split; [|reflexivity]]);
      rewrite !py_min_Qmin, Hs; reflexivity. }
  split; [exact H|].
  intros set_order thr Hthr. destruct H as (Hrt & Hw & Hc).
  destruct (edge_for_similarity_emits set_order thr n1 n2 s) as [e He].
  - rewrite Hs. exact Hthr.
  - rewrite Hw. reflexivity.
  - exists e. split; [exact He|].
    apply edge_for_similarity_Some in He.
    destruct He as (_ & _ & _ & Er & Ew & Ec & _).
    rewrite Er, Ew, Ec. auto.
Qed.

Lemma growth_insight_metric_is_causality_witness :
  (fst (fst (_analyze_relationship (sample_node "a" "insight" ["growth"] [1])
                                   (sample_node "b" "metric" ["growth"] [1]) 1))
   = "causality"
   /\ snd (fst (_analyze_relationship (sample_node "a" "insight" ["growth"] [1])
                                      (sample_node "b" "metric" ["growth"] [1]) 1))
      == 1
   /\ snd (_analyze_relationship (sample_node "a" "insight" ["growth"] [1])
                                 (sample_node "b" "metric" ["growth"] [1]) 1)
      == 8 # 10)
  /\ (fst (fst (_analyze_relationship (sample_node "b" "metric" ["growth"] [1])
                                      (sample_node "a" "insight" ["growth"] [1]) 1))
      = "causality").
Proof.
  split.
  - apply (proj1 (growth_insight_metric_is_causality
                    (sample_node "a" "insight" ["growth"] [1])
                    (sample_node "b" "metric" ["growth"] [1]) 1
                    (Qeq_refl 1) eq_refl eq_refl (or_introl (conj eq_refl eq_refl)))).
  - apply (proj1 (growth_insight_metric_is_causality
                    (sample_node "b" "metric" ["growth"] [1])
                    (sample_node "a" "insight" ["growth"] [1]) 1
                    (Qeq_refl 1) eq_refl eq_refl (or_intror (conj eq_refl eq_refl)))).
Defined.

(** ** Sorting and truncation *)

Lemma firstn_In {A : Type} (n : nat) (l : list A) (x : A) :
  In x (firstn n l) -> In x l.
Proof.
  intros H. rewrite <- (firstn_skipn n l). apply in_or_app. left. exact H.
Qed.

Lemma firstn_StronglySorted {A : Type} (R : A -> A -> Prop) (n : nat) (l : list A) :
  StronglySorted R l -> StronglySorted R (firstn n l).
Proof.
  revert n. induction l as [|x l IH]; intros n H.
  - rewrite firstn_nil. constructor.
  - destruct n as [|n]; cbn; [constructor|].
    inversion H as [|? ? Hl Hx]; subst. constructor.
    + apply IH. exact Hl.
    + apply Forall_forall. intros y Hy.
      apply (proj1 (Forall_forall _ _) Hx). eapply firstn_In. exact Hy.
Qed.

Section SortFacts.
Context {A : Type}.
Variable ltb : A -> A -> bool.

Lemma insert_desc_perm (x : A) (l : list A) :
  Permutation (insert_desc ltb x l) (x :: l).
Proof.
  induction l as [|y ys IH]; cbn.
  - reflexivity.
  - destruct (ltb x y).
    + rewrite IH. apply perm_swap.
    + reflexivity.
Qed.

Lemma sort_desc_perm (l : list A) : Permutation (sort_desc ltb l) l.
Proof.
  induction l as [|x l IH]; cbn.
  - reflexivity.
  - rewrite insert_desc_perm. apply perm_skip. exact IH.
Qed.

Lemma sort_desc_In (x : A) (l : list A) : In x (sort_desc ltb l) <-> In x l.
Proof.
  split; apply Permutation_in; [|symmetry]; apply sort_desc_perm.
Qed.

Lemma sort_desc_length (l : list A) : List.length (sort_desc ltb l) = List.length l.
Proof. apply Permutation_length, sort_desc_perm. Qed.
End SortFacts.

Section SortByKey.
Context {A : Type}.
Variable key : A -> Q.

Let below (a b : A) : bool := Qltb (key a) (key b).
Let descending (a b : A) : Prop := key b <= key a.

Lemma insert_desc_sorted (x : A) (l : list A) :
  StronglySorted descending l -> StronglySorted descending (insert_desc below x l).
Proof.
  induction l as [|y ys IH]; cbn; intros H.
  - constructor; constructor.
  - inversion H as [|? ? Hys Hy]; subst.
    destruct (below x y) eqn:E; unfold below in E.
    + apply Qltb_lt in E. constructor.
      * apply IH. exact Hys.
      * apply Forall_forall. intros z Hz.
        apply (Permutation_in _ (insert_desc_perm below x ys)) in Hz.
        destruct Hz as [<- | Hz].
        -- apply Qlt_le_weak. exact E.
        -- apply (proj1 (Forall_forall _ _) Hy). exact Hz.
    + apply Qltb_ge in E. constructor; [exact H|].
      constructor; [exact E|].
      apply Forall_forall. intros z Hz. unfold descending.
      apply Qle_trans with (key y); [|exact E].
      apply (proj1 (Forall_forall _ _) Hy). exact Hz.
Qed.

Lemma sort_desc_sorted (l : list A) : StronglySorted descending (sort_desc below l).
Proof.
  induction l as [|x l IH]; cbn.
  - constructor.
  - apply insert_desc_sorted. exact IH.
Qed.
End SortByKey.

Lemma sort_by_confidence_descending {K : Type} (l : list (StoredNode K)) (n : nat) :
  confidence_descending (firstn n (sort_desc by_confidence l)).
Proof.
  apply firstn_StronglySorted. apply (sort_desc_sorted sn_confidence).
Qed.

(** ** Filtered graphs *)

Lemma in_given_In (x : string) (l : option (list string)) :
  given l = true -> in_given x l = true -> exists l', l = Some l' /\ In x l'.
Proof.
  destruct l as [l'|]; cbn; [|discriminate].
  intros _ H. exists l'. split; [reflexivity | apply mem_str_In; exact H].
Qed.

Lemma mem_key_In (x : string) (keys : list (option string)) :
  mem_key x keys = true <-> In (Some x) keys.
Proof.
  unfold mem_key. rewrite existsb_exists. split.
  - intros [[y|] [Hin E]]; [|discriminate E].
    apply String.eqb_eq in E. subst y. exact Hin.
  - intros Hin. exists (Some x). split; [exact Hin | apply String.eqb_refl].
Qed.

Lemma keyed_edges_sound (node_ids : list (option string)) (min_weight : Q)
      (rels result : list StoredEdge) :
  result = match node_ids with
           | [] => []
           | _ :: _ =>
               sort_desc by_weight
                 (filter (fun e => mem_key (se_source_id e) node_ids
                                   && mem_key (se_target_id e) node_ids
                                   && Qgeb (se_weight e) min_weight)
                         rels)
           end ->
  forall e, In e result ->
            In e rels /\ In (Some (se_source_id e)) node_ids
            /\ In (Some (se_target_id e)) node_ids
            /\ min_weight <= se_weight e.
Proof.
  intros -> e He. destruct node_ids as [|x ids]; [destruct He|].
  apply sort_desc_In in He. apply filter_In in He. destruct He as [Hin Hc].
  apply andb_true_iff in Hc. destruct Hc as [Hc Hw].
  apply andb_true_iff in Hc. destruct Hc as [Hs Ht].
  rewrite mem_key_In in Hs, Ht. apply Qgeb_le in Hw. auto.
Qed.

Lemma filtered_edges_sound (node_ids : list string) (min_weight : Q)
      (rels result : list StoredEdge) :
  result = match node_ids with
           | [] => []
           | _ :: _ =>
               sort_desc by_weight
                 (filter (fun e => mem_str (se_source_id e) node_ids
                                   && mem_str (se_target_id e) node_ids
                                   && Qgeb (se_weight e) min_weight)
                         rels)
           end ->
  forall e, In e result ->
            In e rels /\ In (se_source_id e) node_ids /\ In (se_target_id e) node_ids
            /\ min_weight <= se_weight e.
Proof.
  intros -> e He. destruct node_ids as [|x ids]; [destruct He|].
  apply sort_desc_In in He. apply filter_In in He. destruct He as [Hin Hc].
  apply andb_true_iff in Hc. destruct Hc as [Hc Hw].
  apply andb_true_iff in Hc. destruct Hc as [Hs Ht].
  rewrite mem_str_In in Hs, Ht. apply Qgeb_le in Hw. auto.
Qed.

(** C8.  On both back ends every edge of a filtered graph has its source
    and its target among the returned nodes and a weight of at least
    [min_weight]. *)
Theorem filtered_edges_within_returned_nodes :
  forall (sdb : Simple.Db) (gdb : Neo4j.Db)
         (node_types sources : option (list string))
         (min_confidence min_weight : Q)
         (tags : option (list string)) (limit : nat),
    let rs := Simple.get_filtered_graph sdb node_types sources min_confidence
                                        min_weight tags limit in
    let rn := Neo4j.get_filtered_graph gdb node_types sources min_confidence
                                       min_weight tags limit in
    (forall e, In e (fg_edges rs) ->
               In (Some (se_source_id e)) (map sn_id (fg_nodes rs))
               /\ In (Some (se_target_id e)) (map sn_id (fg_nodes rs))
               /\ min_weight <= se_weight e)
    /\ (forall e, In e (fg_edges rn) ->
                  In (se_source_id e) (map sn_id (fg_nodes rn))
                  /\ In (se_target_id e) (map sn_id (fg_nodes rn))
                  /\ min_weight <= se_weight e).
Proof.
  intros sdb gdb node_types sources min_confidence min_weight tags limit rs rn.
  split; intros e He.
  - eapply (keyed_edges_sound (map sn_id (fg_nodes rs)) min_weight
                              (map snd (Simple.db_edges sdb)) (fg_edges rs)) in He;
      [tauto | reflexivity].
  - eapply (filtered_edges_sound (map sn_id (fg_nodes rn)) min_weight
                                 (Neo4j.g_rels gdb) (fg_edges rn)) in He;
      [tauto | reflexivity].
Qed.

Lemma filter_conditions_sound {K : Type} (node_types sources : option (list string))
      (min_confidence : Q) (n : StoredNode K) :
  Qgeb (sn_confidence n) min_confidence
  && (if given node_types then in_given (sn_type n) node_types else true)
  && (if given sources then in_given (sn_source n) sources else true) = true ->
  meets_filters_but_tags node_types sources min_confidence n.
Proof.
  intros H. apply andb_true_iff in H. destruct H as [H Hs].
  apply andb_true_iff in H. destruct H as [Hc Ht].
  apply Qgeb_le in Hc. unfold meets_filters_but_tags. repeat split.
  - intros G. rewrite G in Ht. apply in_given_In; assumption.
  - intros G. rewrite G in Hs. apply in_given_In; assumption.
  - exact Hc.
Qed.

(** The relational back end: the returned nodes are stored nodes that meet
    the type, source and confidence filters, by descending confidence, at
    most [limit] of them. *)
Lemma simple_filtered_nodes (db : Simple.Db)
      (node_types sources : option (list string)) (min_confidence min_weight : Q)
      (tags : option (list string)) (limit : nat) :
  let r := Simple.get_filtered_graph db node_types sources min_confidence
                                     min_weight tags limit in
  (forall n, In n (fg_nodes r) ->
             In n (Simple.db_nodes db)
             /\ meets_filters_but_tags node_types sources min_confidence n)
  /\ confidence_descending (fg_nodes r)
  /\ (List.length (fg_nodes r) <= limit)%nat.
Proof.
  cbn. split; [|split].
  - intros n Hn. apply firstn_In in Hn. apply sort_desc_In in Hn.
    apply filter_In in Hn. destruct Hn as [Hin Hc]. split; [exact Hin|].
    apply filter_conditions_sound. exact Hc.
  - apply sort_by_confidence_descending.
  - apply firstn_le_length.
Qed.

(** The graph data base back end: the returned nodes are stored nodes that
    meet every filter, by descending confidence, at most [limit] of them. *)
Lemma neo4j_filtered_nodes (db : Neo4j.Db)
      (node_types sources : option (list string)) (min_confidence min_weight : Q)
      (tags : option (list string)) (limit : nat) :
  let r := Neo4j.get_filtered_graph db node_types sources min_confidence
                                    min_weight tags limit in
  (forall n, In n (fg_nodes r) ->
             In n (Neo4j.g_nodes db)
             /\ meets_filters node_types sources min_confidence tags n)
  /\ confidence_descending (fg_nodes r)
  /\ (List.length (fg_nodes r) <= limit)%nat.
Proof.
  cbn. split; [|split].
  - intros n Hn. apply firstn_In in Hn. apply sort_desc_In in Hn.
    apply filter_In in Hn. destruct Hn as [Hin Hc]. split; [exact Hin|].
    apply andb_true_iff in Hc. destruct Hc as [Hc Htags].
    apply filter_conditions_sound in Hc. destruct Hc as (H1 & H2 & H3).
    unfold meets_filters. repeat split; try assumption.
    intros G. rewrite G in Htags. apply existsb_exists in Htags.
    destruct Htags as [tag [Hin' Hg]].
    destruct (in_given_In tag tags G Hg) as [l [-> Hl]].
    exists l, tag. auto.
  - apply sort_by_confidence_descending.
  - apply firstn_le_length.
Qed.

(** C6 (the relational back end drops the tag filter).  Asked for the
    nodes tagged "growth", the relational client returns a stored node
    whose only tag is "retention"; the graph data base client returns
    nothing on the same store. *)
Theorem simple_filtered_graph_ignores_tags :
  fg_nodes (Simple.get_filtered_graph (Simple.mkDb [keyed retention_node] [] 0)
                                      None None 0 (3 # 10) (Some ["growth"]) 100)
  = [keyed retention_node]
  /\ ~ meets_filters None None 0 (Some ["growth"]) retention_node
  /\ fg_nodes (Neo4j.get_filtered_graph (Neo4j.mkDb [retention_node] [])
                                        None None 0 (3 # 10) (Some ["growth"]) 100)
     = [].
Proof.
  split; [reflexivity | split; [|reflexivity]].
  intros (_ & _ & _ & H). destruct (H eq_refl) as (l & tag & Hl & Ht & Hin).
  injection Hl as <-. cbn in Ht, Hin.
  destruct Ht as [<- | []]. destruct Hin as [E | []]. discriminate E.
Qed.

(** ** Search *)

(** X30.  The graph data base back end returns matching stored nodes
    only, by descending confidence, at most [limit] of them, and every
    matching node when [limit] allows. *)
Lemma neo4j_search_nodes_matching (db : Neo4j.Db) (query : string) (limit : nat) :
  let r := Neo4j.search_nodes db query limit in
  (forall n, In n r -> In n (Neo4j.g_nodes db) /\ matches_query query n)
  /\ confidence_descending r
  /\ (List.length r <= limit)%nat
  /\ ((List.length (Neo4j.g_nodes db) <= limit)%nat ->
      forall n, In n (Neo4j.g_nodes db) -> matches_query query n -> In n r).
Proof.
  cbn. unfold Neo4j.search_nodes.
  assert (Hm : forall n : StoredNode string,
             Neo4j.contains_ci (sn_content n) query
             || Neo4j.contains_ci (sn_source n) query
             || existsb (fun tag => Neo4j.contains_ci tag query) (sn_tags n) = true
             <-> matches_query query n).
  { intros n. unfold matches_query, Neo4j.contains_ci.
    rewrite !orb_true_iff, existsb_exists. tauto. }
  split; [|split; [|split]].
  - intros n Hn. apply firstn_In in Hn. apply sort_desc_In in Hn.
    apply filter_In in Hn. destruct Hn as [Hin Hc]. split; [exact Hin|].
    apply Hm. exact Hc.
  - apply sort_by_confidence_descending.
  - apply firstn_le_length.
  - intros Hlen n Hin Hq. rewrite firstn_all2.
    + apply sort_desc_In. apply filter_In. split; [exact Hin | apply Hm; exact Hq].
    + rewrite sort_desc_length.
      eapply Nat.le_trans; [apply filter_length_le | exact Hlen].
Qed.

(** C7 (the relational back end does not search the tags).  A stored node
    tagged "revenue" matches the query "revenue"; the graph data base
    client returns it and the relational client returns nothing. *)
Theorem simple_search_misses_tags :
  matches_query "revenue" churn_node
  /\ Neo4j.search_nodes (Neo4j.mkDb [churn_node] []) "revenue" 10 = [churn_node]
  /\ Simple.search_nodes (Simple.mkDb [keyed churn_node] [] 0) "revenue" 10 = [].
Proof.
  split; [|split; reflexivity].
  right. right. exists "revenue". split; [left; reflexivity | reflexivity].
Qed.

(** ** Audience-focused graphs *)

Lemma audience_rows_sound {K : Type} (audience : string) (bound : Q)
      (boost : StoredNode K -> Q -> Q) (all_nodes : list (StoredNode K))
      (r : AudienceRow K) :
  In r (flat_map
          (fun node =>
             match sn_audience_relevance_json node with
             | ColDict audience_data =>
                 if Qltb bound (relevance_for audience audience_data)
                 then [mkAudienceRow node
                         (boost node (relevance_for audience audience_data)) false None]
                 else []
             | _ => []
             end)
          all_nodes) ->
  In (ar_node r) all_nodes
  /\ ar_is_expansion r = false
  /\ stored_relevance_above audience bound r.
Proof.
  intros H. apply in_flat_map in H. destruct H as [node [Hin Hr]].
  destruct (sn_audience_relevance_json node) as [| |d] eqn:E; try destruct Hr.
  destruct (Qltb bound (relevance_for audience d)) eqn:Hb; [|destruct Hr].
  destruct Hr as [<- | []]. cbn. split; [exact Hin|]. split; [reflexivity|].
  exists d. split; [exact E | apply Qltb_lt; exact Hb].
Qed.

Lemma filter_all {A : Type} (f : A -> bool) (l : list A) :
  (forall x, In x l -> f x = true) -> filter f l = l.
Proof.
  induction l as [|x l IH]; cbn; intros H; [reflexivity|].
  rewrite (H x (or_introl eq_refl)). f_equal. apply IH. intros y Hy. apply H. right. exact Hy.
Qed.

Lemma filter_none {A : Type} (f : A -> bool) (l : list A) :
  (forall x, In x l -> f x = false) -> filter f l = [].
Proof.
  induction l as [|x l IH]; cbn; intros H; [reflexivity|].
  rewrite (H x (or_introl eq_refl)). apply IH. intros y Hy. apply H. right. exact Hy.
Qed.

(** C9.  [get_audience_focused_graph(audience, limit)] returns at most
    [limit] nodes that are not expansion nodes, and each of them is a
    stored node whose stored relevance for the audience is above 0.1 in the
    graph data base client and above 0.0 in the relational client. *)
Theorem audience_graph_focus :
  forall (gdb : Neo4j.Db) (sdb : Simple.Db) (audience : string) (limit : nat),
    let rn := Neo4j.get_audience_focused_graph gdb audience limit in
    let rs := Simple.get_audience_focused_graph sdb audience limit in
    ((List.length (filter (fun r => negb (ar_is_expansion r)) (ag_nodes rn)) <= limit)%nat
     /\ forall r, In r (ag_nodes rn) -> ar_is_expansion r = false ->
                  In (ar_node r) (Neo4j.g_nodes gdb)
                  /\ stored_relevance_above audience (1 # 10) r)
    /\ ((List.length (filter (fun r => negb (ar_is_expansion r)) (ag_nodes rs)) <= limit)%nat
        /\ forall r, In r (ag_nodes rs) -> ar_is_expansion r = false ->
                     In (ar_node r) (Simple.db_nodes sdb)
                     /\ stored_relevance_above audience 0 r).
Proof.
  intros gdb sdb audience limit rn rs. split.
  - unfold rn, Neo4j.get_audience_focused_graph.
    set (all_nodes := sort_desc by_confidence _).
    set (audience_nodes := flat_map _ all_nodes).
    assert (Hrows : forall r, In r audience_nodes ->
                              In (ar_node r) (Neo4j.g_nodes gdb)
                              /\ ar_is_expansion r = false
                              /\ stored_relevance_above audience (1 # 10) r).
    { intros r Hr.
      apply (audience_rows_sound audience (1 # 10)
               (fun node score => if String.eqb (sn_type node) "insight"
                                  then score * (12 # 10) else score)) in Hr.
      destruct Hr as (Hin & Hexp & Hrel). split; [|auto].
      apply sort_desc_In in Hin. apply filter_In in Hin. tauto. }
    destruct audience_nodes as [|row rows] eqn:Ea.
    + cbn. split; [lia | intros r []].
    + rewrite <- Ea in *. cbn [ag_nodes].
      set (focused := firstn limit (sort_desc Neo4j.by_relevance_confidence audience_nodes)).
      assert (Hf : forall r, In r focused -> In r audience_nodes).
      { intros r Hr. apply firstn_In in Hr. apply sort_desc_In in Hr. exact Hr. }
      split.
      * rewrite filter_app, filter_all, filter_none, app_nil_r.
        -- apply firstn_le_length.
        -- intros r Hr. apply in_map_iff in Hr. destruct Hr as [x [<- _]]. reflexivity.
        -- intros r Hr. destruct (Hrows r (Hf r Hr)) as (_ & -> & _). reflexivity.
      * intros r Hr Hexp. apply in_app_or in Hr. destruct Hr as [Hr | Hr].
        -- destruct (Hrows r (Hf r Hr)) as (H1 & _ & H2). auto.
        -- apply in_map_iff in Hr. destruct Hr as [x [<- _]]. discriminate Hexp.
  - unfold rs, Simple.get_audience_focused_graph. cbn [ag_nodes].
    set (all_nodes := sort_desc by_confidence _).
    set (relevant := flat_map _ all_nodes).
    split.
    + eapply Nat.le_trans; [apply filter_length_le | apply firstn_le_length].
    + intros r Hr _. apply firstn_In in Hr. apply sort_desc_In in Hr.
      apply (audience_rows_sound audience 0 (fun _ score => score)) in Hr.
      destruct Hr as (Hin & _ & Hrel). split; [|exact Hrel].
      apply sort_desc_In in Hin. apply filter_In in Hin. tauto.
Qed.

(** ** Loading the relational data base *)

















(** ** Persistence *)

Lemma string_app_assoc (a b c : string) : ((a ++ b) ++ c = a ++ (b ++ c))%string.
Proof.
  induction a as [|x a IH]; cbn; [reflexivity | rewrite IH; reflexivity].
Qed.

Lemma string_app_nil_r (a : string) : (a ++ "" = a)%string.
Proof.
  induction a as [|x a IH]; cbn; [reflexivity | rewrite IH; reflexivity].
Qed.

Section ClockOnly.
Variable encode_string : string -> string.

Lemma clock_only_here : clock_only encode_string encode_string.
Proof.
  exists ""%string, ""%string. intros now. cbn. rewrite string_app_nil_r. reflexivity.
Qed.

Lemma clock_only_after (a : string) (text : string -> string) :
  clock_only encode_string text ->
  clock_only encode_string (fun now => (a ++ text now)%string).
Proof.
  intros [before [after H]]. exists (a ++ before)%string, after. intros now.
  rewrite H, string_app_assoc. reflexivity.
Qed.

Lemma clock_only_before (c : string) (text : string -> string) :
  clock_only encode_string text ->
  clock_only encode_string (fun now => (text now ++ c)%string).
Proof.
  intros [before [after H]]. exists before, (after ++ c)%string. intros now.
  rewrite H, !string_app_assoc. reflexivity.
Qed.

Lemma clock_only_cons (x : ascii) (text : string -> string) :
  clock_only encode_string text ->
  clock_only encode_string (fun now => String x (text now)).
Proof.
  intros H. apply (clock_only_after (String x "")) in H. exact H.
Qed.
End ClockOnly.

Section PersistenceFacts.
Variable set_order : list string -> list string.
Variable encode_float : Q -> string.
Variable encode_string : string -> string.

Let dump_text := dumps encode_float encode_string.

Lemma nodes_json_clock_only (b : Builder) :
  clock_only encode_string (fun now => dump_text (nodes_data set_order b now)).
Proof.
  unfold dump_text, dumps, nodes_data.
  cbn [dumps_at].
  repeat first [ apply clock_only_here
               | apply clock_only_cons
               | apply clock_only_after
               | apply clock_only_before ].
Qed.

Lemma edges_json_clock_only (b : Builder) :
  clock_only encode_string (fun now => dump_text (edges_data set_order b now)).
Proof.
  unfold dump_text, dumps, edges_data.
  cbn [dumps_at].
  repeat first [ apply clock_only_here
               | apply clock_only_cons
               | apply clock_only_after
               | apply clock_only_before ].
Qed.
End PersistenceFacts.

(** C5, as stated, fails: two runs of the persistence step on the same
    (empty) graph at different clock readings write different nodes
    files. *)
Lemma persisted_twice_not_identical :
  nodes_json (save_graph (fun l => l) (fun _ => "0.0") quoted new_builder
                         "2025-01-01T09:00:00" "2025-01-01T09:00:00")
  <> nodes_json (save_graph (fun l => l) (fun _ => "0.0") quoted new_builder
                            "2025-01-01T09:00:01" "2025-01-01T09:00:01").
Proof.
  vm_compute. intros H. discriminate H.
Qed.

(** C5, amended.  Two runs of the persistence step on the same nodes and
    edges write the same summary, and nodes and edges files that are the
    same byte for byte but for the encoded clock reading of each run (the
    value of [creation_timestamp]). *)
Theorem persisted_twice_same_but_timestamp :
  forall (set_order : list string -> list string)
         (encode_float : Q -> string) (encode_string : string -> string)
         (b : Builder),
  exists nodes_before nodes_after edges_before edges_after summary : string,
    forall now1 now2 : string,
      save_graph set_order encode_float encode_string b now1 now2
      = mkSavedGraph (nodes_before ++ encode_string now1 ++ nodes_after)%string
                     (edges_before ++ encode_string now2 ++ edges_after)%string
                     summary.
Proof.
  intros set_order encode_float encode_string b.
  destruct (nodes_json_clock_only set_order encode_float encode_string b)
    as (nb & na & Hn).
  destruct (edges_json_clock_only set_order encode_float encode_string b)
    as (eb & ea & He).
  exists nb, na, eb, ea, (dumps encode_float encode_string (graph_summary b)).
  intros now1 now2. unfold save_graph. rewrite Hn, He. reflexivity.
Qed.

(** ** The relationship analyzer, further *)

Lemma set_inter_NoDup (l1 l2 : list string) : NoDup (set_inter l1 l2).
Proof. unfold set_inter, set_of. apply NoDup_nodup. Qed.

Lemma set_inter_length_comm (l1 l2 : list string) :
  List.length (set_inter l1 l2) = List.length (set_inter l2 l1).
Proof.
  apply Permutation_length. apply NoDup_Permutation; try apply set_inter_NoDup.
  intros t. rewrite !set_inter_In. tauto.
Qed.

Lemma shared_tag_test_comm (l1 l2 l : list string) :
  existsb (fun tag => mem_str tag (set_inter l1 l2)) l
  = existsb (fun tag => mem_str tag (set_inter l2 l1)) l.
Proof.
  apply eq_true_iff_eq. rewrite !existsb_exists.
  split; intros [t [Ht Hm]]; exists t; split; try exact Ht;
    rewrite mem_str_In, set_inter_In in *; tauto.
Qed.

(** X1.  The relationship analyzer does not depend on the order of its two
    nodes: type, weight and confidence are the same for [(A, B)] and for
    [(B, A)]. *)
Theorem analyze_relationship_symmetric :
  forall (A B : GraphNode) (s : Q),
    _analyze_relationship A B s = _analyze_relationship B A s.
Proof.
  intros A B s. unfold _analyze_relationship.
  rewrite (set_inter_length_comm (n_tags A) (n_tags B)).
  rewrite (shared_tag_test_comm (n_tags A) (n_tags B)).
  rewrite (Nat.max_comm (List.length (n_tags A)) (List.length (n_tags B))).
  rewrite (orb_comm (String.eqb (n_type A) "insight" && String.eqb (n_type B) "metric")).
  rewrite (orb_comm (String.eqb (n_type A) "event" && mem_str (n_type B) ["metric"; "insight"])).
  reflexivity.
Qed.

Lemma classify_cases (A B : GraphNode) (s : Q) :
  let r := _analyze_relationship A B s in
  (fst (fst r) = "relevance" /\ snd r = 7 # 10)
  \/ (fst (fst r) = "causality" /\ snd r = 8 # 10)
  \/ (fst (fst r) = "influence" /\ snd r = 75 # 100).
Proof.
  cbn zeta. destruct (analyze_matches_spec A B s) as (Hn & _ & Hc).
  rewrite Hn, Hc. destruct (Spec.classify A B); cbn; auto.
Qed.

Lemma semantic_edges_types
      (cosine : list Q -> list Q -> Q) (set_order : list string -> list string)
      (similarity_threshold : Q) (node_list : list GraphNode) (e : GraphEdge) :
  In e (semantic_edges cosine set_order similarity_threshold node_list) ->
  (e_relationship_type e = "relevance" /\ e_confidence e = 7 # 10)
  \/ (e_relationship_type e = "causality" /\ e_confidence e = 8 # 10)
  \/ (e_relationship_type e = "influence" /\ e_confidence e = 75 # 100).
Proof.
  intros He.
  apply (in_semantic_edges cosine set_order) in He.
  destruct He as (i & j & n1 & n2 & _ & _ & _ & He).
  apply edge_for_similarity_Some in He.
  destruct He as (_ & _ & _ & -> & _ & -> & _).
  apply classify_cases.
Qed.

(** X2.  Every edge that the classifier emits carries one of the three
    relationship types, and its confidence is the constant of that type:
    0.7 for "relevance", 0.8 for "causality", 0.75 for "influence". *)
Theorem edge_type_and_confidence_closed :
  forall (cosine : list Q -> list Q -> Q) (set_order : list string -> list string)
         (similarity_threshold : Q) (node_list : list GraphNode),
    Forall (fun e =>
              (e_relationship_type e = "relevance" /\ e_confidence e = 7 # 10)
              \/ (e_relationship_type e = "causality" /\ e_confidence e = 8 # 10)
              \/ (e_relationship_type e = "influence" /\ e_confidence e = 75 # 100))
           (semantic_edges cosine set_order similarity_threshold node_list).
Proof.
  intros cosine set_order thr node_list. apply Forall_forall. intros e He.
  eapply semantic_edges_types. exact He.
Qed.

Lemma multiplier_ge_1 (r : Spec.Relationship) : 1 <= Spec.multiplier r.
Proof. destruct r; cbn; discriminate. Qed.

Lemma Qmult_ge_self (x k : Q) : 0 <= x -> 1 <= k -> x <= x * k.
Proof.
  intros Hx Hk. rewrite <- (Qmult_1_r x) at 1.
  rewrite (Qmult_comm x 1), (Qmult_comm x k).
  apply Qmult_le_compat_r; assumption.
Qed.

(** The final weight is at least the similarity capped at 1.0, for a
    similarity that is not negative. *)
Lemma weight_at_least_capped_similarity (A B : GraphNode) (s : Q) :
  0 <= s -> Qmin s 1 <= snd (fst (_analyze_relationship A B s)).
Proof.
  intros Hs. destruct (analyze_matches_spec A B s) as (_ & Hw & _). rewrite Hw.
  unfold Spec.final_weight, Spec.base_weight.
  assert (Hk : 1 <= 1 + Spec.tag_overlap A B * (5 # 10)).
  { rewrite <- (Qplus_0_r 1) at 1. apply Qplus_le_r.
    apply Qmult_le_0_compat; [apply tag_overlap_nonneg | discriminate]. }
  assert (Hm : Qmin s 1 <= Qmin (s * Spec.multiplier (Spec.classify A B)) 1).
  { apply Q.min_le_compat_r. apply Qmult_ge_self; [exact Hs | apply multiplier_ge_1]. }
  assert (H0 : 0 <= Qmin (s * Spec.multiplier (Spec.classify A B)) 1).
  { apply Q.min_glb; [|discriminate].
    apply Qmult_le_0_compat; [exact Hs|].
    apply Qle_trans with 1; [discriminate | apply multiplier_ge_1]. }
  apply Q.min_glb; [|apply Q.le_min_r].
  apply Qle_trans with (Qmin (s * Spec.multiplier (Spec.classify A B)) 1); [exact Hm|].
  apply Qmult_ge_self; assumption.
Qed.

(** X3.  With a threshold that is not negative the test [weight > 0] never
    rejects a pair: an edge is emitted exactly when the similarity exceeds
    the threshold, and its weight is at least the similarity capped at
    1.0. *)
Theorem nonnegative_threshold_decides :
  forall (set_order : list string -> list string) (similarity_threshold : Q)
         (node1 node2 : GraphNode) (similarity : Q),
    0 <= similarity_threshold ->
    ((exists e, edge_for_similarity set_order similarity_threshold node1 node2 similarity
                = Some e)
     <-> similarity_threshold < similarity)
    /\ (forall e, edge_for_similarity set_order similarity_threshold node1 node2 similarity
                  = Some e ->
                  Qmin similarity 1 <= e_weight e).
Proof.
  intros set_order thr n1 n2 s Hthr. split.
  - split.
    + intros [e He]. apply edge_for_similarity_Some in He. tauto.
    + intros Hs. apply edge_for_similarity_emits; [exact Hs|].
      assert (H0 : 0 < s) by (eapply Qle_lt_trans; eauto).
      eapply Qlt_le_trans; [|apply weight_at_least_capped_similarity, Qlt_le_weak, H0].
      destruct (Q.min_spec s 1) as [[_ E] | [_ E]]; rewrite E; [exact H0 | reflexivity].
  - intros e He. apply edge_for_similarity_Some in He.
    destruct He as ((Hs & _) & _ & _ & _ & -> & _).
    apply weight_at_least_capped_similarity.
    apply Qlt_le_weak. eapply Qle_lt_trans; eauto.
Qed.

Lemma nonnegative_threshold_decides_witness :
  (exists e, edge_for_similarity (fun l => l) (25 # 100)
                                 (sample_node "a" "metric" ["dau"] [1])
                                 (sample_node "b" "insight" ["mrr"] [1]) (3 # 10)
             = Some e)
  <-> 25 # 100 < 3 # 10.
Proof.
  assert (H : 0 <= 25 # 100) by discriminate.
  apply (proj1 (nonnegative_threshold_decides
                  (fun l => l) (25 # 100)
                  (sample_node "a" "metric" ["dau"] [1])
                  (sample_node "b" "insight" ["mrr"] [1]) (3 # 10) H)).
Defined.

(** ** The edge loops, further *)

Section Threshold.
Variable cosine_similarity : list Q -> list Q -> Q.
Variable set_order : list string -> list string.

Lemma edge_for_similarity_raise (thr1 thr2 : Q) (n1 n2 : GraphNode) (s : Q) :
  thr1 <= thr2 ->
  edge_for_similarity set_order thr2 n1 n2 s
  = match edge_for_similarity set_order thr1 n1 n2 s with
    | Some e => if Qltb thr2 (e_semantic_similarity e) then Some e else None
    | None => None
    end.
Proof.
  intros Hle. unfold edge_for_similarity.
  destruct (_analyze_relationship n1 n2 s) as [[rt w] c].
  destruct (Qltb thr2 s) eqn:E2.
  - assert (E1 : Qltb thr1 s = true).
    { apply Qltb_lt. apply Qltb_lt in E2. eapply Qle_lt_trans; eauto. }
    rewrite E1. cbn [andb]. destruct (Qltb 0 w); cbn; [rewrite E2|]; reflexivity.
  - cbn [andb]. destruct (Qltb thr1 s && Qltb 0 w); cbn; [rewrite E2|]; reflexivity.
Qed.

Lemma edges_from_raise (thr1 thr2 : Q) (n1 : GraphNode) (later : list GraphNode) :
  thr1 <= thr2 ->
  edges_from cosine_similarity set_order thr2 n1 later
  = filter (fun e => Qltb thr2 (e_semantic_similarity e))
           (edges_from cosine_similarity set_order thr1 n1 later).
Proof.
  intros Hle. induction later as [|n2 rest IH]; cbn; [reflexivity|].
  unfold edge_for_pair. rewrite (edge_for_similarity_raise thr1 thr2 _ _ _ Hle).
  destruct (edge_for_similarity set_order thr1 n1 n2 _) as [e|]; cbn; [|exact IH].
  destruct (Qltb thr2 (e_semantic_similarity e)); rewrite IH; reflexivity.
Qed.

Lemma semantic_edges_raise (thr1 thr2 : Q) (node_list : list GraphNode) :
  thr1 <= thr2 ->
  semantic_edges cosine_similarity set_order thr2 node_list
  = filter (fun e => Qltb thr2 (e_semantic_similarity e))
           (semantic_edges cosine_similarity set_order thr1 node_list).
Proof.
  intros Hle. induction node_list as [|n rest IH]; cbn; [reflexivity|].
  rewrite filter_app, <- IH, <- (edges_from_raise thr1 thr2 n rest Hle). reflexivity.
Qed.

Lemma edges_from_length (thr : Q) (n1 : GraphNode) (later : list GraphNode) :
  (List.length (edges_from cosine_similarity set_order thr n1 later)
   <= List.length later)%nat.
Proof.
  induction later as [|n2 rest IH]; cbn; [lia|].
  destruct (edge_for_pair cosine_similarity set_order thr n1 n2); cbn; lia.
Qed.

Lemma semantic_edges_length (thr : Q) (node_list : list GraphNode) :
  (2 * List.length (semantic_edges cosine_similarity set_order thr node_list)
   <= List.length node_list * (List.length node_list - 1))%nat.
Proof.
  induction node_list as [|n rest IH]; cbn [semantic_edges]; [cbn; lia|].
  rewrite length_app. pose proof (edges_from_length thr n rest) as H.
  cbn [List.length]. nia.
Qed.
End Threshold.

(** X4.  Raising the similarity threshold only drops edges: the edges at
    a higher threshold are the edges at a lower one whose semantic
    similarity exceeds the higher threshold, in the same order. *)
Theorem raising_threshold_filters_edges :
  forall (cosine : list Q -> list Q -> Q) (set_order : list string -> list string)
         (low high : Q) (node_list : list GraphNode),
    low <= high ->
    semantic_edges cosine set_order high node_list
    = filter (fun e => Qltb high (e_semantic_similarity e))
             (semantic_edges cosine set_order low node_list).
Proof.
  intros cosine set_order low high node_list H.
  apply semantic_edges_raise. exact H.
Qed.

Lemma raising_threshold_filters_edges_witness :
  semantic_edges (fun _ _ => 28 # 100) (fun l => l) (3 # 10) sample_pair
  = filter (fun e => Qltb (3 # 10) (e_semantic_similarity e))
           (semantic_edges (fun _ _ => 28 # 100) (fun l => l) (25 # 100) sample_pair).
Proof.
  apply (raising_threshold_filters_edges (fun _ _ => 28 # 100) (fun l => l)
                                         (25 # 100) (3 # 10) sample_pair).
  discriminate.
Defined.

(** X5.  A node list of [n] nodes gives at most [n * (n - 1) / 2] edges:
    one for each unordered pair. *)
Theorem edge_count_at_most_pairs :
  forall (cosine : list Q -> list Q -> Q) (set_order : list string -> list string)
         (similarity_threshold : Q) (node_list : list GraphNode),
    (2 * List.length (semantic_edges cosine set_order similarity_threshold node_list)
     <= List.length node_list * (List.length node_list - 1))%nat.
Proof.
  intros. apply semantic_edges_length.
Qed.

(** ** The node dictionary, further *)

Lemma dict_get_set {V : Type} (k k' : string) (v : V) (d : list (string * V)) :
  dict_get k' (dict_set k v d) = if String.eqb k' k then Some v else dict_get k' d.
Proof.
  induction d as [|[k2 v2] rest IH]; cbn.
  - reflexivity.
  - destruct (String.eqb k k2) eqn:E; cbn.
    + apply String.eqb_eq in E. subst k2. destruct (String.eqb k' k); reflexivity.
    + destruct (String.eqb k' k2) eqn:E2.
      * apply String.eqb_eq in E2. subst k2.
        rewrite String.eqb_sym, E. reflexivity.
      * exact IH.
Qed.

Lemma dict_set_keys {V : Type} (k : string) (v : V) (d : list (string * V)) :
  map fst (dict_set k v d)
  = if mem_str k (map fst d) then map fst d else map fst d ++ [k].
Proof.
  induction d as [|[k2 v2] rest IH]; cbn; [reflexivity|].
  destruct (String.eqb k k2) eqn:E; cbn.
  - apply String.eqb_eq in E. subst k2. reflexivity.
  - rewrite IH. unfold mem_str. destruct (existsb (String.eqb k) (map fst rest)); reflexivity.
Qed.

Lemma dict_set_fresh {V : Type} (k : string) (v : V) (d : list (string * V)) :
  ~ In k (map fst d) -> dict_set k v d = d ++ [(k, v)].
Proof.
  induction d as [|[k2 v2] rest IH]; cbn; intros H; [reflexivity|].
  destruct (String.eqb k k2) eqn:E.
  - apply String.eqb_eq in E. subst k2. tauto.
  - rewrite IH; [reflexivity | tauto].
Qed.

Lemma dict_set_keys_NoDup {V : Type} (k : string) (v : V) (d : list (string * V)) :
  NoDup (map fst d) -> NoDup (map fst (dict_set k v d)).
Proof.
  intros H. rewrite dict_set_keys. destruct (mem_str k (map fst d)) eqn:E; [exact H|].
  apply NoDup_app; [exact H | repeat constructor; intros [] |].
  intros a Ha [<- | []]. apply mem_str_In in Ha. congruence.
Qed.

Lemma keyed_lookup (d : list (string * GraphNode)) (n : GraphNode) :
  keyed_by_id d -> In n (dict_values d) -> dict_get (n_id n) d = Some n.
Proof.
  intros [Hnd Hid] Hin. unfold dict_values in Hin. apply in_map_iff in Hin.
  destruct Hin as [[k v] [E Hin]]. cbn in E. subst v.
  pose proof (Hid k n Hin) as Hk. subst k. clear Hid.
  induction d as [|[k2 v2] rest IH]; [destruct Hin|].
  cbn in Hnd. inversion Hnd as [|x l Hnotin Hnd' [Hx Hl]]. clear x l Hx Hl.
  cbn. destruct Hin as [E | Hin].
  - injection E as -> ->. rewrite String.eqb_refl. reflexivity.
  - destruct (String.eqb (n_id n) k2) eqn:E2; [|apply IH; assumption].
    apply String.eqb_eq in E2. subst k2. exfalso. apply Hnotin.
    apply in_map_iff. exists (n_id n, n). auto.
Qed.

(** X6.  In a graph build every edge joins two nodes of the node
    dictionary (looked up by the edge's source and target identifiers), and
    its semantic similarity is the cosine similarity of their embeddings. *)
Theorem build_edges_join_stored_nodes :
  forall (cosine : list Q -> list Q -> Q) (encode : string -> list Q)
         (uuid4 : nat -> string) (round3 : Q -> Q)
         (set_order : list string -> list string)
         (similarity_threshold : Q) (data_points : list DataPoint),
    let b := build_graph cosine encode uuid4 round3 set_order
                         similarity_threshold data_points in
    Forall (fun e =>
              exists n1 n2,
                dict_get (e_source_id e) (nodes b) = Some n1
                /\ dict_get (e_target_id e) (nodes b) = Some n2
                /\ e_semantic_similarity e
                   = cosine (n_embedding n1) (n_embedding n2)
                /\ e_relationship_type e
                   = fst (fst (_analyze_relationship n1 n2 (e_semantic_similarity e)))
                /\ e_weight e
                   = snd (fst (_analyze_relationship n1 n2 (e_semantic_similarity e))))
           (edges b).
Proof.
  intros cosine encode uuid4 round3 set_order thr data_points b.
  assert (Hk : keyed_by_id (nodes b)).
  { apply create_nodes_from_keyed. split; [constructor | intros ? ? []]. }
  apply Forall_forall. intros e He.
  change (edges b) with (semantic_edges cosine set_order thr (dict_values (nodes b))) in He.
  apply (in_semantic_edges cosine set_order) in He.
  destruct He as (i & j & n1 & n2 & _ & Hi & Hj & He).
  apply nth_error_In in Hi. apply nth_error_In in Hj.
  apply edge_for_similarity_Some in He.
  destruct He as (_ & Hs & Ht & Hr & Hw & _ & Hsim).
  exists n1, n2. rewrite Hs, Ht, Hr, Hw, Hsim.
  repeat split; try reflexivity; apply keyed_lookup; assumption.
Qed.

Lemma create_nodes_from_fresh encode uuid4 round3 (points : list DataPoint) :
  forall (i : nat) (d : list (string * GraphNode)),
    NoDup (map fst d ++ map uuid4 (seq i (List.length points))) ->
    create_nodes_from encode uuid4 round3 i points d
    = d ++ map (fun ip => (uuid4 (fst ip),
                           node_of_point encode round3 (uuid4 (fst ip)) (snd ip)))
               (combine (seq i (List.length points)) points).
Proof.
  induction points as [|point rest IH]; intros i d Hnd; cbn.
  - rewrite app_nil_r. reflexivity.
  - cbn in Hnd. rewrite dict_set_fresh.
    + rewrite IH.
      * rewrite <- app_assoc. reflexivity.
      * rewrite map_app. cbn. rewrite <- app_assoc. exact Hnd.
    + apply NoDup_remove_2 in Hnd. intros Hin. apply Hnd. apply in_or_app. left. exact Hin.
Qed.

(** X7.  When the identifiers drawn for the data points are distinct,
    [create_graph_nodes] on a new builder stores one node per data point,
    in the order of the data points, each with the point's fields, its
    drawn identifier as key, its encoded content as embedding and its
    audience relevance; the edge list stays empty. *)
Theorem create_graph_nodes_one_per_point :
  forall (encode : string -> list Q) (uuid4 : nat -> string) (round3 : Q -> Q)
         (data_points : list DataPoint),
    NoDup (map uuid4 (seq 0 (List.length data_points))) ->
    let b := create_graph_nodes encode uuid4 round3 data_points new_builder in
    nodes b
    = map (fun ip => (uuid4 (fst ip),
                      node_of_point encode round3 (uuid4 (fst ip)) (snd ip)))
          (combine (seq 0 (List.length data_points)) data_points)
    /\ List.length (nodes b) = List.length data_points
    /\ edges b = [].
Proof.
  intros encode uuid4 round3 data_points Hnd b.
  assert (E : nodes b
              = map (fun ip => (uuid4 (fst ip),
                                node_of_point encode round3 (uuid4 (fst ip)) (snd ip)))
                    (combine (seq 0 (List.length data_points)) data_points)).
  { unfold b, create_graph_nodes. cbn [nodes new_builder].
    rewrite create_nodes_from_fresh; [reflexivity | exact Hnd]. }
  split; [exact E | split; [|reflexivity]].
  rewrite E, length_map, length_combine, length_seq. apply Nat.min_id.
Qed.

Lemma create_graph_nodes_one_per_point_witness :
  List.length (nodes (create_graph_nodes (fun _ => [1]) two_ids (fun q => q)
                                         two_points new_builder))
  = 2%nat.
Proof.
  assert (H : NoDup (map two_ids (seq 0 (List.length two_points)))).
  { repeat constructor; cbn; intuition discriminate. }
  exact (proj1 (proj2 (create_graph_nodes_one_per_point
                         (fun _ => [1]) two_ids (fun q => q) two_points H))).
Defined.

(** ** Audience relevance *)

Lemma py_min_unit (x : Q) : 0 <= x -> 0 <= py_min x 1 /\ py_min x 1 <= 1.
Proof.
  intros H. split; [|apply py_min_le_r].
  destruct (py_min_cases x 1) as [[_ E] | [_ E]]; rewrite E; [discriminate | exact H].
Qed.

Lemma tag_relevance_nonneg (test : string -> bool) (tags : list string) (acc : Q) :
  0 <= acc ->
  0 <= fold_left (fun acc tag => if test tag then acc + (2 # 10) else acc) tags acc.
Proof.
  revert acc. induction tags as [|t rest IH]; intros acc H; cbn; [exact H|].
  apply IH. destruct (test t); [|exact H].
  apply Qle_trans with (acc + 0); [rewrite Qplus_0_r; exact H|].
  apply Qplus_le_r. discriminate.
Qed.

Lemma weighted_unit (a b : Q) :
  0 <= a /\ a <= 1 -> 0 <= b /\ b <= 1 ->
  0 <= a * (7 # 10) + b * (3 # 10) /\ a * (7 # 10) + b * (3 # 10) <= 1.
Proof.
  intros [Ha0 Ha1] [Hb0 Hb1]. split.
  - apply Qle_trans with (0 + 0); [discriminate|].
    apply Qplus_le_compat; apply Qmult_le_0_compat; try assumption; discriminate.
  - apply Qle_trans with (1 * (7 # 10) + 1 * (3 # 10)); [|discriminate].
    apply Qplus_le_compat; apply Qmult_le_compat_r; try assumption; discriminate.
Qed.

Lemma audiences_have_keywords (a : string) (profile : Audience) :
  In (a, profile) audiences -> (0 < List.length (a_keywords profile))%nat.
Proof.
  intros H. repeat (destruct H as [H | H]; [inversion H; subst; cbn; lia|]).
  destruct H.
Qed.

(** X8.  [calculate_audience_relevance] returns one score for each of the
    four audiences, in the order investors, customers, internal_team,
    developer_community, and each score is the rounding of a value between
    0 and 1. *)
Theorem audience_relevance_scores :
  forall (round3 : Q -> Q) (content : string) (tags : list string),
    let scores := calculate_audience_relevance round3 content tags in
    dict_keys scores = ["investors"; "customers"; "internal_team"; "developer_community"]
    /\ Forall (fun kv => exists raw, 0 <= raw /\ raw <= 1 /\ snd kv = round3 raw) scores.
Proof.
  intros round3 content tags scores. split; [reflexivity|].
  unfold scores, calculate_audience_relevance.
  apply Forall_forall. intros [audience score] Hin.
  apply in_map_iff in Hin. destruct Hin as [[a profile] [E Hin]].
  injection E as _ <-. cbn [snd].
  eexists. split; [|split; [|reflexivity]].
  - apply weighted_unit; apply py_min_unit.
    + apply Qle_shift_div_l.
      * apply Q_of_nat_pos. eapply audiences_have_keywords. exact Hin.
      * rewrite Qmult_0_l. apply Q_of_nat_nonneg.
    + apply tag_relevance_nonneg. apply Qle_refl.
  - apply weighted_unit; apply py_min_unit.
    + apply Qle_shift_div_l.
      * apply Q_of_nat_pos. eapply audiences_have_keywords. exact Hin.
      * rewrite Qmult_0_l. apply Q_of_nat_nonneg.
    + apply tag_relevance_nonneg. apply Qle_refl.
Qed.

(** ** Tallies *)

Section Tally.
Context {A : Type}.
Variable key : A -> string.

Lemma count_key_app (k : string) (xs ys : list A) :
  count_key key k (xs ++ ys) = (count_key key k xs + count_key key k ys)%nat.
Proof. unfold count_key. rewrite filter_app, length_app. reflexivity. Qed.

Lemma tally_step (seen : list A) (x : A) (d : list (string * nat)) :
  tally_of key seen d -> tally_of key (seen ++ [x]) (dict_incr (key x) d).
Proof.
  intros [Hnd Hget]. split.
  - apply dict_set_keys_NoDup. exact Hnd.
  - intros k. unfold dict_incr. rewrite dict_get_set, count_key_app.
    assert (E1 : count_key key k [x] = if String.eqb (key x) k then 1%nat else 0%nat).
    { unfold count_key. cbn. destruct (String.eqb (key x) k); reflexivity. }
    rewrite E1, (String.eqb_sym k (key x)).
    destruct (String.eqb (key x) k) eqn:E.
    + apply String.eqb_eq in E. subst k. rewrite Hget.
      destruct (count_key key (key x) seen) as [|c].
      * reflexivity.
      * cbn [Nat.eqb]. replace (S c + 1)%nat with (S (S c)) by lia. reflexivity.
    + rewrite Nat.add_0_r. apply Hget.
Qed.

Lemma tally_fold (xs seen : list A) (d : list (string * nat)) :
  tally_of key seen d ->
  tally_of key (seen ++ xs) (fold_left (fun d x => dict_incr (key x) d) xs d).
Proof.
  revert seen d. induction xs as [|x rest IH]; intros seen d H; cbn.
  - rewrite app_nil_r. exact H.
  - replace (seen ++ x :: rest) with ((seen ++ [x]) ++ rest)
      by (rewrite <- app_assoc; reflexivity).
    apply IH. apply tally_step. exact H.
Qed.

Lemma tally_spec (xs : list A) : tally_of key xs (tally key xs).
Proof.
  apply (tally_fold xs [] []). split; [constructor | reflexivity].
Qed.

Lemma total_count_set (k : string) (v : nat) (d : list (string * nat)) :
  (total_count (dict_set k v d) + match dict_get k d with Some c => c | None => 0 end
   = total_count d + v)%nat.
Proof.
  unfold total_count. induction d as [|[k2 c2] rest IH]; cbn; [lia|].
  destruct (String.eqb k k2); cbn in *; lia.
Qed.

Lemma total_count_incr (k : string) (d : list (string * nat)) :
  total_count (dict_incr k d) = S (total_count d).
Proof.
  unfold dict_incr.
  pose proof (total_count_set k (match dict_get k d with Some c => c | None => 0 end + 1) d).
  lia.
Qed.

Lemma total_count_fold (xs : list A) (d : list (string * nat)) :
  total_count (fold_left (fun d x => dict_incr (key x) d) xs d)
  = (total_count d + List.length xs)%nat.
Proof.
  revert d. induction xs as [|x rest IH]; intros d; cbn [fold_left List.length].
  - lia.
  - rewrite IH, total_count_incr. lia.
Qed.
End Tally.

(** X9.  The type breakdowns of a graph (in the summary that [save_graph]
    writes and in the report of [generate_graph.main]) list each node type
    and each relationship type that occurs once, with the number of nodes
    or edges of that type; a type that does not occur has no entry; and the
    counts add up to the number of nodes and of edges. *)
Theorem breakdown_counts :
  forall (b : Builder),
    (NoDup (dict_keys (node_type_breakdown b))
     /\ (forall ty,
            dict_get ty (node_type_breakdown b)
            = if (count_key n_type ty (dict_values (nodes b)) =? 0)%nat then None
              else Some (count_key n_type ty (dict_values (nodes b))))
     /\ total_count (node_type_breakdown b) = List.length (nodes b))
    /\ (NoDup (dict_keys (relationship_breakdown b))
        /\ (forall ty,
               dict_get ty (relationship_breakdown b)
               = if (count_key e_relationship_type ty (edges b) =? 0)%nat then None
                 else Some (count_key e_relationship_type ty (edges b)))
        /\ total_count (relationship_breakdown b) = List.length (edges b))
    /\ exists coverage sources,
        graph_summary b
        = JObj [ ("graph_summary",
                  JObj [ ("total_nodes", JCount (List.length (nodes b)));
                         ("total_edges", JCount (List.length (edges b)));
                         ("node_types",
                          JObj (map (fun kv => (fst kv, JCount (snd kv)))
                                    (node_type_breakdown b)));
                         ("relationship_types",
                          JObj (map (fun kv => (fst kv, JCount (snd kv)))
                                    (relationship_breakdown b)));
                         ("audience_coverage", coverage);
                         ("source_distribution", sources) ]) ].
Proof.
  intros b. split; [|split].
  - destruct (tally_spec n_type (dict_values (nodes b))) as [Hnd Hget].
    split; [exact Hnd | split; [exact Hget|]].
    unfold node_type_breakdown, tally. rewrite total_count_fold.
    unfold dict_values. rewrite length_map. reflexivity.
  - destruct (tally_spec e_relationship_type (edges b)) as [Hnd Hget].
    split; [exact Hnd | split; [exact Hget|]].
    unfold relationship_breakdown, tally. rewrite total_count_fold. reflexivity.
  - eexists. eexists. reflexivity.
Qed.

(** ** Sorting, further *)

Section SortByOrder.
Context {A : Type}.
Variable below : A -> A -> bool.
Variable le : A -> A -> Prop.
Hypothesis below_le : forall x y, below x y = true -> le x y.
Hypothesis not_below_le : forall x y, below x y = false -> le y x.
Hypothesis le_trans : forall x y z, le x y -> le y z -> le x z.

Lemma insert_desc_sorted_by (x : A) (l : list A) :
  StronglySorted (fun a b => le b a) l ->
  StronglySorted (fun a b => le b a) (insert_desc below x l).
Proof.
  induction l as [|y ys IH]; cbn; intros H.
  - constructor; constructor.
  - inversion H as [|? ? Hys Hy]; subst.
    destruct (below x y) eqn:E.
    + constructor.
      * apply IH. exact Hys.
      * apply Forall_forall. intros z Hz.
        apply (Permutation_in _ (insert_desc_perm below x ys)) in Hz.
        destruct Hz as [<- | Hz].
        -- apply below_le. exact E.
        -- apply (proj1 (Forall_forall _ _) Hy). exact Hz.
    + constructor; [exact H|].
      constructor; [apply not_below_le; exact E|].
      apply Forall_forall. intros z Hz.
      apply le_trans with y; [|apply not_below_le; exact E].
      apply (proj1 (Forall_forall _ _) Hy). exact Hz.
Qed.

Lemma sort_desc_sorted_by (l : list A) :
  StronglySorted (fun a b => le b a) (sort_desc below l).
Proof.
  induction l as [|x l IH]; cbn.
  - constructor.
  - apply insert_desc_sorted_by. exact IH.
Qed.
End SortByOrder.

Lemma group_counts_sorted {A : Type} (key : A -> string) (rows : list A) :
  StronglySorted (fun a b => (snd b <= snd a)%nat) (group_counts key rows).
Proof.
  apply (sort_desc_sorted_by by_count (fun a b => (snd a <= snd b)%nat)).
  - intros x y H. apply Nat.ltb_lt in H. lia.
  - intros x y H. apply Nat.ltb_ge in H. exact H.
  - intros x y z. lia.
Qed.

Lemma total_count_perm (d d' : list (string * nat)) :
  Permutation d d' -> total_count d = total_count d'.
Proof.
  unfold total_count. induction 1; cbn; lia.
Qed.

Lemma count_key_le {A : Type} (key : A -> string) (k : string) (xs : list A) :
  (count_key key k xs <= List.length xs)%nat.
Proof. apply filter_length_le. Qed.

Lemma tally_entry {A : Type} (key : A -> string) (xs : list A) (k : string) (c : nat) :
  In (k, c) (tally key xs) -> c = count_key key k xs /\ (0 < c)%nat.
Proof.
  intros Hin. destruct (tally_spec key xs) as [Hnd Hget].
  assert (E : dict_get k (tally key xs) = Some c).
  { clear Hget. induction (tally key xs) as [|[k2 c2] rest IH]; [destruct Hin|].
    cbn in Hnd. inversion Hnd as [|x l Hnotin Hnd' [Hx Hl]]. clear x l Hx Hl.
    cbn. destruct Hin as [E | Hin].
    - injection E as -> ->. rewrite String.eqb_refl. reflexivity.
    - destruct (String.eqb k k2) eqn:E2; [|apply IH; assumption].
      apply String.eqb_eq in E2. subst k2. exfalso. apply Hnotin.
      apply in_map_iff. exists (k, c). auto. }
  rewrite Hget in E. destruct (count_key key k xs) as [|n]; cbn in E; [discriminate|].
  injection E as <-. split; [reflexivity | lia].
Qed.

(** X10.  The overview of the relational client: the per-type counts name
    distinct types, each with the number of stored nodes of that type, in
    descending order of count, and add up to the number of stored nodes;
    the top sources are at most ten, each with the number of its nodes, in
    descending order; and the high-confidence count is at most the number
    of stored nodes. *)
Theorem simple_overview_counts :
  forall (db : Simple.Db),
    let ov := SimpleMore.get_graph_overview db in
    ov_total_nodes ov = List.length (Simple.db_nodes db)
    /\ ov_total_relationships ov = List.length (Simple.db_edges db)
    /\ NoDup (dict_keys (ov_node_types ov))
    /\ Forall (fun kc => snd kc = count_key sn_type (fst kc) (Simple.db_nodes db)
                         /\ (0 < snd kc)%nat)
              (ov_node_types ov)
    /\ StronglySorted (fun a b => (snd b <= snd a)%nat) (ov_node_types ov)
    /\ total_count (ov_node_types ov) = ov_total_nodes ov
    /\ (List.length (ov_top_sources ov) <= 10)%nat
    /\ Forall (fun kc => snd kc = count_key sn_source (fst kc) (Simple.db_nodes db)
                         /\ (0 < snd kc)%nat)
              (ov_top_sources ov)
    /\ StronglySorted (fun a b => (snd b <= snd a)%nat) (ov_top_sources ov)
    /\ (ov_high_confidence_nodes ov <= ov_total_nodes ov)%nat.
Proof.
  intros db ov. unfold ov, SimpleMore.get_graph_overview.
  cbn [ov_total_nodes ov_total_relationships ov_node_types ov_top_sources
       ov_high_confidence_nodes].
  split; [reflexivity | split; [reflexivity|]].
  split.
  { unfold dict_keys, group_counts.
    eapply Permutation_NoDup.
    - apply Permutation_map. symmetry. apply sort_desc_perm.
    - apply (tally_spec sn_type (Simple.db_nodes db)). }
  split.
  { apply Forall_forall. intros [k c] Hin. apply sort_desc_In in Hin.
    apply tally_entry in Hin. exact Hin. }
  split; [apply group_counts_sorted|].
  split.
  { unfold group_counts. rewrite (total_count_perm _ _ (sort_desc_perm by_count _)).
    unfold tally. rewrite total_count_fold. reflexivity. }
  split; [apply firstn_le_length|].
  split.
  { apply Forall_forall. intros [k c] Hin. apply firstn_In in Hin.
    apply sort_desc_In in Hin. apply tally_entry in Hin. exact Hin. }
  split; [apply firstn_StronglySorted, group_counts_sorted|].
  apply filter_length_le.
Qed.

(** ** Loading the relational data base, further *)










Lemma load_edges_result (file_edges : list GraphEdge) :
  forall (db : Simple.Db),
    let db' := fst (Simple.load_edges_from_json file_edges db) in
    Simple.db_edges db'
    = Simple.db_edges db
      ++ combine (seq (S (Simple.db_edge_seq db)) (List.length file_edges))
                 (map edge_row file_edges)
    /\ Simple.db_edge_seq db' = (Simple.db_edge_seq db + List.length file_edges)%nat
    /\ Simple.db_nodes db' = Simple.db_nodes db
    /\ snd (Simple.load_edges_from_json file_edges db) = List.length file_edges.
Proof.
  induction file_edges as [|edge rest IH]; intros db; cbn zeta.
  - cbn. rewrite app_nil_r, Nat.add_0_r. auto.
  - cbn [Simple.load_edges_from_json].
    specialize (IH (Simple.insert_edge (edge_row edge) db)). cbn zeta in IH.
    destruct (Simple.load_edges_from_json rest _) as [db' c].
    cbn [fst snd] in *. destruct IH as (IH1 & IH2 & IH3 & IH4).
    unfold Simple.insert_edge in *.
    cbn [Simple.db_edges Simple.db_edge_seq Simple.db_nodes] in *.
    rewrite IH1, IH2, IH3, IH4. cbn [List.length seq map combine].
    rewrite <- app_assoc. cbn. repeat split; try reflexivity. lia.
Qed.

(** X12.  [load_edges_from_json] of the relational client stores every
    edge of the file, in the order of the file, after the rows that the
    table holds, under the consecutive keys that follow the largest key
    handed out so far, whether or not the edge's endpoints are stored
    nodes; the node table is untouched and the returned count is the number
    of edges of the file. *)
Theorem load_edges_appends_all :
  forall (file_edges : list GraphEdge) (db : Simple.Db),
    let db' := fst (Simple.load_edges_from_json file_edges db) in
    Simple.db_edges db'
    = Simple.db_edges db
      ++ combine (seq (S (Simple.db_edge_seq db)) (List.length file_edges))
                 (map edge_row file_edges)
    /\ Simple.db_edge_seq db' = (Simple.db_edge_seq db + List.length file_edges)%nat
    /\ Simple.db_nodes db' = Simple.db_nodes db
    /\ snd (Simple.load_edges_from_json file_edges db) = List.length file_edges.
Proof.
  intros file_edges db. apply load_edges_result.
Qed.

(** ** [LIKE] *)

Lemma like_percent (pattern text : string) :
  Simple.like (String "%" pattern) text
  = Simple.like pattern text
    || match text with
       | EmptyString => false
       | String _ text' => Simple.like (String "%" pattern) text'
       end.
Proof. destruct text; reflexivity. Qed.

Lemma like_percent_end (text : string) : Simple.like "%" text = true.
Proof.
  induction text as [|c text IH].
  - reflexivity.
  - rewrite like_percent. rewrite IH. apply orb_true_r.
Qed.






Lemma like_underscore (text : string) :
  Simple.like "%_%" text = negb (String.eqb text "").
Proof.
  induction text as [|c text IH]; [reflexivity|].
  change "%_%" with (String "%" "_%") in *. rewrite like_percent.
  cbn [Simple.like]. cbn. rewrite like_percent_end. reflexivity.
Qed.

(** X14.  The relational client reads [_] in a query as a wildcard: the
    query ["_"] returns every stored node whose content or source is not
    empty, whether or not it holds an underscore. *)
Theorem simple_search_underscore_matches_any :
  forall (db : Simple.Db) (limit : nat),
    Simple.search_nodes db "_" limit
    = firstn limit
        (sort_desc by_confidence
           (filter (fun n => negb (String.eqb (sn_content n) "")
                             || negb (String.eqb (sn_source n) ""))
                   (Simple.db_nodes db))).
Proof.
  intros db limit. unfold Simple.search_nodes. f_equal. f_equal.
  apply filter_ext. intros n.
  change ("%" ++ "_" ++ "%")%string with "%_%". rewrite !like_underscore. reflexivity.
Qed.

(** ** Filtered graphs, further *)

Lemma in_given_complete (x : string) (l : option (list string)) :
  (given l = true -> exists l', l = Some l' /\ In x l') ->
  (if given l then in_given x l else true) = true.
Proof.
  intros H. destruct (given l) eqn:G; [|reflexivity].
  destruct (H eq_refl) as [l' [-> Hin]]. cbn. apply mem_str_In. exact Hin.
Qed.

Lemma sort_by_weight_descending (l : list StoredEdge) :
  weight_descending (sort_desc by_weight l).
Proof. apply (sort_desc_sorted se_weight). Qed.

Lemma filtered_edges_descending (node_ids : list string) (min_weight : Q)
      (rels : list StoredEdge) :
  weight_descending
    match node_ids with
    | [] => []
    | _ :: _ =>
        sort_desc by_weight
          (filter (fun e => mem_str (se_source_id e) node_ids
                            && mem_str (se_target_id e) node_ids
                            && Qgeb (se_weight e) min_weight)
                  rels)
    end.
Proof.
  destruct node_ids; [constructor | apply sort_by_weight_descending].
Qed.

Lemma filtered_edges_complete (node_ids : list string) (min_weight : Q)
      (rels : list StoredEdge) (e : StoredEdge) :
  In e rels -> In (se_source_id e) node_ids -> In (se_target_id e) node_ids ->
  min_weight <= se_weight e ->
  In e match node_ids with
       | [] => []
       | _ :: _ =>
           sort_desc by_weight
             (filter (fun e => mem_str (se_source_id e) node_ids
                               && mem_str (se_target_id e) node_ids
                               && Qgeb (se_weight e) min_weight)
                     rels)
       end.
Proof.
  intros Hin Hs Ht Hw. destruct node_ids as [|x ids]; [destruct Hs|].
  apply sort_desc_In. apply filter_In. split; [exact Hin|].
  rewrite !andb_true_iff, !mem_str_In, Qgeb_le. auto.
Qed.

Lemma keyed_edges_descending (node_ids : list (option string)) (min_weight : Q)
      (rels : list StoredEdge) :
  weight_descending
    match node_ids with
    | [] => []
    | _ :: _ =>
        sort_desc by_weight
          (filter (fun e => mem_key (se_source_id e) node_ids
                            && mem_key (se_target_id e) node_ids
                            && Qgeb (se_weight e) min_weight)
                  rels)
    end.
Proof.
  destruct node_ids; [constructor | apply sort_by_weight_descending].
Qed.

Lemma keyed_edges_complete (node_ids : list (option string)) (min_weight : Q)
      (rels : list StoredEdge) (e : StoredEdge) :
  In e rels -> In (Some (se_source_id e)) node_ids ->
  In (Some (se_target_id e)) node_ids ->
  min_weight <= se_weight e ->
  In e match node_ids with
       | [] => []
       | _ :: _ =>
           sort_desc by_weight
             (filter (fun e => mem_key (se_source_id e) node_ids
                               && mem_key (se_target_id e) node_ids
                               && Qgeb (se_weight e) min_weight)
                     rels)
       end.
Proof.
  intros Hin Hs Ht Hw. destruct node_ids as [|x ids]; [destruct Hs|].
  apply sort_desc_In. apply filter_In. split; [exact Hin|].
  rewrite !andb_true_iff, !mem_key_In, Qgeb_le. auto.
Qed.

(** X15.  The filtered graph of the graph data base client holds every
    stored node that meets the given filters when [limit] is at least the
    number of stored nodes, and only such nodes in any case; it holds
    exactly the stored relationships of weight at least [min_weight] whose
    two ends are returned nodes, by descending weight; and its totals are
    the lengths of the two lists. *)
Theorem neo4j_filtered_graph_exact :
  forall (db : Neo4j.Db) (node_types sources : option (list string))
         (min_confidence min_weight : Q) (tags : option (list string)) (limit : nat),
    let r := Neo4j.get_filtered_graph db node_types sources min_confidence
                                      min_weight tags limit in
    (forall n, In n (fg_nodes r) ->
               In n (Neo4j.g_nodes db)
               /\ meets_filters node_types sources min_confidence tags n)
    /\ ((List.length (Neo4j.g_nodes db) <= limit)%nat ->
        forall n, In n (Neo4j.g_nodes db) ->
                  meets_filters node_types sources min_confidence tags n ->
                  In n (fg_nodes r))
    /\ (forall e, In e (fg_edges r)
                  <-> In e (Neo4j.g_rels db)
                      /\ In (se_source_id e) (map sn_id (fg_nodes r))
                      /\ In (se_target_id e) (map sn_id (fg_nodes r))
                      /\ min_weight <= se_weight e)
    /\ weight_descending (fg_edges r)
    /\ fg_total_nodes r = List.length (fg_nodes r)
    /\ fg_total_edges r = List.length (fg_edges r).
Proof.
  intros db node_types sources min_confidence min_weight tags limit r.
  split; [apply neo4j_filtered_nodes|].
  split.
  { intros Hlen n Hin (H1 & H2 & H3 & H4).
    unfold r, Neo4j.get_filtered_graph. cbn [fg_nodes].
    rewrite firstn_all2.
    - apply sort_desc_In. apply filter_In. split; [exact Hin|].
      rewrite !andb_true_iff. repeat split.
      + apply Qgeb_le. exact H3.
      + apply in_given_complete. exact H1.
      + apply in_given_complete. exact H2.
      + destruct (given tags) eqn:G; [|reflexivity].
        destruct (H4 eq_refl) as (l & tag & -> & Ht & Hl).
        apply existsb_exists. exists tag. split; [exact Ht|].
        cbn. apply mem_str_In. exact Hl.
    - rewrite sort_desc_length.
      eapply Nat.le_trans; [apply filter_length_le | exact Hlen]. }
  split.
  { intros e. split.
    - intros He.
      eapply (filtered_edges_sound (map sn_id (fg_nodes r)) min_weight
                                   (Neo4j.g_rels db) (fg_edges r)) in He;
        [exact He | reflexivity].
    - intros (H1 & H2 & H3 & H4).
      exact (filtered_edges_complete (map sn_id (fg_nodes r)) min_weight
                                     (Neo4j.g_rels db) e H1 H2 H3 H4). }
  split; [apply filtered_edges_descending|].
  split; reflexivity.
Qed.

(** X16.  The filtered graph of the relational client holds every stored
    node that meets the type, source and confidence filters when [limit]
    is at least the number of stored nodes, and only such nodes in any
    case, by descending confidence; it holds exactly the stored edges of
    weight at least [min_weight] whose two ends are returned nodes, by
    descending weight; and its totals are the lengths of the two lists. *)
Theorem simple_filtered_graph_exact :
  forall (db : Simple.Db) (node_types sources : option (list string))
         (min_confidence min_weight : Q) (tags : option (list string)) (limit : nat),
    let r := Simple.get_filtered_graph db node_types sources min_confidence
                                       min_weight tags limit in
    (forall n, In n (fg_nodes r) ->
               In n (Simple.db_nodes db)
               /\ meets_filters_but_tags node_types sources min_confidence n)
    /\ confidence_descending (fg_nodes r)
    /\ ((List.length (Simple.db_nodes db) <= limit)%nat ->
        forall n, In n (Simple.db_nodes db) ->
                  meets_filters_but_tags node_types sources min_confidence n ->
                  In n (fg_nodes r))
    /\ (forall e, In e (fg_edges r)
                  <-> In e (map snd (Simple.db_edges db))
                      /\ In (Some (se_source_id e)) (map sn_id (fg_nodes r))
                      /\ In (Some (se_target_id e)) (map sn_id (fg_nodes r))
                      /\ min_weight <= se_weight e)
    /\ weight_descending (fg_edges r)
    /\ fg_total_nodes r = List.length (fg_nodes r)
    /\ fg_total_edges r = List.length (fg_edges r).
Proof.
  intros db node_types sources min_confidence min_weight tags limit r.
  split; [apply simple_filtered_nodes|].
  split; [apply simple_filtered_nodes|].
  split.
  { intros Hlen n Hin (H1 & H2 & H3).
    unfold r, Simple.get_filtered_graph. cbn [fg_nodes].
    rewrite firstn_all2.
    - apply sort_desc_In. apply filter_In. split; [exact Hin|].
      rewrite !andb_true_iff. repeat split.
      + apply Qgeb_le. exact H3.
      + apply in_given_complete. exact H1.
      + apply in_given_complete. exact H2.
    - rewrite sort_desc_length.
      eapply Nat.le_trans; [apply filter_length_le | exact Hlen]. }
  split.
  { intros e. split.
    - intros He.
      eapply (keyed_edges_sound (map sn_id (fg_nodes r)) min_weight
                                (map snd (Simple.db_edges db)) (fg_edges r)) in He;
        [exact He | reflexivity].
    - intros (H1 & H2 & H3 & H4).
      exact (keyed_edges_complete (map sn_id (fg_nodes r)) min_weight
                                  (map snd (Simple.db_edges db)) e H1 H2 H3 H4). }
  split; [apply keyed_edges_descending|].
  split; reflexivity.
Qed.

(** ** Audience-focused graphs, further *)

Lemma audience_rows_score {K : Type} (audience : string) (bound : Q)
      (boost : StoredNode K -> Q -> Q) (all_nodes : list (StoredNode K))
      (r : AudienceRow K) :
  In r (flat_map
          (fun node =>
             match sn_audience_relevance_json node with
             | ColDict audience_data =>
                 if Qltb bound (relevance_for audience audience_data)
                 then [mkAudienceRow node
                         (boost node (relevance_for audience audience_data)) false None]
                 else []
             | _ => []
             end)
          all_nodes)
  <-> exists d, In (ar_node r) all_nodes
                /\ sn_audience_relevance_json (ar_node r) = ColDict d
                /\ bound < relevance_for audience d
                /\ r = mkAudienceRow (ar_node r) (boost (ar_node r) (relevance_for audience d))
                                     false None.
Proof.
  rewrite in_flat_map. split.
  - intros [node [Hin Hr]].
    destruct (sn_audience_relevance_json node) as [| |d] eqn:E; try destruct Hr.
    destruct (Qltb bound (relevance_for audience d)) eqn:Hb; [|destruct Hr].
    destruct Hr as [<- | []]. cbn. exists d. apply Qltb_lt in Hb. auto.
  - intros (d & Hin & E & Hb & Hr). exists (ar_node r). split; [exact Hin|].
    rewrite E. apply Qltb_lt in Hb. rewrite Hb. left. symmetry. exact Hr.
Qed.

(** X17.  The audience-focused graph of the relational client lists at
    most [limit] stored nodes, each with its stored relevance for the
    audience as [relevance_score], all above 0.0, by descending relevance;
    every stored node with a relevance above 0.0 is listed when [limit] is
    at least the number of stored nodes; the edges are exactly the stored
    edges of weight at least 0.3 between listed nodes, by descending
    weight. *)
Theorem simple_audience_graph_exact :
  forall (db : Simple.Db) (audience : string) (limit : nat),
    let r := Simple.get_audience_focused_graph db audience limit in
    let ids := map (fun row => sn_id (ar_node row)) (ag_nodes r) in
    Forall (fun row =>
              In (ar_node row) (Simple.db_nodes db)
              /\ exists d, sn_audience_relevance_json (ar_node row) = ColDict d
                           /\ ar_relevance_score row = relevance_for audience d
                           /\ 0 < ar_relevance_score row)
           (ag_nodes r)
    /\ StronglySorted (fun a b => ar_relevance_score b <= ar_relevance_score a)
                      (ag_nodes r)
    /\ ((List.length (Simple.db_nodes db) <= limit)%nat ->
        forall n d, In n (Simple.db_nodes db) ->
                    sn_audience_relevance_json n = ColDict d ->
                    0 < relevance_for audience d ->
                    In (mkAudienceRow n (relevance_for audience d) false None)
                       (ag_nodes r))
    /\ (forall e, In e (ag_edges r)
                  <-> In e (map snd (Simple.db_edges db))
                      /\ In (Some (se_source_id e)) ids
                      /\ In (Some (se_target_id e)) ids
                      /\ 3 # 10 <= se_weight e)
    /\ weight_descending (ag_edges r)
    /\ ag_audience r = audience
    /\ ag_total_nodes r = List.length (ag_nodes r)
    /\ ag_total_edges r = List.length (ag_edges r).
Proof.
  intros db audience limit r ids.
  unfold ids, r, Simple.get_audience_focused_graph.
  cbn [ag_nodes ag_edges ag_audience ag_total_nodes ag_total_edges].
  set (all_nodes := sort_desc by_confidence _).
  set (relevant := flat_map _ all_nodes).
  set (listed := firstn limit (sort_desc _ relevant)).
  assert (Hall : forall n, In n all_nodes
                           <-> In n (Simple.db_nodes db)
                               /\ sn_audience_relevance_json n <> ColNull).
  { intros n. unfold all_nodes. rewrite sort_desc_In, filter_In.
    destruct (sn_audience_relevance_json n); intuition congruence. }
  split.
  { apply Forall_forall. intros row Hrow. unfold listed in Hrow.
    apply firstn_In in Hrow. apply sort_desc_In in Hrow.
    apply (audience_rows_score audience 0 (fun _ score => score)) in Hrow.
    destruct Hrow as (d & Hin & E & Hb & Hr). split; [apply Hall; exact Hin|].
    exists d. rewrite Hr. cbn. auto. }
  split.
  { apply firstn_StronglySorted. apply (sort_desc_sorted ar_relevance_score). }
  split.
  { intros Hlen n d Hin E Hb. unfold listed. rewrite firstn_all2.
    - apply sort_desc_In.
      apply (audience_rows_score audience 0 (fun _ score => score)).
      exists d. cbn. repeat split; try assumption.
      apply Hall. split; [exact Hin | congruence].
    - rewrite sort_desc_length. unfold relevant.
      eapply Nat.le_trans; [|exact Hlen].
      assert (Hl : (List.length all_nodes <= List.length (Simple.db_nodes db))%nat).
      { unfold all_nodes. rewrite sort_desc_length. apply filter_length_le. }
      eapply Nat.le_trans; [|exact Hl].
      clear. induction all_nodes as [|n l IH]; cbn; [lia|].
      rewrite length_app.
      destruct (sn_audience_relevance_json n); cbn; try lia.
      destruct (Qltb 0 (relevance_for audience d)); cbn; lia. }
  split.
  { intros e. destruct listed as [|row rows] eqn:El.
    - cbn. tauto.
    - rewrite <- El. split.
      + intros He. apply sort_desc_In in He. apply filter_In in He.
        destruct He as [Hin Hc]. rewrite !andb_true_iff, !mem_key_In, Qgeb_le in Hc. tauto.
      + intros (H1 & H2 & H3 & H4). apply sort_desc_In. apply filter_In.
        split; [exact H1|]. rewrite !andb_true_iff, !mem_key_In, Qgeb_le. auto. }
  split.
  { destruct listed; [constructor | apply sort_by_weight_descending]. }
  auto.
Qed.

Lemma score_confidence_le_trans (a b c : AudienceRow string) :
  score_confidence_le a b -> score_confidence_le b c -> score_confidence_le a c.
Proof.
  unfold score_confidence_le.
  intros [H1 | [E1 C1]] [H2 | [E2 C2]].
  - left. eapply Qlt_trans; eauto.
  - left. rewrite <- E2. exact H1.
  - left. rewrite E1. exact H2.
  - right. split; [rewrite E1; exact E2 | eapply Qle_trans; eauto].
Qed.

Lemma by_relevance_confidence_sorted (l : list (AudienceRow string)) :
  StronglySorted (fun a b => score_confidence_le b a)
                 (sort_desc Neo4j.by_relevance_confidence l).
Proof.
  apply (sort_desc_sorted_by Neo4j.by_relevance_confidence score_confidence_le).
  - intros x y H. unfold Neo4j.by_relevance_confidence in H.
    apply orb_true_iff in H. destruct H as [H | H].
    + left. apply Qltb_lt. exact H.
    + apply andb_true_iff in H. destruct H as [E C]. right.
      apply Qeq_bool_iff in E. apply Qltb_lt in C.
      split; [exact E | apply Qlt_le_weak, C].
  - intros x y H. unfold Neo4j.by_relevance_confidence in H.
    apply orb_false_iff in H. destruct H as [H1 H2]. apply Qltb_ge in H1.
    destruct (Qeq_bool (ar_relevance_score x) (ar_relevance_score y)) eqn:E.
    + cbn in H2. apply Qltb_ge in H2. apply Qeq_bool_iff in E.
      right. split; [symmetry; exact E | exact H2].
    + left. apply Qle_lt_or_eq in H1. destruct H1 as [H1 | H1]; [exact H1|].
      apply Qeq_bool_neq in E. exfalso. apply E. symmetry. exact H1.
  - apply score_confidence_le_trans.
Qed.

(** X18.  The focused nodes of the graph data base client's audience
    graph, the rows without the expansion mark, come first in the node
    list; each is a stored node with a stored relevance above 0.1, and its
    [relevance_score] is that relevance, times 1.2 for a node of type
    "insight"; they are ordered by descending [(relevance_score,
    confidence)]. *)
Theorem neo4j_audience_focused_rows :
  forall (db : Neo4j.Db) (audience : string) (limit : nat),
    let r := Neo4j.get_audience_focused_graph db audience limit in
    exists focused expansion_rows,
      ag_nodes r = focused ++ expansion_rows
      /\ (List.length focused <= limit)%nat
      /\ Forall (fun row => ar_is_expansion row = true) expansion_rows
      /\ Forall (fun row =>
                   ar_is_expansion row = false
                   /\ In (ar_node row) (Neo4j.g_nodes db)
                   /\ exists d,
                       sn_audience_relevance_json (ar_node row) = ColDict d
                       /\ 1 # 10 < relevance_for audience d
                       /\ ar_relevance_score row
                          = if String.eqb (sn_type (ar_node row)) "insight"
                            then relevance_for audience d * (12 # 10)
                            else relevance_for audience d)
                focused
      /\ StronglySorted (fun a b => score_confidence_le b a) focused.
Proof.
  intros db audience limit r. unfold r, Neo4j.get_audience_focused_graph.
  set (all_nodes := sort_desc by_confidence _).
  set (audience_nodes := flat_map _ all_nodes).
  assert (Hrows : forall row, In row audience_nodes ->
            ar_is_expansion row = false
            /\ In (ar_node row) (Neo4j.g_nodes db)
            /\ exists d,
                sn_audience_relevance_json (ar_node row) = ColDict d
                /\ 1 # 10 < relevance_for audience d
                /\ ar_relevance_score row
                   = if String.eqb (sn_type (ar_node row)) "insight"
                     then relevance_for audience d * (12 # 10)
                     else relevance_for audience d).
  { intros row Hrow.
    apply (audience_rows_score audience (1 # 10)
             (fun node score => if String.eqb (sn_type node) "insight"
                                then score * (12 # 10) else score)) in Hrow.
    destruct Hrow as (d & Hin & E & Hb & Hr).
    apply sort_desc_In in Hin. apply filter_In in Hin. destruct Hin as [Hin _].
    split; [rewrite Hr; reflexivity|]. split; [exact Hin|].
    exists d. split; [exact E|]. split; [exact Hb|]. rewrite Hr. reflexivity. }
  destruct audience_nodes as [|row0 rows0] eqn:Ea.
  - exists [], []. cbn. repeat split; try constructor. lia.
  - rewrite <- Ea in *. cbn [ag_nodes].
    eexists. eexists. split; [reflexivity|].
    split; [apply firstn_le_length|].
    split.
    { apply Forall_forall. intros row Hrow. apply in_map_iff in Hrow.
      destruct Hrow as [x [<- _]]. reflexivity. }
    split.
    { apply Forall_forall. intros row Hrow. apply Hrows.
      apply firstn_In in Hrow. apply sort_desc_In in Hrow. exact Hrow. }
    apply firstn_StronglySorted. apply by_relevance_confidence_sorted.
Qed.

Lemma expansion_rows_sound (db : Neo4j.Db) (focused_ids : list string)
      (x : StoredNode string * (nat * Q)) :
  In x (Neo4j.expansion db focused_ids) ->
  In (fst x) (Neo4j.g_nodes db)
  /\ ~ In (sn_id (fst x)) focused_ids
  /\ (1 <= fst (snd x))%nat
  /\ exists r, In r (Neo4j.g_rels db)
               /\ 4 # 10 <= se_weight r
               /\ ((se_source_id r = sn_id (fst x) /\ In (se_target_id r) focused_ids)
                   \/ (se_target_id r = sn_id (fst x) /\ In (se_source_id r) focused_ids)).
Proof.
  unfold Neo4j.expansion. intros H. apply firstn_In in H. apply sort_desc_In in H.
  apply in_flat_map in H. destruct H as [connected [Hin Hx]].
  destruct (mem_str (sn_id connected) focused_ids) eqn:Em; [destruct Hx|].
  match type of Hx with
  | In _ (match ?found with _ => _ end) => destruct found as [|r others] eqn:Er
  end; [destruct Hx|].
  destruct Hx as [<- | []]. cbn [fst snd].
  split; [exact Hin|]. split.
  { intros Hf. apply mem_str_In in Hf. congruence. }
  split; [cbn; lia|].
  assert (Hr : In r (r :: others)) by (left; reflexivity).
  rewrite <- Er in Hr. apply filter_In in Hr. destruct Hr as [Hr Hc].
  exists r. split; [exact Hr|].
  apply andb_true_iff in Hc. destruct Hc as [Hw Hc]. apply Qgeb_le in Hw.
  split; [exact Hw|].
  apply orb_true_iff in Hc. destruct Hc as [Hc | Hc];
    apply andb_true_iff in Hc; destruct Hc as [E Hm];
    apply String.eqb_eq in E; apply mem_str_In in Hm; auto.
Qed.

(** X19.  The expansion of the graph data base client's audience graph
    adds at most ten rows; each is a stored node that is not among the
    focused nodes and that a relationship of weight at least 0.4 joins to
    a focused node, and carries the relevance score 0.3; the edges of the
    result are at most a hundred, each of weight at least 0.35 and between
    two listed nodes; and the totals are the lengths of the two lists. *)
Theorem neo4j_audience_expansion_and_edges :
  forall (db : Neo4j.Db) (audience : string) (limit : nat),
    let r := Neo4j.get_audience_focused_graph db audience limit in
    let listed := map (fun row => sn_id (ar_node row)) (ag_nodes r) in
    let focused_ids :=
      map (fun row => sn_id (ar_node row))
          (filter (fun row => negb (ar_is_expansion row)) (ag_nodes r)) in
    (List.length (filter ar_is_expansion (ag_nodes r)) <= 10)%nat
    /\ Forall (fun row =>
                 ar_is_expansion row = true ->
                 In (ar_node row) (Neo4j.g_nodes db)
                 /\ ~ In (sn_id (ar_node row)) focused_ids
                 /\ ar_relevance_score row = 3 # 10
                 /\ exists rel,
                     In rel (Neo4j.g_rels db)
                     /\ 4 # 10 <= se_weight rel
                     /\ ((se_source_id rel = sn_id (ar_node row)
                          /\ In (se_target_id rel) focused_ids)
                         \/ (se_target_id rel = sn_id (ar_node row)
                             /\ In (se_source_id rel) focused_ids)))
              (ag_nodes r)
    /\ (List.length (ag_edges r) <= 100)%nat
    /\ Forall (fun e => In (se_source_id e) listed /\ In (se_target_id e) listed
                        /\ 35 # 100 <= se_weight e)
              (ag_edges r)
    /\ weight_descending (ag_edges r)
    /\ ag_total_nodes r = List.length (ag_nodes r)
    /\ ag_total_edges r = List.length (ag_edges r).
Proof.
  intros db audience limit r listed focused_ids.
  unfold focused_ids, listed, r, Neo4j.get_audience_focused_graph.
  set (all_nodes := sort_desc by_confidence _).
  set (audience_nodes := flat_map _ all_nodes).
  assert (Hrows : forall row, In row audience_nodes -> ar_is_expansion row = false).
  { intros row Hrow.
    apply (audience_rows_score audience (1 # 10)
             (fun node score => if String.eqb (sn_type node) "insight"
                                then score * (12 # 10) else score)) in Hrow.
    destruct Hrow as (d & _ & _ & _ & ->). reflexivity. }
  destruct audience_nodes as [|row0 rows0] eqn:Ea.
  - cbn. repeat split; try constructor; lia.
  - rewrite <- Ea in *.
    cbn [ag_nodes ag_edges ag_total_nodes ag_total_edges].
    set (focused := firstn limit (sort_desc Neo4j.by_relevance_confidence audience_nodes)).
    set (ids := map (fun row => sn_id (ar_node row)) focused).
    set (exp := Neo4j.expansion db ids).
    set (exp_rows := map _ exp).
    assert (Hfoc : forall row, In row focused -> ar_is_expansion row = false).
    { intros row Hrow. apply Hrows. unfold focused in Hrow.
      apply firstn_In in Hrow. apply sort_desc_In in Hrow. exact Hrow. }
    assert (Hexp : forall row, In row exp_rows -> ar_is_expansion row = true).
    { intros row Hrow. apply in_map_iff in Hrow. destruct Hrow as [x [<- _]]. reflexivity. }
    assert (E1 : filter ar_is_expansion (focused ++ exp_rows) = exp_rows).
    { rewrite filter_app, filter_none, filter_all; [reflexivity | exact Hexp | exact Hfoc]. }
    assert (E2 : filter (fun row => negb (ar_is_expansion row)) (focused ++ exp_rows)
                 = focused).
    { rewrite filter_app, filter_all, filter_none, app_nil_r; [reflexivity | |].
      - intros row Hrow. rewrite (Hexp row Hrow). reflexivity.
      - intros row Hrow. rewrite (Hfoc row Hrow). reflexivity. }
    rewrite E1, E2. fold ids.
    split.
    { unfold exp_rows. rewrite length_map. unfold exp, Neo4j.expansion.
      apply firstn_le_length. }
    split.
    { apply Forall_forall. intros row Hrow Hmark.
      apply in_app_or in Hrow. destruct Hrow as [Hrow | Hrow].
      - rewrite (Hfoc row Hrow) in Hmark. discriminate Hmark.
      - apply in_map_iff in Hrow. destruct Hrow as [x [<- Hx]]. cbn.
        destruct (expansion_rows_sound db ids x Hx) as (H1 & H2 & _ & H4).
        auto. }
    split.
    { unfold Neo4j.audience_edges. apply firstn_le_length. }
    split.
    { apply Forall_forall. intros e He. unfold Neo4j.audience_edges in He.
      apply firstn_In in He. apply sort_desc_In in He.
      apply in_flat_map in He. destruct He as [rel [Hrel He]].
      match type of He with
      | In _ (if ?c then _ else _) => destruct c eqn:Ec
      end; [|destruct He].
      rewrite !andb_true_iff, !mem_str_In, Qgeb_le in Ec.
      destruct Ec as [[Hs Ht] Hw].
      destruct (String.eqb (se_source_id rel) (se_target_id rel)).
      - destruct He as [<- | []]. auto.
      - destruct He as [<- | [<- | []]]; cbn; auto. }
    split.
    { unfold Neo4j.audience_edges. apply firstn_StronglySorted.
      apply sort_by_weight_descending. }
    split; reflexivity.
Qed.

(** ** The data point extractor *)

Lemma collect_app {A B : Type} (f : A -> option (list B)) (xs ys : list A) :
  collect f (xs ++ ys)
  = bind (collect f xs) (fun p => bind (collect f ys) (fun q => Some (p ++ q))).
Proof.
  induction xs as [|x xs IH]; cbn.
  - destruct (collect f ys); reflexivity.
  - destruct (f x) as [p|]; cbn; [|reflexivity].
    rewrite IH. destruct (collect f xs) as [q|]; cbn; [|reflexivity].
    destruct (collect f ys) as [r|]; cbn; [|reflexivity].
    rewrite app_assoc. reflexivity.
Qed.

Lemma collect_Forall {A B : Type} (P : B -> Prop) (f : A -> option (list B))
      (xs : list A) (result : list B) :
  (forall x ys, In x xs -> f x = Some ys -> Forall P ys) ->
  collect f xs = Some result -> Forall P result.
Proof.
  revert result. induction xs as [|x xs IH]; cbn; intros result Hf H.
  - injection H as <-. constructor.
  - destruct (f x) as [ys|] eqn:Ex; cbn in H; [|discriminate].
    destruct (collect f xs) as [zs|] eqn:Ez; cbn in H; [|discriminate].
    injection H as <-. apply Forall_app. split.
    + apply (Hf x ys); [left; reflexivity | exact Ex].
    + apply IH; [|reflexivity]. intros y ys' Hy. apply Hf. right. exact Hy.
Qed.

Lemma collect_length {A B : Type} (f : A -> option (list B)) (xs : list A)
      (result : list B) :
  (forall x ys, In x xs -> f x = Some ys -> List.length ys = 1%nat) ->
  collect f xs = Some result -> List.length result = List.length xs.
Proof.
  revert result. induction xs as [|x xs IH]; cbn; intros result Hf H.
  - injection H as <-. reflexivity.
  - destruct (f x) as [ys|] eqn:Ex; cbn in H; [|discriminate].
    destruct (collect f xs) as [zs|] eqn:Ez; cbn in H; [|discriminate].
    injection H as <-. rewrite length_app, (Hf x ys), (IH zs); auto.
    intros y ys' Hy. apply Hf. right. exact Hy.
Qed.

Ltac bind_inv H :=
  repeat match type of H with
         | bind ?m _ = Some _ =>
             let E := fresh "E" in
             destruct m eqn:E; cbn [bind] in H; [|discriminate H]
         end.

Section ExtractorFacts.
Variable fmt_1f : Q -> string.
Variable fmt_comma_int : Z -> string.
Variable fmt_comma_float : Q -> string.
Variable py_repr : json -> string.

Lemma dau_points_ok (data source : json) (points : list ExtractedPoint) :
  Extractor._extract_dau_points fmt_1f py_repr data source = Some points ->
  Forall (point_ok source) points.
Proof.
  unfold Extractor._extract_dau_points. intros H. bind_inv H.
  injection H as <-. constructor.
  - unfold point_ok. cbn. repeat split; auto; lia.
  - eapply collect_Forall; [|eassumption].
    intros x ys _ Hx. cbn beta in Hx. bind_inv Hx. injection Hx as <-.
    repeat constructor; cbn; auto; lia.
Qed.

Lemma feature_points_ok (data source : json) (points : list ExtractedPoint) :
  Extractor._extract_feature_points fmt_1f py_repr data source = Some points ->
  Forall (point_ok source) points.
Proof.
  unfold Extractor._extract_feature_points. intros H. bind_inv H.
  eapply collect_Forall; [|eassumption].
  intros x ys _ Hx. cbn beta in Hx. bind_inv Hx. injection Hx as <-.
  repeat constructor; cbn; auto; lia.
Qed.

Lemma revenue_points_ok (data source : json) (points : list ExtractedPoint) :
  Extractor._extract_revenue_points fmt_1f fmt_comma_int fmt_comma_float data source
  = Some points ->
  Forall (point_ok source) points /\ List.length points = 1%nat.
Proof.
  unfold Extractor._extract_revenue_points. intros H. bind_inv H.
  injection H as <-. split; [|reflexivity]. repeat constructor; cbn; auto; lia.
Qed.

Lemma support_points_ok (data source : json) (points : list ExtractedPoint) :
  Extractor._extract_support_points fmt_1f data source = Some points ->
  Forall (point_ok source) points /\ List.length points = 1%nat.
Proof.
  unfold Extractor._extract_support_points. intros H. bind_inv H.
  injection H as <-. split; [|reflexivity]. repeat constructor; cbn; auto; lia.
Qed.

Lemma market_points_ok (data source : json) (points : list ExtractedPoint) :
  Extractor._extract_market_points fmt_comma_int fmt_comma_float data source
  = Some points ->
  Forall (point_ok source) points.
Proof.
  unfold Extractor._extract_market_points. intros H. bind_inv H.
  eapply collect_Forall; [|eassumption].
  intros x ys _ Hx. cbn beta in Hx. bind_inv Hx. injection Hx as <-.
  repeat constructor; cbn; auto; lia.
Qed.

Lemma social_points_ok (data source : json) (points : list ExtractedPoint) :
  Extractor._extract_social_points fmt_1f py_repr data source = Some points ->
  Forall (point_ok source) points /\ List.length points = 1%nat.
Proof.
  unfold Extractor._extract_social_points. intros H. bind_inv H.
  injection H as <-. split; [|reflexivity]. repeat constructor; cbn; auto; lia.
Qed.

Lemma team_points_ok (data source : json) (points : list ExtractedPoint) :
  Extractor._extract_team_points fmt_1f py_repr data source = Some points ->
  Forall (point_ok source) points /\ List.length points = 1%nat.
Proof.
  unfold Extractor._extract_team_points. intros H. bind_inv H.
  injection H as <-. split; [|reflexivity]. repeat constructor; cbn; auto; lia.
Qed.

Lemma dispatch_ok (source_file data source : json) (points : list ExtractedPoint) :
  Extractor.dispatch
    (Extractor.rules fmt_1f fmt_comma_int fmt_comma_float py_repr)
    source_file data source = Some points ->
  Forall (point_ok source) points.
Proof.
  unfold Extractor.rules. cbn [Extractor.dispatch]. intros H.
  repeat match type of H with
         | bind ?m _ = Some _ =>
             let E := fresh "E" in
             let b := fresh "b" in
             destruct m as [b|] eqn:E; cbn [bind] in H; [destruct b|discriminate H]
         end;
    first [ eapply dau_points_ok; eassumption
          | eapply feature_points_ok; eassumption
          | eapply revenue_points_ok; eassumption
          | eapply support_points_ok; eassumption
          | eapply market_points_ok; eassumption
          | eapply social_points_ok; eassumption
          | eapply team_points_ok; eassumption
          | injection H as <-; constructor ].
Qed.

End ExtractorFacts.

Lemma extract_points_ok
      (fmt_1f : Q -> string) (fmt_comma_int : Z -> string)
      (fmt_comma_float : Q -> string) (py_repr : json -> string)
      (data_list : list (list (string * json))) (points : list ExtractedPoint) :
  Extractor.extract_data_points fmt_1f fmt_comma_int fmt_comma_float py_repr data_list
  = Some points ->
  Forall (fun x =>
            (x_type x = "metric" \/ x_type x = "insight")
            /\ (3 <= List.length (x_tags x) <= 4)%nat
            /\ exists data, In data data_list /\ x_source x = source_of data)
         points.
Proof.
  intros H. unfold Extractor.extract_data_points in H.
  eapply collect_Forall; [|exact H].
  intros data ys Hin Hd. cbn beta zeta in Hd.
  apply dispatch_ok in Hd. eapply Forall_impl; [|exact Hd].
  intros x (Ht & Hs & Hl). split; [exact Ht|]. split; [exact Hl|].
  exists data. split; [exact Hin | exact Hs].
Qed.

(** X20.  Every point that [extract_data_points] returns has the type
    "metric" or "insight", the source of the file it comes from (the
    file's [source] member, "unknown" without one) and three or four
    tags. *)
Theorem extracted_points_shape :
  forall (fmt_1f : Q -> string) (fmt_comma_int : Z -> string)
         (fmt_comma_float : Q -> string) (py_repr : json -> string)
         (data_list : list (list (string * json))) (points : list ExtractedPoint),
    Extractor.extract_data_points fmt_1f fmt_comma_int fmt_comma_float py_repr data_list
    = Some points ->
    Forall (fun x =>
              (x_type x = "metric" \/ x_type x = "insight")
              /\ (3 <= List.length (x_tags x) <= 4)%nat
              /\ exists data, In data data_list /\ x_source x = source_of data)
           points.
Proof.
  intros fmt_1f fmt_comma_int fmt_comma_float py_repr data_list points H.
  eapply extract_points_ok. exact H.
Qed.

Lemma extracted_points_shape_witness :
  Forall (fun x =>
            (x_type x = "metric" \/ x_type x = "insight")
            /\ (3 <= List.length (x_tags x) <= 4)%nat
            /\ exists data, In data [revenue_file; notes_file; dau_file]
                            /\ x_source x = source_of data)
         (match Extractor.extract_data_points
                  (fun _ => "0.0") (fun _ => "0") (fun _ => "0.0") (fun _ => "?")
                  [revenue_file; notes_file; dau_file] with
          | Some points => points
          | None => []
          end).
Proof.
  exact (extracted_points_shape
           (fun _ => "0.0") (fun _ => "0") (fun _ => "0.0") (fun _ => "?")
           [revenue_file; notes_file; dau_file] _ eq_refl).
Defined.

(** X21.  [extract_data_points] works file by file and in order: the
    points of a list of files are the points of its first part followed by
    the points of the rest, and an exception in either part is an exception
    of the whole (no partial result). *)
Theorem extraction_is_file_by_file :
  forall (fmt_1f : Q -> string) (fmt_comma_int : Z -> string)
         (fmt_comma_float : Q -> string) (py_repr : json -> string)
         (first rest : list (list (string * json))),
    let extract :=
      Extractor.extract_data_points fmt_1f fmt_comma_int fmt_comma_float py_repr in
    extract (first ++ rest)
    = match extract first, extract rest with
      | Some p, Some q => Some (p ++ q)
      | _, _ => None
      end.
Proof.
  intros fmt_1f fmt_comma_int fmt_comma_float py_repr first rest extract.
  unfold extract, Extractor.extract_data_points. rewrite collect_app.
  destruct (collect _ first); cbn; [|reflexivity].
  destruct (collect _ rest); reflexivity.
Qed.

Lemma dispatch_unknown_kind
      (chain : list (string * (json -> json -> option (list ExtractedPoint))))
      (path : string) (data source : json) :
  Forall (fun kind => is_substring kind path = false) (map fst chain) ->
  Extractor.dispatch chain (JStr path) data source = Some [].
Proof.
  induction chain as [|[kind rule] rest IH]; cbn; intros H; [reflexivity|].
  inversion H as [|? ? Hk Hrest]; subst. rewrite Hk. apply IH. exact Hrest.
Qed.

(** X22.  A file whose source file name holds none of the seven known
    kinds yields no point and raises nothing, whatever else it holds: the
    extraction goes on with the next file.  So does a file without a
    [_file_source] member. *)
Theorem unknown_file_is_skipped :
  forall (fmt_1f : Q -> string) (fmt_comma_int : Z -> string)
         (fmt_comma_float : Q -> string) (py_repr : json -> string)
         (data : list (string * json)) (path : string)
         (rest : list (list (string * json))),
    source_file_of data = JStr path ->
    Forall (fun kind => is_substring kind path = false)
           [ "daily_active_users"; "feature_adoption"; "monthly_recurring_revenue";
             "support_tickets"; "competitor_analysis"; "brand_mentions";
             "internal_kpis" ] ->
    Extractor.extract_data_points fmt_1f fmt_comma_int fmt_comma_float py_repr
                                  (data :: rest)
    = Extractor.extract_data_points fmt_1f fmt_comma_int fmt_comma_float py_repr rest.
Proof.
  intros fmt_1f fmt_comma_int fmt_comma_float py_repr data path rest Hf Hk.
  unfold Extractor.extract_data_points. cbn [collect].
  fold (source_file_of data). rewrite Hf.
  rewrite dispatch_unknown_kind; [|exact Hk]. cbn [bind].
  destruct (collect _ rest); reflexivity.
Qed.

Lemma unknown_file_is_skipped_witness :
  Extractor.extract_data_points (fun _ => "0.0") (fun _ => "0") (fun _ => "0.0")
                                (fun _ => "?") [ [("note", JNull)]; revenue_file ]
  = Extractor.extract_data_points (fun _ => "0.0") (fun _ => "0") (fun _ => "0.0")
                                  (fun _ => "?") [ revenue_file ].
Proof.
  apply (unknown_file_is_skipped
           (fun _ => "0.0") (fun _ => "0") (fun _ => "0.0") (fun _ => "?")
           [("note", JNull)] "unknown" [revenue_file] eq_refl).
  repeat constructor.
Defined.

(** X23.  The number of points per file: a revenue, support, social or
    team file gives exactly one point; a feature file one point per member
    of [features]; a market file one point per member of
    [market_opportunities]; an active-users file one point and one more per
    member of [insights]. *)
Theorem points_per_file :
  forall (fmt_1f : Q -> string) (fmt_comma_int : Z -> string)
         (fmt_comma_float : Q -> string) (py_repr : json -> string)
         (data source : json) (points : list ExtractedPoint),
    (Extractor._extract_revenue_points fmt_1f fmt_comma_int fmt_comma_float data source
     = Some points -> List.length points = 1%nat)
    /\ (Extractor._extract_support_points fmt_1f data source = Some points ->
        List.length points = 1%nat)
    /\ (Extractor._extract_social_points fmt_1f py_repr data source = Some points ->
        List.length points = 1%nat)
    /\ (Extractor._extract_team_points fmt_1f py_repr data source = Some points ->
        List.length points = 1%nat)
    /\ (Extractor._extract_feature_points fmt_1f py_repr data source = Some points ->
        exists features,
          bind (py_get data "features" (JArr [])) py_iter = Some features
          /\ List.length points = List.length features)
    /\ (Extractor._extract_market_points fmt_comma_int fmt_comma_float data source
        = Some points ->
        exists opportunities,
          bind (py_get data "market_opportunities" (JArr [])) py_iter
          = Some opportunities
          /\ List.length points = List.length opportunities)
    /\ (Extractor._extract_dau_points fmt_1f py_repr data source = Some points ->
        exists insights,
          bind (py_get data "insights" (JArr [])) py_iter = Some insights
          /\ List.length points = S (List.length insights)).
Proof.
  intros fmt_1f fmt_comma_int fmt_comma_float py_repr data source points.
  split; [intros H; apply revenue_points_ok in H; tauto|].
  split; [intros H; apply support_points_ok in H; tauto|].
  split; [intros H; apply social_points_ok in H; tauto|].
  split; [intros H; apply team_points_ok in H; tauto|].
  split; [|split].
  - unfold Extractor._extract_feature_points. intros H. bind_inv H.
    eexists. split; [cbn [bind]; eassumption|].
    eapply collect_length; [|exact H].
    intros x ys _ Hx. cbn beta in Hx. bind_inv Hx. injection Hx as <-. reflexivity.
  - unfold Extractor._extract_market_points. intros H. bind_inv H.
    eexists. split; [cbn [bind]; eassumption|].
    eapply collect_length; [|exact H].
    intros x ys _ Hx. cbn beta in Hx. bind_inv Hx. injection Hx as <-. reflexivity.
  - unfold Extractor._extract_dau_points. intros H. bind_inv H.
    injection H as <-. eexists. split; [cbn [bind]; eassumption|].
    cbn [List.length]. f_equal.
    eapply collect_length; [|eassumption].
    intros x ys _ Hx. cbn beta in Hx. bind_inv Hx. injection Hx as <-. reflexivity.
Qed.

(** ** From the extractor to the edges *)

Lemma create_nodes_from_types encode uuid4 round3 (points : list DataPoint) :
  forall (i : nat) (d : list (string * GraphNode)) (n : GraphNode),
    In n (dict_values (create_nodes_from encode uuid4 round3 i points d)) ->
    In n (dict_values d) \/ exists p, In p points /\ n_type n = p_type p.
Proof.
  induction points as [|point rest IH]; intros i d n H; cbn in H; [left; exact H|].
  apply IH in H. destruct H as [H | [p [Hp Ht]]].
  - unfold dict_values in H. apply in_map_iff in H. destruct H as [[k v] [E H]].
    cbn in E. subst v. apply dict_set_cases in H. destruct H as [[_ ->] | H].
    + right. exists point. split; [left; reflexivity | reflexivity].
    + left. unfold dict_values. apply in_map_iff. exists (k, n). auto.
  - right. exists p. split; [right; exact Hp | exact Ht].
Qed.

Lemma influence_needs_event (A B : GraphNode) (s : Q) :
  fst (fst (_analyze_relationship A B s)) = "influence" ->
  n_type A = "event" \/ n_type B = "event".
Proof.
  destruct (analyze_matches_spec A B s) as (Hn & _ & _). rewrite Hn.
  unfold Spec.classify.
  destruct (_ && _); [discriminate|].
  destruct (Spec.one_is "event" A B _) eqn:E; [|discriminate].
  intros _. unfold Spec.one_is in E. apply orb_true_iff in E.
  destruct E as [E | E]; apply andb_true_iff in E; destruct E as [E _];
    apply String.eqb_eq in E; auto.
Qed.

Lemma build_without_event_has_no_influence
      (cosine : list Q -> list Q -> Q) (encode : string -> list Q)
      (uuid4 : nat -> string) (round3 : Q -> Q) (set_order : list string -> list string)
      (similarity_threshold : Q) (data_points : list DataPoint) :
  Forall (fun p => p_type p <> "event") data_points ->
  Forall (fun e => e_relationship_type e <> "influence")
         (edges (build_graph cosine encode uuid4 round3 set_order
                             similarity_threshold data_points)).
Proof.
  intros Hp. apply Forall_forall. intros e He.
  change (In e (semantic_edges cosine set_order similarity_threshold
                  (dict_values (create_nodes_from encode uuid4 round3 0 data_points []))))
    in He.
  apply (in_semantic_edges cosine set_order) in He.
  destruct He as (i & j & n1 & n2 & _ & Hi & Hj & He).
  apply nth_error_In in Hi. apply nth_error_In in Hj.
  apply edge_for_similarity_Some in He. destruct He as (_ & _ & _ & Hr & _).
  rewrite Hr. intros Hinf. apply influence_needs_event in Hinf.
  assert (Hty : forall n,
             In n (dict_values (create_nodes_from encode uuid4 round3 0 data_points []))
             -> n_type n <> "event").
  { intros n Hn. apply create_nodes_from_types in Hn.
    destruct Hn as [[] | [p [Hin Ht]]]. rewrite Ht.
    apply (proj1 (Forall_forall _ _) Hp). exact Hin. }
  destruct Hinf as [E | E]; [apply (Hty n1 Hi E) | apply (Hty n2 Hj E)].
Qed.

(** X24.  A graph built from the points of the extractor never has an
    "influence" edge: the extractor makes no "event" point, and the
    classifier needs one for that type.  Every edge of such a graph is a
    "relevance" or a "causality" edge. *)
Theorem extracted_graph_has_no_influence :
  forall (fmt_1f : Q -> string) (fmt_comma_int : Z -> string)
         (fmt_comma_float : Q -> string) (py_repr : json -> string)
         (cosine : list Q -> list Q -> Q) (encode : string -> list Q)
         (uuid4 : nat -> string) (round3 : Q -> Q)
         (set_order : list string -> list string) (similarity_threshold : Q)
         (data_list : list (list (string * json)))
         (extracted : list ExtractedPoint) (data_points : list DataPoint),
    Extractor.extract_data_points fmt_1f fmt_comma_int fmt_comma_float py_repr data_list
    = Some extracted ->
    Forall2 (fun x p => to_data_point x = Some p) extracted data_points ->
    Forall (fun e => e_relationship_type e = "relevance"
                     \/ e_relationship_type e = "causality")
           (edges (build_graph cosine encode uuid4 round3 set_order
                               similarity_threshold data_points)).
Proof.
  intros fmt_1f fmt_comma_int fmt_comma_float py_repr cosine encode uuid4 round3
         set_order thr data_list extracted data_points Hx Hconv.
  apply extract_points_ok in Hx.
  assert (Hp : Forall (fun p => p_type p <> "event") data_points).
  { clear - Hx Hconv. induction Hconv as [|x p xs ps Hxp _ IH]; [constructor|].
    inversion Hx as [|? ? Hshape Hrest]; subst. constructor; [|apply IH; exact Hrest].
    destruct Hshape as [Ht _]. unfold to_data_point in Hxp.
    destruct (x_content x); try discriminate.
    destruct (x_source x); try discriminate.
    destruct (x_timestamp x); try discriminate.
    destruct (x_confidence x); try discriminate;
      injection Hxp as <-; cbn; destruct Ht as [-> | ->]; discriminate. }
  pose proof (build_without_event_has_no_influence
                cosine encode uuid4 round3 set_order thr data_points Hp) as Hno.
  apply Forall_forall. intros e He.
  pose proof (proj1 (Forall_forall _ _) Hno e He) as H1.
  pose proof (semantic_edges_types
                cosine set_order thr
                (dict_values (create_nodes_from encode uuid4 round3 0 data_points []))
                e He) as H2.
  destruct H2 as [[H2 _] | [[H2 _] | [H2 _]]]; auto. contradiction.
Qed.

Lemma extracted_graph_has_no_influence_witness :
  Forall (fun e => e_relationship_type e = "relevance"
                   \/ e_relationship_type e = "causality")
         (edges (build_graph (fun _ _ => 1) (fun _ => [1]) two_ids (fun q => q)
                             (fun l => l) (25 # 100) sample_data_points)).
Proof.
  apply (extracted_graph_has_no_influence
           (fun _ => "0.0") (fun _ => "0") (fun _ => "0.0") (fun _ => "?")
           (fun _ _ => 1) (fun _ => [1]) two_ids (fun q => q) (fun l => l) (25 # 100)
           [revenue_file; dau_file] sample_extracted sample_data_points eq_refl).
  repeat (constructor; [reflexivity|]). constructor.
Defined.

(** ** Overviews and the web service *)

Lemma dict_get_In {V : Type} (k : string) (d : list (string * V)) :
  In k (map fst d) <-> dict_get k d <> None.
Proof.
  induction d as [|[k2 v2] rest IH]; cbn.
  - split; [intros [] | intros H; apply H; reflexivity].
  - destruct (String.eqb k k2) eqn:E.
    + apply String.eqb_eq in E. subst k2. split; [discriminate | auto].
    + apply String.eqb_neq in E. rewrite <- IH. split.
      * intros [H | H]; [congruence | exact H].
      * auto.
Qed.

Lemma count_key_pos {A : Type} (key : A -> string) (k : string) (xs : list A) :
  count_key key k xs <> 0%nat <-> exists x, In x xs /\ key x = k.
Proof.
  unfold count_key. split.
  - intros H. destruct (filter _ xs) as [|x l] eqn:E; [contradiction H; reflexivity|].
    assert (Hx : In x (filter (fun x => String.eqb (key x) k) xs)) by (rewrite E; left; reflexivity).
    apply filter_In in Hx. destruct Hx as [Hin Hk]. apply String.eqb_eq in Hk. eauto.
  - intros [x [Hin Hk]] H.
    assert (Hx : In x (filter (fun x => String.eqb (key x) k) xs)).
    { apply filter_In. split; [exact Hin | apply String.eqb_eq; exact Hk]. }
    destruct (filter _ xs); [destruct Hx | discriminate H].
Qed.

Lemma tally_keys {A : Type} (key : A -> string) (xs : list A) (k : string) :
  In k (map fst (tally key xs)) <-> exists x, In x xs /\ key x = k.
Proof.
  rewrite dict_get_In, <- count_key_pos.
  destruct (tally_spec key xs) as [_ Hget]. rewrite Hget.
  destruct (count_key key k xs) as [|c]; cbn; split; intros H; congruence.
Qed.

Lemma group_counts_keys {A : Type} (key : A -> string) (xs : list A) :
  NoDup (map fst (group_counts key xs))
  /\ forall k, In k (map fst (group_counts key xs)) <-> exists x, In x xs /\ key x = k.
Proof.
  assert (P : Permutation (map fst (group_counts key xs)) (map fst (tally key xs))).
  { apply Permutation_map. apply sort_desc_perm. }
  split.
  - eapply Permutation_NoDup; [symmetry; exact P|]. apply (tally_spec key xs).
  - intros k. rewrite <- tally_keys. split; apply Permutation_in; [|symmetry]; exact P.
Qed.

Lemma NoDup_firstn {A : Type} (n : nat) (l : list A) : NoDup l -> NoDup (firstn n l).
Proof.
  intros H. rewrite <- (firstn_skipn n l) in H. apply NoDup_app_remove_r in H. exact H.
Qed.

(** X25.  [GET /api/node-types] fails without a client and otherwise
    lists the types of the stored nodes, each once; [GET /api/sources]
    lists at most ten sources of stored nodes, each once, and every source
    when the stored nodes have at most ten. *)
Theorem api_types_and_sources :
  Api.get_node_types None = None
  /\ Api.get_available_sources None = None
  /\ forall (db : Neo4j.Db),
      exists types sources,
        Api.get_node_types (Some db) = Some types
        /\ Api.get_available_sources (Some db) = Some sources
        /\ NoDup types
        /\ (forall ty, In ty types <-> exists n, In n (Neo4j.g_nodes db) /\ sn_type n = ty)
        /\ NoDup sources
        /\ (List.length sources <= 10)%nat
        /\ (forall s, In s sources -> exists n, In n (Neo4j.g_nodes db) /\ sn_source n = s)
        /\ ((List.length (set_of (map sn_source (Neo4j.g_nodes db))) <= 10)%nat ->
            forall n, In n (Neo4j.g_nodes db) -> In (sn_source n) sources).
Proof.
  split; [reflexivity | split; [reflexivity|]]. intros db.
  eexists. eexists. split; [reflexivity | split; [reflexivity|]].
  cbn [Neo4jMore.get_graph_overview ov_node_types ov_top_sources].
  destruct (group_counts_keys sn_type (Neo4j.g_nodes db)) as [Tnd Tin].
  destruct (group_counts_keys sn_source (Neo4j.g_nodes db)) as [Snd Sin].
  split; [exact Tnd|]. split; [exact Tin|].
  rewrite <- firstn_map.
  split; [apply NoDup_firstn; exact Snd|].
  split; [apply firstn_le_length|].
  split.
  - intros s Hs. apply firstn_In in Hs. apply Sin. exact Hs.
  - intros Hlen n Hn. rewrite firstn_all2.
    + apply Sin. exists n. auto.
    + eapply Nat.le_trans; [|exact Hlen].
      apply Nat.eq_le_incl. apply Permutation_length.
      apply NoDup_Permutation; [exact Snd | apply NoDup_nodup|].
      intros s. rewrite Sin. unfold set_of. rewrite nodup_In, in_map_iff.
      split; intros [x [H1 H2]]; exists x; auto.
Qed.

(** ** Broadcasts *)

Lemma broadcast_loop_all (sends : nat -> bool) (pending active : list nat) :
  forallb sends pending = true ->
  Api.broadcast_loop sends pending active = Api.mkBroadcast active pending false.
Proof.
  induction pending as [|c rest IH]; cbn; intros H; [reflexivity|].
  apply andb_true_iff in H. destruct H as [Hc Hrest].
  rewrite Hc, (IH Hrest). reflexivity.
Qed.

Lemma broadcast_loop_fails (sends : nat -> bool) (before after active : list nat)
      (c : nat) :
  forallb sends before = true -> sends c = false ->
  Api.broadcast_loop sends (before ++ c :: after) active
  = Api.mkBroadcast (Api.disconnect c active) before true.
Proof.
  induction before as [|b before IH]; cbn; intros Hb Hc.
  - rewrite Hc. reflexivity.
  - apply andb_true_iff in Hb. destruct Hb as [Hb Hrest].
    rewrite Hb, (IH Hrest Hc). reflexivity.
Qed.

(** X26.  [broadcast] sends the message to the connections in the order
    of their arrival.  When every send succeeds, all of them receive it and
    the connections stay as they are.  At the first send that fails the
    broadcast stops with an exception: the connections before it have the
    message, the failing connection is removed once, and the connections
    after it are not sent the message. *)
Theorem broadcast_stops_at_first_failure :
  forall (sends : nat -> bool) (active_connections : list nat),
    (forallb sends active_connections = true ->
     Api.broadcast sends active_connections
     = Api.mkBroadcast active_connections active_connections false)
    /\ (forall before failing after,
           active_connections = before ++ failing :: after ->
           forallb sends before = true -> sends failing = false ->
           Api.broadcast sends active_connections
           = Api.mkBroadcast (Api.remove_first failing active_connections) before true).
Proof.
  intros sends active. split.
  - intros H. apply broadcast_loop_all. exact H.
  - intros before c after E Hb Hc. unfold Api.broadcast.
    rewrite E at 1. rewrite (broadcast_loop_fails sends before after active c Hb Hc).
    f_equal. unfold Api.disconnect.
    assert (Hin : existsb (Nat.eqb c) active = true).
    { apply existsb_exists. exists c. split; [|apply Nat.eqb_refl].
      rewrite E. apply in_or_app. right. left. reflexivity. }
    rewrite Hin. reflexivity.
Qed.

(** ** Audience insights *)

Lemma insights_step_sources (i : Neo4jMore.AudienceInsights) (node : AudienceRow string) :
  Neo4jMore.data_sources (Neo4jMore.insights_step i node)
  = dict_incr (sn_source (ar_node node)) (Neo4jMore.data_sources i).
Proof.
  unfold Neo4jMore.insights_step.
  destruct (Qgeb _ (8 # 10)); [reflexivity|]. destruct (Qgeb _ (6 # 10)); reflexivity.
Qed.

Lemma insights_step_metrics (i : Neo4jMore.AudienceInsights) (node : AudienceRow string) :
  Neo4jMore.key_metrics (Neo4jMore.insights_step i node)
  = if Qltb (6 # 10) (ar_relevance_score node)
       && (List.length (Neo4jMore.key_metrics i) <? 5)%nat
    then Neo4jMore.key_metrics i
         ++ [(sn_content (ar_node node), ar_relevance_score node, sn_type (ar_node node))]
    else Neo4jMore.key_metrics i.
Proof.
  unfold Neo4jMore.insights_step.
  destruct (Qgeb _ (8 # 10)); [reflexivity|]. destruct (Qgeb _ (6 # 10)); reflexivity.
Qed.

Lemma insights_step_confidence (i : Neo4jMore.AudienceInsights) (node : AudienceRow string) :
  (Neo4jMore.confidence_high (Neo4jMore.insights_step i node)
   + Neo4jMore.confidence_medium (Neo4jMore.insights_step i node)
   + Neo4jMore.confidence_low (Neo4jMore.insights_step i node)
   = S (Neo4jMore.confidence_high i + Neo4jMore.confidence_medium i
        + Neo4jMore.confidence_low i))%nat.
Proof.
  unfold Neo4jMore.insights_step.
  destruct (Qgeb _ (8 # 10)); [cbn; lia|]. destruct (Qgeb _ (6 # 10)); cbn; lia.
Qed.

Lemma insights_fold_sources (nodes : list (AudienceRow string)) (i : Neo4jMore.AudienceInsights) :
  Neo4jMore.data_sources (fold_left Neo4jMore.insights_step nodes i)
  = fold_left (fun d node => dict_incr (sn_source (ar_node node)) d) nodes
              (Neo4jMore.data_sources i).
Proof.
  revert i. induction nodes as [|node rest IH]; intros i; cbn; [reflexivity|].
  rewrite IH, insights_step_sources. reflexivity.
Qed.

Lemma insights_fold_confidence (nodes : list (AudienceRow string)) (i : Neo4jMore.AudienceInsights) :
  let r := fold_left Neo4jMore.insights_step nodes i in
  (Neo4jMore.confidence_high r + Neo4jMore.confidence_medium r + Neo4jMore.confidence_low r
   = Neo4jMore.confidence_high i + Neo4jMore.confidence_medium i
     + Neo4jMore.confidence_low i + List.length nodes)%nat.
Proof.
  revert i. induction nodes as [|node rest IH]; intros i; cbn zeta; cbn [fold_left List.length].
  - lia.
  - specialize (IH (Neo4jMore.insights_step i node)). cbn zeta in IH.
    rewrite IH, insights_step_confidence. lia.
Qed.

Lemma insights_fold_metrics (nodes : list (AudienceRow string)) (i : Neo4jMore.AudienceInsights) :
  Neo4jMore.key_metrics (fold_left Neo4jMore.insights_step nodes i)
  = Neo4jMore.key_metrics i
    ++ firstn (5 - List.length (Neo4jMore.key_metrics i))
         (map (fun node => (sn_content (ar_node node), ar_relevance_score node,
                            sn_type (ar_node node)))
              (filter (fun node => Qltb (6 # 10) (ar_relevance_score node)) nodes)).
Proof.
  revert i. induction nodes as [|node rest IH]; intros i; cbn [fold_left filter].
  - rewrite firstn_nil, app_nil_r. reflexivity.
  - rewrite IH, insights_step_metrics.
    destruct (Qltb (6 # 10) (ar_relevance_score node)) eqn:Eq; cbn [andb].
    + destruct (List.length (Neo4jMore.key_metrics i) <? 5)%nat eqn:El.
      * apply Nat.ltb_lt in El. rewrite length_app. cbn [List.length map].
        replace (5 - List.length (Neo4jMore.key_metrics i))%nat
          with (S (5 - (List.length (Neo4jMore.key_metrics i) + 1)))%nat by lia.
        cbn [firstn]. rewrite <- app_assoc. reflexivity.
      * apply Nat.ltb_ge in El.
        replace (5 - List.length (Neo4jMore.key_metrics i))%nat with 0%nat by lia.
        reflexivity.
    + reflexivity.
Qed.

(** X27.  The insights of an audience graph: the confidence classes high
    (at least 0.8), medium (at least 0.6) and low count every node once;
    the key metrics are the first five nodes with a relevance score above
    0.6, in the order of the nodes; the data sources are at most five, each
    with the number of nodes of that source, in descending order of that
    number; and the top categories are at most three. *)
Theorem audience_insights_shape :
  forall (audience : string) (nodes : list (AudienceRow string)),
    let insights := Neo4jMore._get_audience_insights audience nodes in
    (Neo4jMore.confidence_high insights + Neo4jMore.confidence_medium insights
     + Neo4jMore.confidence_low insights = List.length nodes)%nat
    /\ Neo4jMore.key_metrics insights
       = firstn 5
           (map (fun node => (sn_content (ar_node node), ar_relevance_score node,
                              sn_type (ar_node node)))
                (filter (fun node => Qltb (6 # 10) (ar_relevance_score node)) nodes))
    /\ (List.length (Neo4jMore.data_sources insights) <= 5)%nat
    /\ Forall (fun kc =>
                 snd kc = count_key (fun node => sn_source (ar_node node)) (fst kc) nodes
                 /\ (0 < snd kc)%nat)
              (Neo4jMore.data_sources insights)
    /\ StronglySorted (fun a b => (snd b <= snd a)%nat) (Neo4jMore.data_sources insights)
    /\ (List.length (Neo4jMore.top_categories insights) <= 3)%nat.
Proof.
  intros audience nodes insights. unfold insights, Neo4jMore._get_audience_insights.
  cbn [Neo4jMore.confidence_high Neo4jMore.confidence_medium Neo4jMore.confidence_low
       Neo4jMore.key_metrics Neo4jMore.data_sources Neo4jMore.top_categories].
  split.
  { pose proof (insights_fold_confidence nodes (Neo4jMore.mkAudienceInsights [] [] [] 0 0 0))
      as H. cbn zeta in H. rewrite H. reflexivity. }
  split; [rewrite insights_fold_metrics; reflexivity|].
  rewrite insights_fold_sources.
  cbn [Neo4jMore.data_sources].
  change (fold_left (fun d node => dict_incr (sn_source (ar_node node)) d) nodes [])
    with (tally (fun node => sn_source (ar_node node)) nodes).
  fold (group_counts (fun node => sn_source (ar_node node)) nodes).
  split; [apply firstn_le_length|].
  split.
  { apply Forall_forall. intros [k c] Hin. apply firstn_In in Hin.
    apply sort_desc_In in Hin. apply tally_entry in Hin. exact Hin. }
  split; [apply firstn_StronglySorted, group_counts_sorted|].
  apply firstn_le_length.
Qed.

(** X28.  The overview of the graph data base client: the per-type counts
    name distinct types, each with the number of stored nodes of that type,
    in descending order of count, and add up to the number of stored nodes;
    the relationship counts are one row for [RELATES_TO] with the number of
    stored relationships, or no row when there is none; the top sources are
    at most ten, in descending order of count; and the high-confidence
    count is at most the number of stored nodes. *)
Theorem neo4j_overview_counts :
  forall (db : Neo4j.Db),
    let ov := Neo4jMore.get_graph_overview db in
    ov_total_nodes ov = List.length (Neo4j.g_nodes db)
    /\ ov_total_relationships ov = List.length (Neo4j.g_rels db)
    /\ NoDup (dict_keys (ov_node_types ov))
    /\ Forall (fun kc => snd kc = count_key sn_type (fst kc) (Neo4j.g_nodes db)
                         /\ (0 < snd kc)%nat)
              (ov_node_types ov)
    /\ StronglySorted (fun a b => (snd b <= snd a)%nat) (ov_node_types ov)
    /\ total_count (ov_node_types ov) = ov_total_nodes ov
    /\ (exists rows, ov_relationship_types ov = Some rows
                     /\ total_count rows = ov_total_relationships ov
                     /\ Forall (fun kc => fst kc = "RELATES_TO" /\ (0 < snd kc)%nat) rows)
    /\ (List.length (ov_top_sources ov) <= 10)%nat
    /\ Forall (fun kc => snd kc = count_key sn_source (fst kc) (Neo4j.g_nodes db)
                         /\ (0 < snd kc)%nat)
              (ov_top_sources ov)
    /\ StronglySorted (fun a b => (snd b <= snd a)%nat) (ov_top_sources ov)
    /\ (ov_high_confidence_nodes ov <= ov_total_nodes ov)%nat.
Proof.
  intros db ov. unfold ov, Neo4jMore.get_graph_overview.
  cbn [ov_total_nodes ov_total_relationships ov_node_types ov_top_sources
       ov_high_confidence_nodes ov_relationship_types].
  split; [reflexivity | split; [reflexivity|]].
  split; [apply group_counts_keys|].
  split.
  { apply Forall_forall. intros [k c] Hin. apply sort_desc_In in Hin.
    apply tally_entry in Hin. exact Hin. }
  split; [apply group_counts_sorted|].
  split.
  { unfold group_counts. rewrite (total_count_perm _ _ (sort_desc_perm by_count _)).
    unfold tally. rewrite total_count_fold. reflexivity. }
  split.
  { eexists. split; [reflexivity|].
    destruct (Neo4j.g_rels db) as [|r rels]; unfold total_count; cbn.
    - split; [reflexivity | constructor].
    - split; [lia|]. constructor; [split; [reflexivity | cbn; lia] | constructor]. }
  split; [apply firstn_le_length|].
  split.
  { apply Forall_forall. intros [k c] Hin. apply firstn_In in Hin.
    apply sort_desc_In in Hin. apply tally_entry in Hin. exact Hin. }
  split; [apply firstn_StronglySorted, group_counts_sorted|].
  apply filter_length_le.
Qed.

(** ** Edge keys *)

Lemma map_fst_combine_seq {B : Type} (start : nat) (l : list B) :
  map fst (combine (seq start (List.length l)) l) = seq start (List.length l).
Proof.
  revert start. induction l as [|x l IH]; intros start; cbn; [reflexivity|].
  rewrite IH. reflexivity.
Qed.

(** X29.  The keys of the relational client's [edges] table are never
    handed out twice: a load keeps the keys distinct and within the key
    sequence, and after [clear_database] the rows of a new load get keys
    above every key handed out before. *)
Theorem edge_keys_never_reused :
  forall (db : Simple.Db) (file_edges : list GraphEdge),
    keys_within db ->
    NoDup (map fst (Simple.db_edges db)) ->
    let loaded := fst (Simple.load_edges_from_json file_edges db) in
    let reloaded :=
      fst (Simple.load_edges_from_json file_edges (SimpleMore.clear_database db)) in
    keys_within loaded
    /\ NoDup (map fst (Simple.db_edges loaded))
    /\ List.length (Simple.db_edges reloaded) = List.length file_edges
    /\ Forall (fun row => (Simple.db_edge_seq db < fst row)%nat)
              (Simple.db_edges reloaded).
Proof.
  intros db file_edges Hk Hnd loaded reloaded.
  destruct (load_edges_result file_edges db) as (E1 & E2 & _).
  destruct (load_edges_result file_edges (SimpleMore.clear_database db)) as (R1 & _).
  fold loaded in E1, E2. fold reloaded in R1.
  cbn [SimpleMore.clear_database Simple.db_edges Simple.db_edge_seq app] in R1.
  assert (Hseq : forall k, In k (seq (S (Simple.db_edge_seq db)) (List.length file_edges))
                           -> (Simple.db_edge_seq db < k)%nat).
  { intros k Hin. apply in_seq in Hin. lia. }
  split; [|split; [|split]].
  - unfold keys_within. rewrite E1, E2. apply Forall_app. split.
    + eapply Forall_impl; [|exact Hk]. intros row H. cbn beta in H. lia.
    + apply Forall_forall. intros [k row] Hin.
      apply in_combine_l in Hin. apply in_seq in Hin. cbn. lia.
  - rewrite E1, map_app.
    rewrite <- (length_map edge_row file_edges), map_fst_combine_seq.
    apply NoDup_app; [exact Hnd | apply seq_NoDup|].
    intros k Hold Hnew. rewrite length_map in Hnew. apply Hseq in Hnew.
    apply in_map_iff in Hold. destruct Hold as [row [<- Hrow]].
    pose proof (proj1 (Forall_forall _ _) Hk row Hrow) as Hle. cbn beta in Hle. lia.
  - rewrite R1, length_combine, length_seq, length_map. apply Nat.min_id.
  - rewrite R1. apply Forall_forall. intros [k row] Hin.
    apply in_combine_l in Hin. cbn. apply Hseq. exact Hin.
Qed.

Lemma edge_keys_never_reused_witness :
  NoDup (map fst (Simple.db_edges
                    (fst (Simple.load_edges_from_json
                            [mkGraphEdge "a" "b" "relevance" (1 # 2) (7 # 10) (1 # 2) []]
                            Simple.empty)))).
Proof.
  exact (proj1 (proj2 (edge_keys_never_reused
                         Simple.empty
                         [mkGraphEdge "a" "b" "relevance" (1 # 2) (7 # 10) (1 # 2) []]
                         (Forall_nil _) (NoDup_nil nat)))).
Defined.
